(** * Stripe MCP server: tool handlers and the HTTP session router

    A shallow embedding of [stripe/src/index.ts].  The tool handlers
    ([stripe_products], [stripe_prices], [stripe_webhooks],
    [stripe_portal_config], [stripe_query]) are written in a small
    state-and-exception monad over the Stripe client, which logs every
    call it makes.  The HTTP server of [main] is a transition system:
    its state holds the two session registries and the transports
    constructed so far; the request listener and the ['end'] callbacks
    it registers for the body of a POST are transitions, and so are the
    callbacks the program gives to the SDK ([onsessioninitialized],
    [onclose], the ['close'] handler of an SSE response), which run
    while a transport handles a request or at any later time.
    JavaScript built-ins the code calls
    ([JSON.parse], [JSON.stringify], number printing, [toUpperCase],
    property lookup through [Object.prototype]) are fields of a
    [Runtime] record; the SDK's [isInitializeRequest] is a parameter of
    the listener, and what the SDK does during one request is a record
    of answers that the listener is given with the request. *)

From Stdlib Require Import String Ascii List ZArith QArith Qminmax Bool Lia.
From stdpp Require Import base gmap strings list pretty.
Import ListNotations.
Open Scope string_scope.
Set Warnings "-register-all".

(** ** JavaScript values *)

Module JS.

(** A JavaScript number.  Every number a tool receives was decoded from
    JSON and passed zod's [z.number()], so it is a finite double, hence a
    rational; comparison, [Math.min], [Math.max] and truthiness agree
    with the rationals. *)
Definition number : Type := Q.

Inductive JSON : Type :=
| JNull
| JBool (b : bool)
| JNum (n : number)
| JStr (s : string)
| JArr (items : list JSON)
| JObj (props : list (string * JSON)).
Arguments JNum n%_Q_scope.

(** Truthiness of a value of type [string | undefined]: the string when
    it is neither [undefined] nor empty. *)
Definition truthy_string (v : option string) : option string :=
  match v with
  | Some s => if (s =? "")%string then None else Some s
  | None => None
  end.

(** Truthiness of a value of type [number | undefined]. *)
Definition truthy_number (v : option number) : option number :=
  match v with
  | Some n => if Qeq_bool n 0 then None else Some n
  | None => None
  end.

(** Whether a truthiness test passed. *)
Definition passes {A} (v : option A) : bool :=
  match v with
  | Some _ => true
  | None => false
  end.

(** Truthiness of a decoded JSON value. *)
Definition truthy (v : JSON) : bool :=
  match v with
  | JNull => false
  | JBool b => b
  | JNum n => negb (Qeq_bool n 0)
  | JStr s => negb (s =? "")%string
  | JArr _ | JObj _ => true
  end.

(** [obj.key = v] on an object under construction: an own property keeps
    its position, a new one is appended. *)
Fixpoint set_prop (k : string) (v : JSON) (o : list (string * JSON))
  : list (string * JSON) :=
  match o with
  | [] => [(k, v)]
  | (k', v') :: o' =>
      if (k' =? k)%string then (k, v) :: o' else (k', v') :: set_prop k v o'
  end.

Fixpoint get_prop (k : string) (o : list (string * JSON)) : option JSON :=
  match o with
  | [] => None
  | (k', v) :: o' => if (k' =? k)%string then Some v else get_prop k o'
  end.

(** [if (v) obj.key = v] for an optional value with its own truthiness. *)
Definition set_some {A} (v : option A) (k : string) (enc : A -> JSON)
    (o : list (string * JSON)) : list (string * JSON) :=
  match v with
  | Some x => set_prop k (enc x) o
  | None => o
  end.

Definition Math_max (a b : number) : number := Qmax a b.
Definition Math_min (a b : number) : number := Qmin a b.

Arguments Math_max (a b)%_Q_scope.
Arguments Math_min (a b)%_Q_scope.

Definition of_nat (n : nat) : number := inject_Z (Z.of_nat n).

(** What the handlers and the router use of the JavaScript engine. *)
Record Runtime : Type := {
  (** [JSON.parse]: [None] when it throws a [SyntaxError]. *)
  JSON_parse : string -> option JSON;
  (** [JSON.stringify(v, null, space)]; [space] is 0 when the call gives
      none. *)
  JSON_stringify : nat -> JSON -> string;
  (** A number inside a template literal. *)
  Number_toString : number -> string;
  (** [String.prototype.toUpperCase]. *)
  toUpperCase : string -> string;
  (** Whether [Object.prototype] has a property of that name, so that a
      lookup in an object literal used as a map finds it when the map has
      no own entry ([constructor], [toString], [__proto__], ...). *)
  Object_prototype_has : string -> bool
}.

(** A thrown value, as [handleError] tells them apart:
    [error instanceof Error ? error.message : String(error)]. *)
Inductive Thrown : Type :=
| ErrorObject (message : string)
| OtherValue (as_string : string).

End JS.

Export JS.

(** ** The Stripe client, as the handlers see it *)

Module Stripe.

(** The fields of each Stripe object a handler reads, with the rest of
    the object alongside. *)
Record Product : Type := {
  product_name : string;
  product_rest : list (string * JSON)
}.

Record Recurring : Type := {
  interval : string;
  recurring_rest : list (string * JSON)
}.

Record Price : Type := {
  price_unit_amount : option number;   (* number | null *)
  price_currency : string;
  price_recurring : option Recurring;  (* Recurring | null *)
  price_rest : list (string * JSON)
}.

Record WebhookEndpoint : Type := {
  webhook_url : string;
  webhook_rest : list (string * JSON)
}.

Record Configuration : Type := {
  configuration_ident : string;
  configuration_rest : list (string * JSON)
}.

Record ApiList (T : Type) : Type := {
  data : list T;
  has_more : bool
}.
Arguments data {T} _.
Arguments has_more {T} _.

Class ToJSON (T : Type) : Type := to_json : T -> JSON.

#[export] Instance JSON_ToJSON : ToJSON JSON := fun v => v.

#[export] Instance Product_ToJSON : ToJSON Product := fun p =>
  JObj (("name", JStr (product_name p)) :: product_rest p).

#[export] Instance Recurring_ToJSON : ToJSON Recurring := fun r =>
  JObj (("interval", JStr (interval r)) :: recurring_rest r).

Definition nullable {A} (enc : A -> JSON) (v : option A) : JSON :=
  match v with
  | Some x => enc x
  | None => JNull
  end.

#[export] Instance Price_ToJSON : ToJSON Price := fun p =>
  JObj (("unit_amount", nullable JNum (price_unit_amount p))
        :: ("currency", JStr (price_currency p))
        :: ("recurring", nullable to_json (price_recurring p))
        :: price_rest p).

#[export] Instance WebhookEndpoint_ToJSON : ToJSON WebhookEndpoint := fun w =>
  JObj (("url", JStr (webhook_url w)) :: webhook_rest w).

#[export] Instance Configuration_ToJSON : ToJSON Configuration := fun c =>
  JObj (("id", JStr (configuration_ident c)) :: configuration_rest c).

(** One constructor per SDK method the handlers call, with its
    arguments. *)
Inductive StripeCall : Type :=
| products_create (params : JSON)
| products_list (params : JSON)
| products_retrieve (id : string)
| products_update (id : string) (params : JSON)
| prices_create (params : JSON)
| prices_list (params : JSON)
| prices_retrieve (id : string)
| prices_update (id : string) (params : JSON)
| webhookEndpoints_create (params : JSON)
| webhookEndpoints_list (params : JSON)
| webhookEndpoints_retrieve (id : string)
| webhookEndpoints_update (id : string) (params : JSON)
| webhookEndpoints_del (id : string)
| configurations_create (params : JSON)
| configurations_list (params : JSON)
| configurations_retrieve (id : string)
| configurations_update (id : string) (params : JSON)
| events_list (params : JSON)
| charges_list (params : JSON)
| paymentIntents_list (params : JSON)
| customers_list (params : JSON)
| subscriptions_list (params : JSON)
| invoices_list (params : JSON).

(** The type each method resolves to. *)
Definition returns (c : StripeCall) : Type :=
  match c with
  | products_create _ | products_retrieve _ | products_update _ _ => Product
  | products_list _ => ApiList Product
  | prices_create _ | prices_retrieve _ | prices_update _ _ => Price
  | prices_list _ => ApiList Price
  | webhookEndpoints_create _ | webhookEndpoints_retrieve _
  | webhookEndpoints_update _ _ => WebhookEndpoint
  | webhookEndpoints_list _ => ApiList WebhookEndpoint
  | webhookEndpoints_del _ => JSON
  | configurations_create _ | configurations_retrieve _
  | configurations_update _ _ => Configuration
  | configurations_list _ => ApiList Configuration
  | events_list _ | charges_list _ | paymentIntents_list _
  | customers_list _ | subscriptions_list _ | invoices_list _ => ApiList JSON
  end.

(** The client: every call runs against the state [S] of the service
    behind it and either resolves to a value or rejects with a thrown
    one. *)
Definition Client (S : Type) : Type :=
  forall c : StripeCall, S -> (Thrown + returns c) * S.

End Stripe.

Export Stripe.

(** ** The handler monad: Stripe calls, exceptions and the console *)

Module Tools.

(** What a handler does that is visible outside it, in order. *)
Inductive Event : Type :=
| StripeRequest (c : StripeCall)
| ConsoleError (e : Thrown).

Record ContentItem : Type := { type : string; text : string }.

Record ToolResponse : Type := { content : list ContentItem }.

Record World (S : Type) : Type := {
  service : S;
  events : list Event
}.
Arguments service {S} _.
Arguments events {S} _.

(** An asynchronous computation: it resolves or rejects, and leaves the
    service and the event log as it changed them. *)
Definition M (S A : Type) : Type := World S -> (Thrown + A) * World S.

Definition ret {S A} (a : A) : M S A := fun w => (inr a, w).

Definition bind {S A B} (m : M S A) (k : A -> M S B) : M S B := fun w =>
  match m w with
  | (inl e, w') => (inl e, w')
  | (inr a, w') => k a w'
  end.

Definition try_catch {S A} (m : M S A) (handler : Thrown -> M S A) : M S A :=
  fun w =>
    match m w with
    | (inl e, w') => handler e w'
    | (inr a, w') => (inr a, w')
    end.

Definition await_stripe {S} (stripe : Client S) (c : StripeCall)
  : M S (returns c) := fun w =>
  let '(r, s') := stripe c (service w) in
  (r, {| service := s'; events := events w ++ [StripeRequest c] |}).

Definition console_error {S} (e : Thrown) : M S unit := fun w =>
  (inr tt, {| service := service w; events := events w ++ [ConsoleError e] |}).

Declare Scope handler_scope.
Delimit Scope handler_scope with handler.
Notation "'let*' x ':=' m 'in' k" := (bind m (fun x => k))
  (at level 10, x name, m at level 200, k at level 200, only parsing)
  : handler_scope.

(** The Stripe requests among the events of a run. *)
Fixpoint stripe_requests (es : list Event) : list StripeCall :=
  match es with
  | [] => []
  | StripeRequest c :: es' => c :: stripe_requests es'
  | ConsoleError _ :: es' => stripe_requests es'
  end.

Section Common.

Context {S : Type}.
Variable rt : Runtime.

(** [{ content: [{ type: "text", text: JSON.stringify(payload, null, 2) }] }] *)
Definition text_content (payload : JSON) : ToolResponse :=
  {| content := [ {| type := "text"; text := JSON_stringify rt 2 payload |} ] |}.

(** [{ success: false, error }] *)
Definition failure (error : string) : JSON :=
  JObj [("success", JBool false); ("error", JStr error)].

Definition handleError (error : Thrown) : M S JSON :=
  (let* _ := console_error error in
   ret (failure (match error with
                 | ErrorObject message => message
                 | OtherValue as_string => as_string
                 end)))%handler.

(** The metadata block that opens [stripe_products] and [stripe_prices]:
    [inl] is the early return, [inr] the value of [parsedMetadata]. *)
Definition parse_metadata (metadata : option string)
  : ToolResponse + option JSON :=
  match truthy_string metadata with
  | Some m =>
      match JSON_parse rt m with
      | Some v => inr (Some v)
      | None => inl (text_content (failure "Invalid metadata JSON format"))
      end
  | None => inr None
  end.

Definition invalid_metadata : ToolResponse :=
  text_content (failure "Invalid metadata JSON format").

(** [parsedMetadata] when [if (parsedMetadata)] passes. *)
Definition truthy_value (v : option JSON) : option JSON :=
  match v with
  | Some j => if truthy j then Some j else None
  | None => None
  end.

Definition strings (l : list string) : JSON := JArr (map JStr l).

(** [`Found ${n} ...`] *)
Definition count_text (n : nat) : string := Number_toString rt (of_nat n).

End Common.

(** Unfolding of the handler monad. *)
Ltac handler_steps :=
  unfold try_catch, bind, ret, await_stripe, handleError, console_error;
  simpl.

(** Case analysis on the literals a string is compared with. *)
Ltac by_literal s :=
  repeat match goal with
         | |- context [String.eqb s ?lit] =>
             destruct (String.eqb_spec s lit) as [-> | ?]
         | H : context [String.eqb s ?lit] |- _ =>
             destruct (String.eqb_spec s lit) as [-> | ?]
         end.

End Tools.

Export Tools.
Open Scope handler_scope.

(** ** [stripe_products] *)

Module Products.

Record Args : Type := {
  action : string;
  product_id : option string;
  name : option string;
  description : option string;
  images : option (list string);
  metadata : option string;
  active : option bool
}.

Section Handler.

Context {S : Type}.
Variable rt : Runtime.
Variable stripe : Client S.

Definition success (product : JSON) (message : string) : JSON :=
  JObj [("success", JBool true); ("product", product);
        ("message", JStr message)].

Definition switch_action (a : Args) (parsedMetadata : option JSON)
  : M S ToolResponse :=
  if (action a =? "create")%string then
    match truthy_string (name a) with
    | None =>
        ret (text_content rt
               (failure "Product name is required for create action"))
    | Some name =>
        let createParams := [("name", JStr name)] in
        let createParams :=
          set_some (truthy_string (description a)) "description" JStr
                   createParams in
        let createParams := set_some (images a) "images" strings createParams in
        let createParams :=
          set_some (truthy_value parsedMetadata) "metadata" id createParams in
        let* product := await_stripe stripe (products_create (JObj createParams)) in
        ret (text_content rt
               (success (to_json product)
                  ("Successfully created product: " ++ product_name product)))
    end
  else if (action a =? "list")%string then
    let* products :=
      await_stripe stripe (products_list (JObj [("limit", JNum 100)])) in
    ret (text_content rt
           (JObj [("success", JBool true);
                  ("products", JArr (map to_json (data products)));
                  ("message",
                   JStr ("Found " ++ count_text rt (length (data products))
                         ++ " product(s)"))]))
  else if (action a =? "retrieve")%string then
    match truthy_string (product_id a) with
    | None =>
        ret (text_content rt
               (failure "Product ID is required for retrieve action"))
    | Some product_id =>
        let* retrievedProduct :=
          await_stripe stripe (products_retrieve product_id) in
        ret (text_content rt
               (success (to_json retrievedProduct)
                  ("Retrieved product: " ++ product_name retrievedProduct)))
    end
  else if (action a =? "update")%string then
    match truthy_string (product_id a) with
    | None =>
        ret (text_content rt
               (failure "Product ID is required for update action"))
    | Some product_id =>
        let updateParams := [] in
        let updateParams :=
          set_some (truthy_string (name a)) "name" JStr updateParams in
        let updateParams :=
          set_some (description a) "description" JStr updateParams in
        let updateParams := set_some (images a) "images" strings updateParams in
        let updateParams :=
          set_some (truthy_value parsedMetadata) "metadata" id updateParams in
        let updateParams := set_some (active a) "active" JBool updateParams in
        let* updatedProduct :=
          await_stripe stripe (products_update product_id (JObj updateParams)) in
        ret (text_content rt
               (success (to_json updatedProduct)
                  ("Successfully updated product: "
                   ++ product_name updatedProduct)))
    end
  else if (action a =? "archive")%string then
    match truthy_string (product_id a) with
    | None =>
        ret (text_content rt
               (failure "Product ID is required for archive action"))
    | Some product_id =>
        let* archivedProduct :=
          await_stripe stripe
            (products_update product_id (JObj [("active", JBool false)])) in
        ret (text_content rt
               (success (to_json archivedProduct)
                  ("Successfully archived product: "
                   ++ product_name archivedProduct)))
    end
  else
    ret (text_content rt (failure ("Unknown action: " ++ action a))).

Definition stripe_products (a : Args) : M S ToolResponse :=
  try_catch
    match parse_metadata rt (metadata a) with
    | inl invalid => ret invalid
    | inr parsedMetadata => switch_action a parsedMetadata
    end
    (fun error => let* e := handleError error in ret (text_content rt e)).

End Handler.

End Products.

(** ** [stripe_prices] *)

Module Prices.

Record Args : Type := {
  action : string;
  price_id : option string;
  product_id : option string;
  unit_amount : option number;
  currency : option string;
  recurring_interval : option string;
  recurring_interval_count : option number;
  metadata : option string;
  active : option bool
}.

Section Handler.

Context {S : Type}.
Variable rt : Runtime.
Variable stripe : Client S.

Definition success (price : JSON) (message : string) : JSON :=
  JObj [("success", JBool true); ("price", price); ("message", JStr message)].

(** [`${p.unit_amount ? (p.unit_amount / 100) : 'custom'} ${p.currency.toUpperCase()}`];
    the quotient is rounded to a double before it is printed, which
    [Number_toString] covers. *)
Definition amount_text (p : Price) : string :=
  match truthy_number (price_unit_amount p) with
  | Some unit_amount => Number_toString rt (unit_amount / 100)%Q
  | None => "custom"
  end ++ " " ++ toUpperCase rt (price_currency p).

(** [`${p.recurring ? ` per ${p.recurring.interval}` : ''}`] *)
Definition recurring_text (p : Price) : string :=
  match price_recurring p with
  | Some recurring => " per " ++ interval recurring
  | None => ""
  end.

Definition switch_action (a : Args) (parsedMetadata : option JSON)
  : M S ToolResponse :=
  let currency := default "usd" (currency a) in
  let recurring_interval_count := default 1%Q (recurring_interval_count a) in
  if (action a =? "create")%string then
    match truthy_string (product_id a), truthy_number (unit_amount a) with
    | Some product_id, Some unit_amount =>
        let createParams :=
          [("product", JStr product_id); ("unit_amount", JNum unit_amount);
           ("currency", JStr currency)] in
        let createParams :=
          set_some (truthy_string (recurring_interval a)) "recurring"
            (fun recurring_interval =>
               JObj [("interval", JStr recurring_interval);
                     ("interval_count", JNum recurring_interval_count)])
            createParams in
        let createParams :=
          set_some (truthy_value parsedMetadata) "metadata" id createParams in
        let* price := await_stripe stripe (prices_create (JObj createParams)) in
        ret (text_content rt
               (success (to_json price)
                  ("Successfully created price: " ++ amount_text price
                   ++ recurring_text price)))
    | _, _ =>
        ret (text_content rt
               (failure
                  "Product ID and unit_amount are required for create action"))
    end
  else if (action a =? "list")%string then
    let listParams := [("limit", JNum 100)] in
    let listParams :=
      set_some (truthy_string (product_id a)) "product" JStr listParams in
    let* prices := await_stripe stripe (prices_list (JObj listParams)) in
    ret (text_content rt
           (JObj [("success", JBool true);
                  ("prices", JArr (map to_json (data prices)));
                  ("message",
                   JStr ("Found " ++ count_text rt (length (data prices))
                         ++ " price(s)"))]))
  else if (action a =? "retrieve")%string then
    match truthy_string (price_id a) with
    | None =>
        ret (text_content rt
               (failure "Price ID is required for retrieve action"))
    | Some price_id =>
        let* retrievedPrice := await_stripe stripe (prices_retrieve price_id) in
        ret (text_content rt
               (success (to_json retrievedPrice)
                  ("Retrieved price: " ++ amount_text retrievedPrice)))
    end
  else if (action a =? "update")%string then
    match truthy_string (price_id a) with
    | None =>
        ret (text_content rt
               (failure "Price ID is required for update action"))
    | Some price_id =>
        let updateParams := [] in
        let updateParams :=
          set_some (truthy_value parsedMetadata) "metadata" id updateParams in
        let updateParams := set_some (active a) "active" JBool updateParams in
        let* updatedPrice :=
          await_stripe stripe (prices_update price_id (JObj updateParams)) in
        ret (text_content rt
               (success (to_json updatedPrice)
                  ("Successfully updated price: " ++ amount_text updatedPrice)))
    end
  else if (action a =? "archive")%string then
    match truthy_string (price_id a) with
    | None =>
        ret (text_content rt
               (failure "Price ID is required for archive action"))
    | Some price_id =>
        let* archivedPrice :=
          await_stripe stripe
            (prices_update price_id (JObj [("active", JBool false)])) in
        ret (text_content rt
               (success (to_json archivedPrice)
                  ("Successfully archived price: "
                   ++ amount_text archivedPrice)))
    end
  else
    ret (text_content rt (failure ("Unknown action: " ++ action a))).

Definition stripe_prices (a : Args) : M S ToolResponse :=
  try_catch
    match parse_metadata rt (metadata a) with
    | inl invalid => ret invalid
    | inr parsedMetadata => switch_action a parsedMetadata
    end
    (fun error => let* e := handleError error in ret (text_content rt e)).

End Handler.

End Prices.

(** ** [stripe_webhooks] *)

Module Webhooks.

Record Args : Type := {
  action : string;
  webhook_id : option string;
  url : option string;
  enabled_events : option (list string);
  description : option string;
  enabled : option bool
}.

Section Handler.

Context {S : Type}.
Variable rt : Runtime.
Variable stripe : Client S.

Definition success (webhook : JSON) (message : string) : JSON :=
  JObj [("success", JBool true); ("webhook", webhook);
        ("message", JStr message)].

(** [url.startsWith('https://')] *)
Definition startsWith (s p : string) : bool := String.prefix p s.

Definition stripe_webhooks (a : Args) : M S ToolResponse :=
  try_catch
    (if (action a =? "create")%string then
       match truthy_string (url a), enabled_events a with
       | Some url, Some enabled_events =>
           if negb (startsWith url "https://") then
             ret (text_content rt
                    (failure "Webhook URL must start with https://"))
           else
             let createParams :=
               [("url", JStr url); ("enabled_events", strings enabled_events)] in
             let createParams :=
               set_some (truthy_string (description a)) "description" JStr
                        createParams in
             let* webhook :=
               await_stripe stripe
                 (webhookEndpoints_create (JObj createParams)) in
             ret (text_content rt
                    (success (to_json webhook)
                       ("Successfully created webhook endpoint: "
                        ++ webhook_url webhook)))
       | _, _ =>
           ret (text_content rt
                  (failure
                     "URL and enabled_events are required for create action"))
       end
     else if (action a =? "list")%string then
       let* webhooks :=
         await_stripe stripe
           (webhookEndpoints_list (JObj [("limit", JNum 100)])) in
       ret (text_content rt
              (JObj [("success", JBool true);
                     ("webhooks", JArr (map to_json (data webhooks)));
                     ("message",
                      JStr ("Found " ++ count_text rt (length (data webhooks))
                            ++ " webhook endpoint(s)"))]))
     else if (action a =? "retrieve")%string then
       match truthy_string (webhook_id a) with
       | None =>
           ret (text_content rt
                  (failure "Webhook ID is required for retrieve action"))
       | Some webhook_id =>
           let* retrievedWebhook :=
             await_stripe stripe (webhookEndpoints_retrieve webhook_id) in
           ret (text_content rt
                  (success (to_json retrievedWebhook)
                     ("Retrieved webhook endpoint: "
                      ++ webhook_url retrievedWebhook)))
       end
     else if (action a =? "update")%string then
       match truthy_string (webhook_id a) with
       | None =>
           ret (text_content rt
                  (failure "Webhook ID is required for update action"))
       | Some webhook_id =>
           let updateParams := [] in
           let updateParams :=
             set_some (truthy_string (url a)) "url" JStr updateParams in
           let updateParams :=
             set_some (enabled_events a) "enabled_events" strings
                      updateParams in
           let updateParams :=
             set_some (description a) "description" JStr updateParams in
           let updateParams :=
             set_some (enabled a) "disabled"
                      (fun enabled => JBool (negb enabled)) updateParams in
           let* updatedWebhook :=
             await_stripe stripe
               (webhookEndpoints_update webhook_id (JObj updateParams)) in
           ret (text_content rt
                  (success (to_json updatedWebhook)
                     ("Successfully updated webhook endpoint: "
                      ++ webhook_url updatedWebhook)))
       end
     else if (action a =? "delete")%string then
       match truthy_string (webhook_id a) with
       | None =>
           ret (text_content rt
                  (failure "Webhook ID is required for delete action"))
       | Some webhook_id =>
           let* deletedWebhook :=
             await_stripe stripe (webhookEndpoints_del webhook_id) in
           ret (text_content rt
                  (success (to_json deletedWebhook)
                     "Successfully deleted webhook endpoint"))
       end
     else
       ret (text_content rt (failure ("Unknown action: " ++ action a))))
    (fun error => let* e := handleError error in ret (text_content rt e)).

End Handler.

End Webhooks.

(** ** [stripe_portal_config] *)

Module PortalConfig.

Record Args : Type := {
  action : string;
  configuration_id : option string;
  business_profile_headline : option string;
  business_profile_privacy_policy_url : option string;
  business_profile_terms_of_service_url : option string;
  default_return_url : option string;
  features_customer_update_allowed_updates : option (list string);
  features_invoice_history_enabled : option bool;
  features_payment_method_update_enabled : option bool;
  features_subscription_cancel_enabled : option bool;
  features_subscription_pause_enabled : option bool;
  features_subscription_update_enabled : option bool
}.

Section Handler.

Context {S : Type}.
Variable rt : Runtime.
Variable stripe : Client S.

Definition success (configuration : JSON) (message : string) : JSON :=
  JObj [("success", JBool true); ("configuration", configuration);
        ("message", JStr message)].

Definition enabled_flag (b : bool) : JSON := JObj [("enabled", JBool b)].

(** The [features] object literal, with the parameter defaults applied. *)
Definition features (a : Args) : JSON :=
  JObj
    [("invoice_history",
      enabled_flag (default true (features_invoice_history_enabled a)));
     ("payment_method_update",
      enabled_flag (default true (features_payment_method_update_enabled a)));
     ("subscription_cancel",
      enabled_flag (default true (features_subscription_cancel_enabled a)));
     ("subscription_pause",
      enabled_flag (default false (features_subscription_pause_enabled a)));
     ("subscription_update",
      enabled_flag (default true (features_subscription_update_enabled a)))].

(** [if (headline || privacy || terms) { params.business_profile = {}; ... }] *)
Definition set_business_profile (a : Args) (params : list (string * JSON))
  : list (string * JSON) :=
  let headline := truthy_string (business_profile_headline a) in
  let privacy := truthy_string (business_profile_privacy_policy_url a) in
  let terms := truthy_string (business_profile_terms_of_service_url a) in
  if passes headline || passes privacy || passes terms then
    let business_profile := [] in
    let business_profile :=
      set_some headline "headline" JStr business_profile in
    let business_profile :=
      set_some privacy "privacy_policy_url" JStr business_profile in
    let business_profile :=
      set_some terms "terms_of_service_url" JStr business_profile in
    set_prop "business_profile" (JObj business_profile) params
  else params.

(** [params.features.customer_update = { enabled: true, allowed_updates }] *)
Definition set_customer_update (allowed_updates : list string)
    (params : list (string * JSON)) : list (string * JSON) :=
  match get_prop "features" params with
  | Some (JObj features) =>
      set_prop "features"
        (JObj (set_prop "customer_update"
                 (JObj [("enabled", JBool true);
                        ("allowed_updates", strings allowed_updates)])
                 features))
        params
  | _ => params
  end.

Definition stripe_portal_config (a : Args) : M S ToolResponse :=
  try_catch
    (if (action a =? "create")%string then
       let createParams := [("features", features a)] in
       let createParams := set_business_profile a createParams in
       let createParams :=
         set_some (truthy_string (default_return_url a)) "default_return_url"
                  JStr createParams in
       let createParams :=
         match features_customer_update_allowed_updates a with
         | Some allowed_updates => set_customer_update allowed_updates createParams
         | None => createParams
         end in
       let* configuration :=
         await_stripe stripe (configurations_create (JObj createParams)) in
       ret (text_content rt
              (success (to_json configuration)
                 ("Successfully created portal configuration: "
                  ++ configuration_ident configuration)))
     else if (action a =? "list")%string then
       let* configurations :=
         await_stripe stripe
           (configurations_list (JObj [("limit", JNum 100)])) in
       ret (text_content rt
              (JObj [("success", JBool true);
                     ("configurations",
                      JArr (map to_json (data configurations)));
                     ("message",
                      JStr ("Found "
                            ++ count_text rt (length (data configurations))
                            ++ " portal configuration(s)"))]))
     else if (action a =? "retrieve")%string then
       match truthy_string (configuration_id a) with
       | None =>
           ret (text_content rt
                  (failure "Configuration ID is required for retrieve action"))
       | Some configuration_id =>
           let* retrievedConfig :=
             await_stripe stripe (configurations_retrieve configuration_id) in
           ret (text_content rt
                  (success (to_json retrievedConfig)
                     ("Retrieved portal configuration: "
                      ++ configuration_ident retrievedConfig)))
       end
     else if (action a =? "update")%string then
       match truthy_string (configuration_id a) with
       | None =>
           ret (text_content rt
                  (failure "Configuration ID is required for update action"))
       | Some configuration_id =>
           let updateParams := [] in
           let updateParams := set_business_profile a updateParams in
           let updateParams :=
             set_some (truthy_string (default_return_url a))
                      "default_return_url" JStr updateParams in
           let updateParams := set_prop "features" (features a) updateParams in
           let updateParams :=
             match features_customer_update_allowed_updates a with
             | Some allowed_updates =>
                 set_customer_update allowed_updates updateParams
             | None => updateParams
             end in
           let* updatedConfig :=
             await_stripe stripe
               (configurations_update configuration_id (JObj updateParams)) in
           ret (text_content rt
                  (success (to_json updatedConfig)
                     ("Successfully updated portal configuration: "
                      ++ configuration_ident updatedConfig)))
       end
     else
       ret (text_content rt (failure ("Unknown action: " ++ action a))))
    (fun error => let* e := handleError error in ret (text_content rt e)).

End Handler.

End PortalConfig.

(** ** [stripe_query] *)

Module Query.

Record Created : Type := {
  gte : option number;
  lte : option number;
  gt : option number;
  lt : option number
}.

Record Amount : Type := {
  amount_gte : option number;
  amount_lte : option number
}.

Record Filters : Type := {
  created : option Created;
  status : option string;
  type : option string;
  customer : option string;
  subscription : option string;
  invoice : option string;
  payment_intent : option string;
  amount : option Amount
}.

Record Args : Type := {
  resource : string;
  filters : option Filters;
  limit : option number;
  expand : option (list string)
}.

(** [filters = {}] *)
Definition no_filters : Filters :=
  {| created := None; status := None; type := None; customer := None;
     subscription := None; invoice := None; payment_intent := None;
     amount := None |}.

Definition Created_json (c : Created) : JSON :=
  JObj (set_some (lt c) "lt" JNum
          (set_some (gt c) "gt" JNum
             (set_some (lte c) "lte" JNum
                (set_some (gte c) "gte" JNum [])))).

Definition Amount_json (r : Amount) : JSON :=
  JObj (set_some (amount_lte r) "lte" JNum
          (set_some (amount_gte r) "gte" JNum [])).

(** [Math.min(Math.max(limit || 10, 1), 100)], after the parameter
    default [limit = 10]. *)
Definition validLimit (limit : option number) : number :=
  let limit := default 10%Q limit in
  Math_min (Math_max (default 10%Q (truthy_number (Some limit))) 1) 100.

(** The query parameters built from the argument bag. *)
Definition query_params (a : Args) : list (string * JSON) :=
  let filters := default no_filters (filters a) in
  let params := [("limit", JNum (validLimit (limit a)))] in
  let params := set_some (created filters) "created" Created_json params in
  let params := set_some (truthy_string (status filters)) "status" JStr params in
  let params := set_some (truthy_string (type filters)) "type" JStr params in
  let params :=
    set_some (truthy_string (customer filters)) "customer" JStr params in
  let params :=
    set_some (truthy_string (subscription filters)) "subscription" JStr
             params in
  let params :=
    set_some (truthy_string (invoice filters)) "invoice" JStr params in
  let params :=
    set_some (truthy_string (payment_intent filters)) "payment_intent" JStr
             params in
  let params := set_some (amount filters) "amount" Amount_json params in
  let params := set_some (expand a) "expand" strings params in
  params.

(** A list result with its elements as they are serialised. *)
Definition serialised {T} `{ToJSON T} (r : ApiList T) : ApiList JSON :=
  {| data := map to_json (data r); has_more := has_more r |}.

Section Handler.

Context {S : Type}.
Variable rt : Runtime.
Variable stripe : Client S.

(** The [switch (resource)]: [inl] is the early return of its [default]
    branch, [inr] the value of [result]. *)
Definition switch_resource (resource : string) (params : JSON)
  : M S (ToolResponse + ApiList JSON) :=
  if (resource =? "events")%string then
    let* result := await_stripe stripe (events_list params) in
    ret (inr (serialised result))
  else if (resource =? "charges")%string then
    let* result := await_stripe stripe (charges_list params) in
    ret (inr (serialised result))
  else if (resource =? "payment_intents")%string then
    let* result := await_stripe stripe (paymentIntents_list params) in
    ret (inr (serialised result))
  else if (resource =? "customers")%string then
    let* result := await_stripe stripe (customers_list params) in
    ret (inr (serialised result))
  else if (resource =? "subscriptions")%string then
    let* result := await_stripe stripe (subscriptions_list params) in
    ret (inr (serialised result))
  else if (resource =? "invoices")%string then
    let* result := await_stripe stripe (invoices_list params) in
    ret (inr (serialised result))
  else if (resource =? "products")%string then
    let* result := await_stripe stripe (products_list params) in
    ret (inr (serialised result))
  else if (resource =? "prices")%string then
    let* result := await_stripe stripe (prices_list params) in
    ret (inr (serialised result))
  else
    ret (inl (text_content rt
                (failure ("Unsupported resource: " ++ resource)))).

Definition stripe_query (a : Args) : M S ToolResponse :=
  try_catch
    (let params := query_params a in
     let* r := switch_resource (resource a) (JObj params) in
     match r with
     | inl unsupported => ret unsupported
     | inr result =>
         ret (text_content rt
                (JObj [("success", JBool true);
                       ("resource", JStr (resource a));
                       ("count", JNum (of_nat (length (data result))));
                       ("has_more", JBool (has_more result));
                       ("data", JArr (data result));
                       ("message",
                        JStr ("Found " ++ count_text rt (length (data result))
                              ++ " " ++ resource a ++ " record(s)"
                              ++ (if has_more result then " (more available)"
                                  else "")))]))
     end)
    (fun error => let* e := handleError error in ret (text_content rt e)).

End Handler.

End Query.

(** ** [stripe_connect] and the tool registry *)

Module Server.

Record ConnectArgs : Type := {
  purpose : string;
  features : list string
}.

Definition newline : string := String (ascii_of_nat 10) "".

(** [features.join(', ')] *)
Definition join (sep : string) (l : list string) : string := String.concat sep l.

Definition stripe_connect {S} (a : ConnectArgs) : M S ToolResponse :=
  ret {| content :=
           [ {| type := "text";
                text := "Stripe connection requested for: " ++ purpose a
                        ++ newline ++ "Features needed: "
                        ++ join ", " (features a) ++ newline ++ newline
                        ++ "Please ensure the following environment variables are set:"
                        ++ newline ++ "- STRIPE_SECRET_KEY"
                        ++ newline ++ "- STRIPE_PUBLISHABLE_KEY (optional)"
                        ++ newline ++ "- STRIPE_WEBHOOK_SECRET (optional)" |} ] |}.

(** A tool invocation as the dispatcher hands it to a handler: the tool
    and its validated argument bag. *)
Inductive ToolCall : Type :=
| call_stripe_connect (a : ConnectArgs)
| call_stripe_products (a : Products.Args)
| call_stripe_prices (a : Prices.Args)
| call_stripe_webhooks (a : Webhooks.Args)
| call_stripe_portal_config (a : PortalConfig.Args)
| call_stripe_query (a : Query.Args).

Definition call_tool {S} (rt : Runtime) (stripe : Client S) (c : ToolCall)
  : M S ToolResponse :=
  match c with
  | call_stripe_connect a => stripe_connect a
  | call_stripe_products a => Products.stripe_products rt stripe a
  | call_stripe_prices a => Prices.stripe_prices rt stripe a
  | call_stripe_webhooks a => Webhooks.stripe_webhooks rt stripe a
  | call_stripe_portal_config a => PortalConfig.stripe_portal_config rt stripe a
  | call_stripe_query a => Query.stripe_query rt stripe a
  end.

(** A handler run from an empty event log. *)
Definition fresh {S} (s : S) : World S := {| service := s; events := [] |}.

End Server.

Export Server.

(** ** The HTTP request listener of [main] and its session registries *)

Module Http.

Record Request : Type := {
  method : string;
  pathname : string;                (* parse(req.url).pathname *)
  query_sessionId : option string;  (* parse(req.url).query.sessionId *)
  mcp_session_id : option string;   (* req.headers['mcp-session-id'] *)
  body : string                     (* the chunks up to 'end' *)
}.

Inductive Kind : Type := Streamable | SSE.

(** A transport object of the SDK, as far as the listener and its
    callbacks read it. *)
Record Transport : Type := {
  kind : Kind;
  sessionId : option string;
  closed : bool
}.

(** The two registries, and every transport object constructed so far;
    a transport is named by its position in [transports]. *)
Record State : Type := {
  streamableTransports : gmap string nat;
  sseTransports : gmap string nat;
  transports : list Transport
}.

Definition initial : State :=
  {| streamableTransports := ∅; sseTransports := ∅; transports := [] |}.

(** What the listener does to the response and to the SDK. *)
Inductive Action : Type :=
| setHeader (name value : string)
| writeHead (status : nat) (headers : list (string * string))
| end_ (chunk : option string)
| new_StreamableHTTPServerTransport (t : nat)
| new_SSEServerTransport (t : nat)
| server_connect (t : nat)
| transport_handleRequest (t : nat) (parsedBody : option JSON)
| transport_handlePostMessage (t : nat) (message : JSON)
| unhandled_rejection.

(** The actions that put something on the wire. *)
Definition writes_response (a : Action) : bool :=
  match a with
  | writeHead _ _ | end_ _ => true
  | _ => false
  end.

(** The actions that hand the request to a transport. *)
Definition forwards (a : Action) : bool :=
  match a with
  | transport_handleRequest _ _ | transport_handlePostMessage _ _ => true
  | _ => false
  end.

(** What the SDK does while one request is handled: whether
    [server.connect] and the transport's handler reject, the session
    identifier a new SSE transport is constructed with, and what the
    transport does inside [handleRequest] before the promise settles:
    the session identifier it generates and reports to
    [onsessioninitialized], if it does, and whether it closes, which
    calls [onclose]. *)
Record Sdk : Type := {
  connect_rejects : bool;
  handle_rejects : bool;
  sse_sessionId : string;
  handle_initializes : option string;
  handle_closes : bool
}.

(** The value of [registry[key]]: an own entry, or a property inherited
    from [Object.prototype]. *)
Inductive Slot : Type :=
| own (t : nat)
| inherited.

(** The ['end'] callback a POST registers, with what it has captured:
    on [/mcp] the transport found when the request arrived, or none;
    on [/messages] the transport found. *)
Inductive Closure : Type :=
| on_existing (transport : Slot)
| on_deferred
| on_message (transport : Slot).

(** What the listener has done when it returns: it is through with the
    request, or it has registered an ['end'] callback. *)
Inductive Handled : Type :=
| finished (st : State) (actions : list Action)
| awaits_end (callback : Closure).

Section Listener.

Variable rt : Runtime.
Variable isInitializeRequest : JSON -> bool.

Definition property (registry : gmap string nat) (key : string) : option Slot :=
  match registry !! key with
  | Some t => Some (own t)
  | None => if Object_prototype_has rt key then Some inherited else None
  end.

(** [sessionId && streamableTransports[sessionId]] *)
Definition session_transport (st : State) (sessionId : option string)
  : option Slot :=
  match truthy_string sessionId with
  | Some sessionId => property (streamableTransports st) sessionId
  | None => None
  end.

Definition jsonrpc_error (code : Z) (message : string) : JSON :=
  JObj [("jsonrpc", JStr "2.0");
        ("error", JObj [("code", JNum (inject_Z code));
                        ("message", JStr message)]);
        ("id", JNull)].

Definition bad_request (payload : JSON) : list Action :=
  [writeHead 400 [("Content-Type", "application/json")];
   end_ (Some (JSON_stringify rt 0 payload))].

Definition parse_error : list Action :=
  bad_request (jsonrpc_error (-32700) "Parse error").

Definition no_valid_session : list Action :=
  bad_request
    (jsonrpc_error (-32000) "Bad Request: No valid session ID provided").

Definition invalid_or_missing : list Action :=
  [writeHead 400 [("Content-Type", "text/plain")];
   end_ (Some "Invalid or missing session ID")].

(** The SDK assigns [transport.sessionId] and calls
    [onsessioninitialized], which registers the transport. *)
Definition onsessioninitialized (transport : nat) (sessionId : string)
    (st : State) : State :=
  {| streamableTransports := <[sessionId := transport]> (streamableTransports st);
     sseTransports := sseTransports st;
     transports :=
       alter (fun tr => {| kind := kind tr; sessionId := Some sessionId;
                           closed := closed tr |})
             transport (transports st) |}.

(** The transport closes and calls [onclose], which removes the entry of
    [transport.sessionId]. *)
Definition onclose (transport : nat) (st : State) : State :=
  {| streamableTransports :=
       match transports st !! transport ≫= (fun tr => truthy_string (sessionId tr)) with
       | Some sessionId => delete sessionId (streamableTransports st)
       | None => streamableTransports st
       end;
     sseTransports := sseTransports st;
     transports :=
       alter (fun tr => {| kind := kind tr; sessionId := sessionId tr;
                           closed := true |})
             transport (transports st) |}.

(** An open streamable transport that has no session yet. *)
Definition uninitialized (transport : nat) (st : State) : bool :=
  match transports st !! transport with
  | Some {| kind := Streamable; sessionId := None; closed := false |} => true
  | _ => false
  end.

(** What the callbacks do to the state while [transport.handleRequest]
    is awaited.  The SDK initialises a session once: a transport that
    has a session refuses to be initialised again, and its callback is
    not called. *)
Definition handleRequest (transport : nat) (sdk : Sdk) (st : State) : State :=
  let st :=
    match handle_initializes sdk with
    | Some sessionId =>
        if uninitialized transport st
        then onsessioninitialized transport sessionId st
        else st
    | None => st
    end in
  if handle_closes sdk then onclose transport st else st.

(** [await transport.handleRequest(req, res, requestBody)] inside the
    [try]: a value inherited from [Object.prototype] has no such method,
    and the [TypeError] is caught like any other. *)
Definition try_handleRequest (slot : Slot) (requestBody : JSON) (sdk : Sdk)
    (st : State) : State * list Action :=
  match slot with
  | own t =>
      (handleRequest t sdk st,
       transport_handleRequest t (Some requestBody)
       :: (if handle_rejects sdk then parse_error else []))
  | inherited => (st, parse_error)
  end.

(** The ['end'] callback of a POST whose transport was found when the
    request arrived. *)
Definition post_existing (slot : Slot) (req : Request) (sdk : Sdk)
    (st : State) : State * list Action :=
  match JSON_parse rt (body req) with
  | Some requestBody => try_handleRequest slot requestBody sdk st
  | None => (st, parse_error)
  end.

(** The ['end'] callback of a POST for which no transport was found when
    it arrived; it looks at the body, and at the registry again. *)
Definition post_deferred (st : State) (req : Request) (sdk : Sdk)
  : State * list Action :=
  match JSON_parse rt (body req) with
  | None => (st, parse_error)
  | Some requestBody =>
      if negb (passes (truthy_string (mcp_session_id req)))
         && isInitializeRequest requestBody
      then
        let transport := length (transports st) in
        let st :=
          {| streamableTransports := streamableTransports st;
             sseTransports := sseTransports st;
             transports :=
               transports st
               ++ [{| kind := Streamable; sessionId := None;
                      closed := false |}] |} in
        (if connect_rejects sdk then st else handleRequest transport sdk st,
         new_StreamableHTTPServerTransport transport
         :: server_connect transport
         :: (if connect_rejects sdk then parse_error
             else transport_handleRequest transport (Some requestBody)
                  :: (if handle_rejects sdk then parse_error else [])))
      else
        match session_transport st (mcp_session_id req) with
        | Some slot => try_handleRequest slot requestBody sdk st
        | None => (st, no_valid_session)
        end
  end.

(** GET and DELETE have the same body. *)
Definition get_or_delete (st : State) (req : Request) (sdk : Sdk)
  : State * list Action :=
  match session_transport st (mcp_session_id req) with
  | None => (st, invalid_or_missing)
  | Some (own t) =>
      (handleRequest t sdk st,
       transport_handleRequest t None
       :: (if handle_rejects sdk then [unhandled_rejection] else []))
  | Some inherited => (st, [unhandled_rejection])
  end.

(** The [/mcp] branch.  A POST only registers its ['end'] callback. *)
Definition mcp (st : State) (req : Request) (sdk : Sdk) : Handled :=
  if (method req =? "POST")%string then
    match session_transport st (mcp_session_id req) with
    | Some slot => awaits_end (on_existing slot)
    | None => awaits_end on_deferred
    end
  else if (method req =? "GET")%string
  then finished (fst (get_or_delete st req sdk)) (snd (get_or_delete st req sdk))
  else if (method req =? "DELETE")%string
  then finished (fst (get_or_delete st req sdk)) (snd (get_or_delete st req sdk))
  else finished st [].

Definition sse (st : State) (sdk : Sdk) : State * list Action :=
  let transport := length (transports st) in
  let sessionId := sse_sessionId sdk in
  ({| streamableTransports := streamableTransports st;
      sseTransports := <[sessionId := transport]> (sseTransports st);
      transports :=
        transports st
        ++ [{| kind := SSE; sessionId := Some sessionId; closed := false |}] |},
   new_SSEServerTransport transport
   :: server_connect transport
   :: (if connect_rejects sdk then [unhandled_rejection] else [])).

Definition error_body (message : string) : string :=
  JSON_stringify rt 0 (JObj [("error", JStr message)]).

Definition invalid_json : list Action :=
  [writeHead 400 [("Content-Type", "application/json")];
   end_ (Some (error_body "Invalid JSON"))].

(** The ['end'] callback of a POST to [/messages]. *)
Definition post_message (slot : Slot) (req : Request) (sdk : Sdk)
  : list Action :=
  match JSON_parse rt (body req), slot with
  | Some message, own t =>
      transport_handlePostMessage t message
      :: (if handle_rejects sdk then invalid_json else [])
  | _, _ => invalid_json
  end.

Definition messages (st : State) (req : Request) : Handled :=
  (* an absent query parameter indexes the registry as "undefined" *)
  let sessionId := default "undefined" (query_sessionId req) in
  match property (sseTransports st) sessionId with
  | Some slot => awaits_end (on_message slot)
  | None =>
      finished st
        [writeHead 400 [("Content-Type", "application/json")];
         end_ (Some (error_body "No transport found for sessionId"))]
  end.

Definition health : list Action :=
  [writeHead 200 [("Content-Type", "application/json")];
   end_ (Some (JSON_stringify rt 0
                 (JObj [("status", JStr "healthy");
                        ("service", JStr "stripe-mcp-server");
                        ("version", JStr "1.0.0");
                        ("transport", JStr "http");
                        ("protocol", JStr "streamable-http-with-sse-fallback")])))].

Definition index : list Action :=
  [writeHead 200 [("Content-Type", "application/json")];
   end_ (Some (JSON_stringify rt 0
                 (JObj [("name", JStr "Stripe MCP Server");
                        ("version", JStr "1.0.0");
                        ("description",
                         JStr "Model Context Protocol server for Stripe integration");
                        ("transport", JStr "http");
                        ("protocol", JStr "streamable-http-with-sse-fallback");
                        ("endpoints",
                         JObj [("mcp", JStr "/mcp (POST/GET/DELETE) - Modern Streamable HTTP");
                               ("sse", JStr "/sse (GET) - Legacy SSE stream");
                               ("messages", JStr "/messages (POST) - Legacy SSE messages");
                               ("health", JStr "/health - Health check")]);
                        ("tools",
                         strings ["stripe_connect"; "stripe_products";
                                  "stripe_prices"; "stripe_webhooks";
                                  "stripe_portal_config"; "stripe_query"])])))].

Definition not_found : list Action :=
  [writeHead 404 [("Content-Type", "application/json")];
   end_ (Some (error_body "Not found"))].

Definition cors : list Action :=
  [setHeader "Access-Control-Allow-Origin" "*";
   setHeader "Access-Control-Allow-Methods" "GET, POST, DELETE, OPTIONS";
   setHeader "Access-Control-Allow-Headers"
             "Content-Type, Authorization, Mcp-Session-Id";
   setHeader "Access-Control-Expose-Headers" "Mcp-Session-Id"].

(** What follows the CORS headers in the callback given to
    [createServer]. *)
Definition route (st : State) (req : Request) (sdk : Sdk) : Handled :=
  if (method req =? "OPTIONS")%string
  then finished st [writeHead 200 []; end_ None]
  else if (pathname req =? "/mcp")%string then mcp st req sdk
  else if (pathname req =? "/sse")%string && (method req =? "GET")%string
  then finished (fst (sse st sdk)) (snd (sse st sdk))
  else if (pathname req =? "/messages")%string
          && (method req =? "POST")%string
  then messages st req
  else if (pathname req =? "/health")%string then finished st health
  else if (pathname req =? "/")%string then finished st index
  else finished st not_found.

(** An ['end'] callback, run in the state the server is in when the
    body of the request is complete. *)
Definition end_callback (callback : Closure) (req : Request) (sdk : Sdk)
    (st : State) : State * list Action :=
  match callback with
  | on_existing slot => post_existing slot req sdk st
  | on_deferred => post_deferred st req sdk
  | on_message slot => (st, post_message slot req sdk)
  end.

(** A request served in one piece: what follows the CORS headers, the
    ['end'] callback running as soon as it is registered. *)
Definition served (st : State) (req : Request) (sdk : Sdk)
  : State * list Action :=
  match route st req sdk with
  | finished st' actions => (st', actions)
  | awaits_end callback => end_callback callback req sdk st
  end.

(** The same with the CORS headers: the request as the server handles
    it when nothing else happens between its arrival and the end of its
    body. *)
Definition listener (st : State) (req : Request) (sdk : Sdk)
  : State * list Action :=
  let '(st', actions) := served st req sdk in
  (st', (cors ++ actions)%list).

(** The ['close'] handler of an SSE response. *)
Definition sse_onclose (sessionId : string) (st : State) : State :=
  {| streamableTransports := streamableTransports st;
     sseTransports := delete sessionId (sseTransports st);
     transports := transports st |}.

(** The response of an SSE transport closes: the transport is closed,
    and the ['close'] handler runs with the identifier it captured. *)
Definition response_closed (transport : nat) (st : State) : State :=
  let st' :=
    {| streamableTransports := streamableTransports st;
       sseTransports := sseTransports st;
       transports :=
         alter (fun tr => {| kind := kind tr; sessionId := sessionId tr;
                             closed := true |})
               transport (transports st) |} in
  match transports st !! transport ≫= sessionId with
  | Some sessionId => sse_onclose sessionId st'
  | None => st'
  end.

(** The server process: the state of the program, and the requests
    whose body has not ended, each with the ['end'] callback the
    listener registered for it. *)
Record Node : Type := {
  program : State;
  awaiting : list (Request * Closure)
}.

Definition boot : Node := {| program := initial; awaiting := [] |}.

(** What can happen to the server. *)
Inductive Event : Type :=
| request (req : Request) (sdk : Sdk)     (* arrives with its body complete *)
| arrived (req : Request) (sdk : Sdk)     (* the listener runs *)
| body_ended (r : nat) (sdk : Sdk)        (* ['end'] of request [r] *)
| session_initialized (transport : nat) (sessionId : string)
| transport_closed (transport : nat)
| sse_response_closed (transport : nat).

Definition step (n : Node) (e : Event) : Node * list Action :=
  match e with
  | request req sdk =>
      ({| program := fst (listener (program n) req sdk);
          awaiting := awaiting n |},
       snd (listener (program n) req sdk))
  | arrived req sdk =>
      match route (program n) req sdk with
      | finished st actions =>
          ({| program := st; awaiting := awaiting n |}, (cors ++ actions)%list)
      | awaits_end callback =>
          ({| program := program n;
              awaiting := (awaiting n ++ [(req, callback)])%list |}, cors)
      end
  | body_ended r sdk =>
      match awaiting n !! r with
      | Some (req, callback) =>
          ({| program := fst (end_callback callback req sdk (program n));
              awaiting := delete r (awaiting n) |},
           snd (end_callback callback req sdk (program n)))
      | None => (n, [])
      end
  | session_initialized t sessionId =>
      ({| program := onsessioninitialized t sessionId (program n);
          awaiting := awaiting n |}, [])
  | transport_closed t =>
      ({| program := onclose t (program n); awaiting := awaiting n |}, [])
  | sse_response_closed t =>
      ({| program := response_closed t (program n); awaiting := awaiting n |},
       [])
  end.

(** No streamable transport has been given that identifier yet. *)
Definition never_issued (sid : string) (st : State) : bool :=
  forallb (fun tr =>
             match kind tr, sessionId tr with
             | Streamable, Some s => negb (s =? sid)%string
             | _, _ => true
             end) (transports st).

(** An identifier that [randomUUID()] may return: not empty, not a
    property name of [Object.prototype], not handed out before. *)
Definition generated (sid : string) (st : State) : bool :=
  negb (sid =? "")%string
  && negb (Object_prototype_has rt sid)
  && never_issued sid st.

Definition generates (sdk : Sdk) (st : State) : bool :=
  match handle_initializes sdk with
  | Some sid => generated sid st
  | None => true
  end.

(** What the SDK guarantees about its callbacks: a session is
    initialised once, on an open streamable transport, with a generated
    identifier; only an open transport closes. *)
Definition sdk_contract (st : State) (e : Event) : bool :=
  match e with
  | request _ sdk | arrived _ sdk | body_ended _ sdk => generates sdk st
  | session_initialized t sid => uninitialized t st && generated sid st
  | transport_closed t =>
      match transports st !! t with
      | Some {| kind := Streamable; sessionId := _; closed := false |} => true
      | _ => false
      end
  | sse_response_closed t =>
      match transports st !! t with
      | Some {| kind := SSE; sessionId := _; closed := false |} => true
      | _ => false
      end
  end.

(** The server after a sequence of events, with what it did. *)
Fixpoint run (n : Node) (es : list Event) : Node * list Action :=
  match es with
  | [] => (n, [])
  | e :: es' =>
      let '(n', actions) := step n e in
      let '(n'', actions') := run n' es' in
      (n'', (actions ++ actions')%list)
  end.

Fixpoint sdk_contract_all (n : Node) (es : list Event) : bool :=
  match es with
  | [] => true
  | e :: es' =>
      sdk_contract (program n) e && sdk_contract_all (fst (step n e)) es'
  end.

(** What the server process can come to, and the states of the program
    in it. *)
Definition reachable_node (n : Node) : Prop :=
  exists es, sdk_contract_all boot es = true /\ fst (run boot es) = n.

Definition reachable (st : State) : Prop :=
  exists n, reachable_node n /\ program n = st.

(** The registry holds exactly the open, initialised streamable
    transports, each under its own identifier, and no identifier belongs
    to two of them. *)
Definition registered (st : State) (sid : string) (t : nat) : Prop :=
  streamableTransports st !! sid = Some t.

Definition live_session (st : State) (sid : string) (t : nat) : Prop :=
  transports st !! t
  = Some {| kind := Streamable; sessionId := Some sid; closed := false |}.

Definition issued (st : State) (sid : string) (t : nat) : Prop :=
  exists c, transports st !! t
            = Some {| kind := Streamable; sessionId := Some sid; closed := c |}.

Record registry_ok (st : State) : Prop := {
  registry_live : forall sid t, registered st sid t <-> live_session st sid t;
  issued_once : forall sid t1 t2, issued st sid t1 -> issued st sid t2 -> t1 = t2;
  issued_uuid : forall sid t,
      issued st sid t -> sid <> "" /\ Object_prototype_has rt sid = false
}.

(** A transport that an ['end'] callback has captured was registered
    under the identifier of the request's header. *)
Definition captured (st : State) (pending : Request * Closure) : Prop :=
  match snd pending with
  | on_existing (own t) =>
      exists sid, truthy_string (mcp_session_id (fst pending)) = Some sid
                  /\ issued st sid t
  | _ => True
  end.

End Listener.

Arguments handleRequest : simpl never.

End Http.

(** ** Test doubles *)

Module Sample.

Definition quote : string := String (ascii_of_nat 34) "".

Definition quoted (s : string) : string := quote ++ s ++ quote.

Definition print_number (n : number) : string :=
  let n := Qred n in
  if (Qden n =? 1)%positive then pretty (Qnum n)
  else pretty (Qnum n) ++ "/" ++ pretty (Zpos (Qden n)).

(** A compact printer, whatever the indentation asked for. *)
Fixpoint print (v : JSON) : string :=
  match v with
  | JNull => "null"
  | JBool b => if b then "true" else "false"
  | JNum n => print_number n
  | JStr s => quoted s
  | JArr items => "[" ++ String.concat "," (map print items) ++ "]"
  | JObj props =>
      "{" ++ String.concat ","
               (map (fun kv => quoted (fst kv) ++ ":" ++ print (snd kv)) props)
      ++ "}"
  end.

Definition initialize_text : string :=
  "{" ++ quoted "method" ++ ":" ++ quoted "initialize" ++ "}".

Definition ping_text : string :=
  "{" ++ quoted "method" ++ ":" ++ quoted "ping" ++ "}".

(** A parser that knows four texts and rejects every other one, the
    empty text among them. *)
Definition parse (s : string) : option JSON :=
  if (s =? "{}")%string then Some (JObj [])
  else if (s =? "null")%string then Some JNull
  else if (s =? initialize_text)%string
  then Some (JObj [("method", JStr "initialize")])
  else if (s =? ping_text)%string then Some (JObj [("method", JStr "ping")])
  else None.

Definition upper (c : ascii) : ascii :=
  let n := nat_of_ascii c in
  if (97 <=? n)%nat && (n <=? 122)%nat then ascii_of_nat (n - 32) else c.

Fixpoint upper_case (s : string) : string :=
  match s with
  | EmptyString => EmptyString
  | String c s' => String (upper c) (upper_case s')
  end.

(** The property names of [Object.prototype] in V8. *)
Definition Object_prototype_names : list string :=
  ["constructor"; "__defineGetter__"; "__defineSetter__"; "hasOwnProperty";
   "__lookupGetter__"; "__lookupSetter__"; "isPrototypeOf";
   "propertyIsEnumerable"; "toString"; "valueOf"; "__proto__";
   "toLocaleString"].

Definition runtime : Runtime :=
  {| JSON_parse := parse;
     JSON_stringify := fun _ => print;
     Number_toString := print_number;
     toUpperCase := upper_case;
     Object_prototype_has := fun key =>
       existsb (fun k => (k =? key)%string) Object_prototype_names |}.

Definition isInitializeRequest (v : JSON) : bool :=
  match v with
  | JObj props =>
      match get_prop "method" props with
      | Some (JStr m) => (m =? "initialize")%string
      | _ => false
      end
  | _ => false
  end.

Definition widget : Product :=
  {| product_name := "Widget"; product_rest := [("id", JStr "prod_123")] |}.

Definition ten_dollars : Price :=
  {| price_unit_amount := Some 1000%Q; price_currency := "usd";
     price_recurring := None; price_rest := [("id", JStr "price_1")] |}.

Definition hook : WebhookEndpoint :=
  {| webhook_url := "https://example.com/hook";
     webhook_rest := [("id", JStr "we_1")] |}.

Definition portal : Configuration :=
  {| configuration_ident := "bpc_1"; configuration_rest := [] |}.

Definition page {T} (items : list T) : ApiList T :=
  {| data := items; has_more := false |}.

(** A client that answers every call with the same object and counts the
    calls it served. *)
Definition client : Client nat := fun c served =>
  (match c return Thrown + returns c with
   | products_create _ | products_retrieve _ | products_update _ _ => inr widget
   | products_list _ => inr (page [widget])
   | prices_create _ | prices_retrieve _ | prices_update _ _ => inr ten_dollars
   | prices_list _ => inr (page [ten_dollars])
   | webhookEndpoints_create _ | webhookEndpoints_retrieve _
   | webhookEndpoints_update _ _ => inr hook
   | webhookEndpoints_list _ => inr (page [hook])
   | webhookEndpoints_del _ => inr (JObj [("deleted", JBool true)])
   | configurations_create _ | configurations_retrieve _
   | configurations_update _ _ => inr portal
   | configurations_list _ => inr (page [portal])
   | events_list _ | charges_list _ | paymentIntents_list _
   | customers_list _ | subscriptions_list _ | invoices_list _ =>
       inr (page [JObj [("id", JStr "obj_1")]])
   end, Datatypes.S served).

(** A client whose answers change with the calls it has served: the
    n-th listing has n records. *)
Definition growing_client : Client nat := fun c served =>
  (match c return Thrown + returns c with
   | events_list _ => inr (page (repeat (JObj []) served))
   | other => fst (client other served)
   end, Datatypes.S served).

Definition no_query_args : Query.Args :=
  {| Query.resource := "events"; Query.filters := None; Query.limit := None;
     Query.expand := None |}.

(** An SDK that rejects nothing, and whose transports run no callback
    while they handle a request. *)
Definition quiet : Http.Sdk :=
  {| Http.connect_rejects := false; Http.handle_rejects := false;
     Http.sse_sessionId := "sse-1"; Http.handle_initializes := None;
     Http.handle_closes := false |}.

(** The transport initialises its session while it handles the
    request. *)
Definition naming (sessionId : string) : Http.Sdk :=
  {| Http.connect_rejects := false; Http.handle_rejects := false;
     Http.sse_sessionId := "sse-1";
     Http.handle_initializes := Some sessionId;
     Http.handle_closes := false |}.

(** The transport closes while it handles the request. *)
Definition closing : Http.Sdk :=
  {| Http.connect_rejects := false; Http.handle_rejects := false;
     Http.sse_sessionId := "sse-1"; Http.handle_initializes := None;
     Http.handle_closes := true |}.

(** [server.connect] rejects. *)
Definition refusing : Http.Sdk :=
  {| Http.connect_rejects := true; Http.handle_rejects := false;
     Http.sse_sessionId := "sse-1";
     Http.handle_initializes := Some "session-2";
     Http.handle_closes := false |}.

Definition mcp_request (method : string) (session : option string)
    (body : string) : Http.Request :=
  {| Http.method := method; Http.pathname := "/mcp";
     Http.query_sessionId := None; Http.mcp_session_id := session;
     Http.body := body |}.

(** A client initialises a session, and the transport names it while
    it handles the request. *)
Definition handshake : list Http.Event :=
  [Http.request (mcp_request "POST" None initialize_text) (naming "session-1")].

Definition connected : Http.Node :=
  fst (Http.run runtime isInitializeRequest Http.boot handshake).

Definition one_session : Http.State := Http.program connected.

(** The same, and the session is deleted: its transport closes while it
    handles the DELETE. *)
Definition teardown : list Http.Event :=
  (handshake
   ++ [Http.request (mcp_request "DELETE" (Some "session-1") "") closing])%list.

Definition torn_down : Http.State :=
  Http.program (fst (Http.run runtime isInitializeRequest Http.boot teardown)).

End Sample.

(** ** The documented behaviour, as definitions to compare the code with *)

Module Contract.

Definition absent {A} (v : option A) : bool :=
  match v with
  | Some _ => false
  | None => true
  end.

(** The error message a call earns by leaving out an argument its action
    requires, following the argument descriptions of the tool schemas:
    the name for creating a product and its identifier otherwise, the
    product and the amount for creating a price, the URL and the events
    for creating a webhook endpoint, the identifier for the other
    actions. *)
Definition missing_required (c : ToolCall) : option string :=
  match c with
  | call_stripe_connect _ => None
  | call_stripe_products a =>
      let action := Products.action a in
      if (action =? "create")%string then
        if absent (Products.name a)
        then Some "Product name is required for create action" else None
      else if (action =? "retrieve")%string || (action =? "update")%string
              || (action =? "archive")%string then
        if absent (Products.product_id a)
        then Some ("Product ID is required for " ++ action ++ " action")
        else None
      else None
  | call_stripe_prices a =>
      let action := Prices.action a in
      if (action =? "create")%string then
        if absent (Prices.product_id a) || absent (Prices.unit_amount a)
        then Some "Product ID and unit_amount are required for create action"
        else None
      else if (action =? "retrieve")%string || (action =? "update")%string
              || (action =? "archive")%string then
        if absent (Prices.price_id a)
        then Some ("Price ID is required for " ++ action ++ " action")
        else None
      else None
  | call_stripe_webhooks a =>
      let action := Webhooks.action a in
      if (action =? "create")%string then
        if absent (Webhooks.url a) || absent (Webhooks.enabled_events a)
        then Some "URL and enabled_events are required for create action"
        else None
      else if (action =? "retrieve")%string || (action =? "update")%string
              || (action =? "delete")%string then
        if absent (Webhooks.webhook_id a)
        then Some ("Webhook ID is required for " ++ action ++ " action")
        else None
      else None
  | call_stripe_portal_config a =>
      let action := PortalConfig.action a in
      if (action =? "retrieve")%string || (action =? "update")%string then
        if absent (PortalConfig.configuration_id a)
        then Some ("Configuration ID is required for " ++ action ++ " action")
        else None
      else None
  | call_stripe_query _ => None
  end.

(** The metadata argument of a call to the two tools that take one. *)
Definition tool_metadata (c : ToolCall) : option string :=
  match c with
  | call_stripe_products a => Products.metadata a
  | call_stripe_prices a => Prices.metadata a
  | _ => None
  end.

(** The call carries metadata that is not empty and does not parse. *)
Definition metadata_rejected (rt : Runtime) (c : ToolCall) : bool :=
  match tool_metadata c with
  | Some m => negb (m =? "")%string && absent (JSON_parse rt m)
  | None => false
  end.

(** The limit as documented: 10 when absent or zero, else clamped to
    [1, 100]. *)
Definition clamped_limit (limit : option number) : number :=
  match limit with
  | None => 10%Q
  | Some l => if Qeq_bool l 0 then 10%Q else Qmin (Qmax l 1) 100
  end.

(** The listing a resource kind is served by. *)
Definition list_call (resource : string) (params : JSON) : option StripeCall :=
  if (resource =? "events")%string then Some (events_list params)
  else if (resource =? "charges")%string then Some (charges_list params)
  else if (resource =? "payment_intents")%string
  then Some (paymentIntents_list params)
  else if (resource =? "customers")%string then Some (customers_list params)
  else if (resource =? "subscriptions")%string
  then Some (subscriptions_list params)
  else if (resource =? "invoices")%string then Some (invoices_list params)
  else if (resource =? "products")%string then Some (products_list params)
  else if (resource =? "prices")%string then Some (prices_list params)
  else None.

(** The answers of the client do not depend on the state of the service
    behind it. *)
Definition deterministic {S} (stripe : Client S) : Prop :=
  forall c s1 s2, fst (stripe c s1) = fst (stripe c s2).

(** A request that creates a price of amount zero. *)
Definition creates_free_price (c : StripeCall) : bool :=
  match c with
  | prices_create (JObj params) =>
      match get_prop "unit_amount" params with
      | Some (JNum n) => Qeq_bool n 0
      | _ => false
      end
  | _ => false
  end.

End Contract.

Export Contract.

(** ** Start-up: command line, environment and the choice of transport *)

Module Startup.

(** What [parseInt] returns. *)
Inductive Parsed : Type :=
| NaN
| Int (n : number).

Record Config : Type := {
  apiKey : option string;
  publishableKey : option string;
  webhookSecret : option string;
  tools : option string;
  transport : option string;
  port : option Parsed
}.

Definition no_config : Config :=
  {| apiKey := None; publishableKey := None; webhookSecret := None;
     tools := None; transport := None; port := None |}.

Definition set_apiKey (v : option string) (c : Config) : Config :=
  {| apiKey := v; publishableKey := publishableKey c;
     webhookSecret := webhookSecret c; tools := tools c;
     transport := transport c; port := port c |}.

Definition set_publishableKey (v : option string) (c : Config) : Config :=
  {| apiKey := apiKey c; publishableKey := v;
     webhookSecret := webhookSecret c; tools := tools c;
     transport := transport c; port := port c |}.

Definition set_webhookSecret (v : option string) (c : Config) : Config :=
  {| apiKey := apiKey c; publishableKey := publishableKey c;
     webhookSecret := v; tools := tools c;
     transport := transport c; port := port c |}.

Definition set_tools (v : option string) (c : Config) : Config :=
  {| apiKey := apiKey c; publishableKey := publishableKey c;
     webhookSecret := webhookSecret c; tools := v;
     transport := transport c; port := port c |}.

Definition set_transport (v : option string) (c : Config) : Config :=
  {| apiKey := apiKey c; publishableKey := publishableKey c;
     webhookSecret := webhookSecret c; tools := tools c;
     transport := v; port := port c |}.

Definition set_port (v : option Parsed) (c : Config) : Config :=
  {| apiKey := apiKey c; publishableKey := publishableKey c;
     webhookSecret := webhookSecret c; tools := tools c;
     transport := transport c; port := v |}.

(** [s.split(sep)] for a separator of one character. *)
Fixpoint split (sep : ascii) (s : string) : list string :=
  match s with
  | EmptyString => [""]
  | String a s' =>
      if Ascii.eqb a sep then "" :: split sep s'
      else match split sep s' with
           | piece :: pieces => String a piece :: pieces
           | [] => [String a ""]
           end
  end.

(** [arg.split('=')[1]] *)
Definition value_of (arg : string) : option string :=
  nth_error (split "="%char arg) 1.

(** [arg.startsWith(p)] *)
Definition startsWith (arg p : string) : bool := String.prefix p arg.

(** [i + 1 < args.length], with [rest] the arguments after [args[i]]. *)
Definition has_next (rest : list string) : bool :=
  match rest with
  | [] => false
  | _ :: _ => true
  end.

Section ParseArgs.

(** [parseInt(s, 10)] *)
Variable parseInt : string -> Parsed.

(** The loop of [parseArgs] from [args[i]] on; [args[++i]] takes the
    next argument, which the test before it has found to exist. *)
Fixpoint parseArgs_from (args : list string) (config : Config) : Config :=
  match args with
  | [] => config
  | arg :: rest =>
      if startsWith arg "--api-key=" then
        parseArgs_from rest (set_apiKey (value_of arg) config)
      else if (arg =? "--api-key")%string && has_next rest then
        match rest with
        | next :: rest' => parseArgs_from rest' (set_apiKey (Some next) config)
        | [] => config
        end
      else if startsWith arg "--publishable-key=" then
        parseArgs_from rest (set_publishableKey (value_of arg) config)
      else if (arg =? "--publishable-key")%string && has_next rest then
        match rest with
        | next :: rest' =>
            parseArgs_from rest' (set_publishableKey (Some next) config)
        | [] => config
        end
      else if startsWith arg "--webhook-secret=" then
        parseArgs_from rest (set_webhookSecret (value_of arg) config)
      else if (arg =? "--webhook-secret")%string && has_next rest then
        match rest with
        | next :: rest' =>
            parseArgs_from rest' (set_webhookSecret (Some next) config)
        | [] => config
        end
      else if startsWith arg "--tools=" then
        parseArgs_from rest (set_tools (value_of arg) config)
      else if (arg =? "--tools")%string && has_next rest then
        match rest with
        | next :: rest' => parseArgs_from rest' (set_tools (Some next) config)
        | [] => config
        end
      else if startsWith arg "--transport=" then
        parseArgs_from rest (set_transport (value_of arg) config)
      else if (arg =? "--transport")%string && has_next rest then
        match rest with
        | next :: rest' =>
            parseArgs_from rest' (set_transport (Some next) config)
        | [] => config
        end
      else if startsWith arg "--port=" then
        parseArgs_from rest
          (set_port (Some (parseInt (default "undefined" (value_of arg))))
                    config)
      else if (arg =? "--port")%string && has_next rest then
        match rest with
        | next :: rest' =>
            parseArgs_from rest' (set_port (Some (parseInt next)) config)
        | [] => config
        end
      else parseArgs_from rest config
  end.

(** [parseArgs()], with [args] for [process.argv.slice(2)]. *)
Definition parseArgs (args : list string) : Config :=
  parseArgs_from args no_config.

(** [a || b] on values of type [string | undefined]. *)
Definition or_else (a b : option string) : option string :=
  match truthy_string a with
  | Some x => Some x
  | None => b
  end.

(** Truthiness of [cliArgs.port]: a number that is neither [NaN] nor 0. *)
Definition truthy_port (p : option Parsed) : option number :=
  match p with
  | Some (Int n) => truthy_number (Some n)
  | _ => None
  end.

(** The constants the module computes when it is loaded. *)
Record Settings : Type := {
  STRIPE_SECRET_KEY : option string;
  STRIPE_PUBLISHABLE_KEY : option string;
  STRIPE_WEBHOOK_SECRET : option string;
  TRANSPORT_TYPE : string;
  PORT : Parsed
}.

Definition settings (cliArgs : Config) (env : gmap string string) : Settings :=
  {| STRIPE_SECRET_KEY := or_else (apiKey cliArgs) (env !! "STRIPE_SECRET_KEY");
     STRIPE_PUBLISHABLE_KEY :=
       or_else (publishableKey cliArgs) (env !! "STRIPE_PUBLISHABLE_KEY");
     STRIPE_WEBHOOK_SECRET :=
       or_else (webhookSecret cliArgs) (env !! "STRIPE_WEBHOOK_SECRET");
     TRANSPORT_TYPE :=
       default "stdio"
         (truthy_string (or_else (transport cliArgs) (env !! "TRANSPORT_TYPE")));
     PORT :=
       match truthy_port (port cliArgs) with
       | Some n => Int n
       | None =>
           parseInt (default "3000" (truthy_string (env !! "PORT")))
       end |}.

(** How the process goes on after loading the module. *)
Inductive Outcome : Type :=
| process_exit (code : nat)
| http_listen (port : Parsed)
| stdio_connect.

(** The key check at load time, then [main]. *)
Definition start (args : list string) (env : gmap string string) : Outcome :=
  let s := settings (parseArgs args) env in
  match truthy_string (STRIPE_SECRET_KEY s) with
  | None => process_exit 1
  | Some _ =>
      if (TRANSPORT_TYPE s =? "http")%string then http_listen (PORT s)
      else stdio_connect
  end.

End ParseArgs.

(** Whether a character occurs in a string. *)
Fixpoint occurs (c : ascii) (s : string) : bool :=
  match s with
  | EmptyString => false
  | String a s' => Ascii.eqb a c || occurs c s'
  end.

(** A [parseInt] for the sample runs: decimal digits only. *)
Definition digit (a : ascii) : option Z :=
  let n := nat_of_ascii a in
  if (48 <=? n)%nat && (n <=? 57)%nat then Some (Z.of_nat (n - 48)) else None.

Fixpoint digits (s : string) (acc : option Z) : option Z :=
  match s with
  | EmptyString => acc
  | String a s' =>
      match digit a with
      | Some d => digits s' (Some (10 * default 0%Z acc + d)%Z)
      | None => acc
      end
  end.

Definition sample_parseInt (s : string) : Parsed :=
  match digits s None with
  | Some z => Int (inject_Z z)
  | None => NaN
  end.

End Startup.

(** ** Further definitions the properties are stated with *)

Module Shapes.

(** [error instanceof Error ? error.message : String(error)] *)
Definition thrown_message (e : Thrown) : string :=
  match e with
  | ErrorObject message => message
  | OtherValue as_string => as_string
  end.

Definition count_writeHead (actions : list Http.Action) : nat :=
  length (List.filter (fun a => match a with
                           | Http.writeHead _ _ => true
                           | _ => false
                           end) actions).

Definition count_end (actions : list Http.Action) : nat :=
  length (List.filter (fun a => match a with
                           | Http.end_ _ => true
                           | _ => false
                           end) actions).


(** The five flags of a portal configuration, defaults applied, and the
    entry that [features_customer_update_allowed_updates] adds. *)
Definition feature_flags (a : PortalConfig.Args) : list (string * JSON) :=
  [("invoice_history",
    PortalConfig.enabled_flag
      (default true (PortalConfig.features_invoice_history_enabled a)));
   ("payment_method_update",
    PortalConfig.enabled_flag
      (default true (PortalConfig.features_payment_method_update_enabled a)));
   ("subscription_cancel",
    PortalConfig.enabled_flag
      (default true (PortalConfig.features_subscription_cancel_enabled a)));
   ("subscription_pause",
    PortalConfig.enabled_flag
      (default false (PortalConfig.features_subscription_pause_enabled a)));
   ("subscription_update",
    PortalConfig.enabled_flag
      (default true (PortalConfig.features_subscription_update_enabled a)))].

Definition customer_update (a : PortalConfig.Args) : list (string * JSON) :=
  match PortalConfig.features_customer_update_allowed_updates a with
  | Some allowed_updates =>
      [("customer_update",
        JObj [("enabled", JBool true);
              ("allowed_updates", strings allowed_updates)])]
  | None => []
  end.

(** Every entry of the SSE registry names an open SSE transport that
    was constructed with that identifier. *)
Definition sse_registry_ok (st : Http.State) : Prop :=
  forall (sid : string) (t : nat),
    Http.sseTransports st !! sid = Some t ->
    Http.transports st !! t
    = Some {| Http.kind := Http.SSE; Http.sessionId := Some sid;
              Http.closed := false |}.

(** The state with one more transport constructed. *)
Definition constructed (tr : Http.Transport) (st : Http.State) : Http.State :=
  {| Http.streamableTransports := Http.streamableTransports st;
     Http.sseTransports := Http.sseTransports st;
     Http.transports := (Http.transports st ++ [tr])%list |}.

Definition new_streamable : Http.Transport :=
  {| Http.kind := Http.Streamable; Http.sessionId := None;
     Http.closed := false |}.


(** What one request can do to the state.  The listener itself only
    constructs transports; whatever else happens is done by the
    callbacks of the one transport that is handed the request, which
    has a session or has just been constructed. *)
Inductive effect (sdk : Http.Sdk) (st : Http.State) : Http.State -> Prop :=
| effect_none : effect sdk st st
| effect_handled (t : nat) (sid : string) :
    Http.issued st sid t -> effect sdk st (Http.handleRequest t sdk st)
| effect_constructed : effect sdk st (constructed new_streamable st)
| effect_initialized :
    effect sdk st
      (Http.handleRequest (length (Http.transports st)) sdk
         (constructed new_streamable st))
| effect_subscribed : effect sdk st (fst (Http.sse st sdk)).

(** A transport that was given a session keeps it. *)
Definition grows (st st' : Http.State) : Prop :=
  forall sid t, Http.issued st sid t -> Http.issued st' sid t.

(** The invariant of the server process: the registry invariant, and
    every pending ['end'] callback holds a transport that was registered
    under the identifier of its request. *)
Definition node_ok (rt : Runtime) (n : Http.Node) : Prop :=
  Http.registry_ok rt (Http.program n)
  /\ Forall (Http.captured (Http.program n)) (Http.awaiting n).


Definition messages_request (session : option string) (body : string)
  : Http.Request :=
  {| Http.method := "POST"; Http.pathname := "/messages";
     Http.query_sessionId := session; Http.mcp_session_id := None;
     Http.body := body |}.

Definition with_session (req : Http.Request) (session : option string)
  : Http.Request :=
  {| Http.method := Http.method req; Http.pathname := Http.pathname req;
     Http.query_sessionId := Http.query_sessionId req;
     Http.mcp_session_id := session; Http.body := Http.body req |}.

End Shapes.

Export Shapes.

(** ** Sample inputs for the further properties *)

Module Cases.

Definition create_widget : Products.Args :=
  {| Products.action := "create"; Products.product_id := None;
     Products.name := Some "Widget"; Products.description := Some "";
     Products.images := None; Products.metadata := Some "null";
     Products.active := None |}.

Definition update_widget : Products.Args :=
  {| Products.action := "update"; Products.product_id := Some "prod_123";
     Products.name := Some ""; Products.description := Some "";
     Products.images := None; Products.metadata := None;
     Products.active := Some false |}.

Definition archive_widget : Products.Args :=
  {| Products.action := "archive"; Products.product_id := Some "prod_123";
     Products.name := Some "Renamed"; Products.description := None;
     Products.images := None; Products.metadata := Some "{}";
     Products.active := Some true |}.

Definition create_price : Prices.Args :=
  {| Prices.action := "create"; Prices.price_id := None;
     Prices.product_id := Some "prod_1"; Prices.unit_amount := Some 500%Q;
     Prices.currency := Some ""; Prices.recurring_interval := Some "month";
     Prices.recurring_interval_count := None; Prices.metadata := None;
     Prices.active := None |}.

Definition enable_hook : Webhooks.Args :=
  {| Webhooks.action := "update"; Webhooks.webhook_id := Some "we_1";
     Webhooks.url := None; Webhooks.enabled_events := None;
     Webhooks.description := None; Webhooks.enabled := Some true |}.

Definition create_hook : Webhooks.Args :=
  {| Webhooks.action := "create"; Webhooks.webhook_id := None;
     Webhooks.url := Some "https://example.com/hook";
     Webhooks.enabled_events := Some ["charge.succeeded"];
     Webhooks.description := None; Webhooks.enabled := None |}.

Definition retitle_portal : PortalConfig.Args :=
  {| PortalConfig.action := "update";
     PortalConfig.configuration_id := Some "bpc_1";
     PortalConfig.business_profile_headline := Some "Billing";
     PortalConfig.business_profile_privacy_policy_url := None;
     PortalConfig.business_profile_terms_of_service_url := None;
     PortalConfig.default_return_url := None;
     PortalConfig.features_customer_update_allowed_updates := None;
     PortalConfig.features_invoice_history_enabled := None;
     PortalConfig.features_payment_method_update_enabled := None;
     PortalConfig.features_subscription_cancel_enabled := None;
     PortalConfig.features_subscription_pause_enabled := None;
     PortalConfig.features_subscription_update_enabled := None |}.

Definition request (method pathname : string) : Http.Request :=
  {| Http.method := method; Http.pathname := pathname;
     Http.query_sessionId := None; Http.mcp_session_id := None;
     Http.body := "" |}.

(** A legacy client subscribes. *)
Definition subscription : list Http.Event :=
  [Http.request (request "GET" "/sse") Sample.quiet].

Definition subscribed : Http.State :=
  Http.program
    (fst (Http.run Sample.runtime Sample.isInitializeRequest Http.boot
            subscription)).

(** A POST for the session of [Sample.connected] arrives, the session
    is deleted, and only then the body of the POST ends. *)
Definition late_post : list Http.Event :=
  [Http.arrived (Sample.mcp_request "POST" (Some "session-1") Sample.ping_text)
     Sample.quiet;
   Http.request (Sample.mcp_request "DELETE" (Some "session-1") "")
     Sample.closing].

Definition overtaken : Http.Node :=
  fst (Http.run Sample.runtime Sample.isInitializeRequest Sample.connected
         late_post).

(** Two legacy clients subscribe, and the response of the first one
    closes. *)
Definition second : Http.Sdk :=
  {| Http.connect_rejects := false; Http.handle_rejects := false;
     Http.sse_sessionId := "sse-2"; Http.handle_initializes := None;
     Http.handle_closes := false |}.

Definition one_left : list Http.Event :=
  [Http.request (request "GET" "/sse") Sample.quiet;
   Http.request (request "GET" "/sse") second;
   Http.sse_response_closed 0].



Definition remaining : Http.State :=
  Http.program
    (fst (Http.run Sample.runtime Sample.isInitializeRequest Http.boot
            one_left)).

End Cases.

(** * Properties of the tool handlers *)

Module ToolFacts.

Lemma absent_None {A} (v : option A) : absent v = true -> v = None.
Proof. destruct v; [discriminate | reflexivity]. Qed.

Lemma truthy_string_Some (s : string) :
  s <> "" -> truthy_string (Some s) = Some s.
Proof.
  intros Hs. unfold truthy_string.
  destruct (String.eqb_spec s ""); [contradiction | reflexivity].
Qed.

Lemma get_prop_set_prop_ne (k k' : string) (v : JSON) (o : list (string * JSON)) :
  k <> k' -> get_prop k (set_prop k' v o) = get_prop k o.
Proof.
  intros Hk. induction o as [| [k0 v0] o IH]; simpl.
  - destruct (String.eqb_spec k' k); [congruence | reflexivity].
  - destruct (String.eqb_spec k0 k') as [-> | Hne]; simpl.
    + destruct (String.eqb_spec k' k); [congruence | reflexivity].
    + destruct (String.eqb_spec k0 k); [reflexivity | exact IH].
Qed.

Lemma get_prop_set_some_ne {A} (k k' : string) (v : option A) (enc : A -> JSON)
    (o : list (string * JSON)) :
  k <> k' -> get_prop k (set_some v k' enc o) = get_prop k o.
Proof.
  intros Hk. destruct v; simpl; [by apply get_prop_set_prop_ne | reflexivity].
Qed.

Section Handlers.

Context {S : Type}.
Variable rt : Runtime.
Variable stripe : Client S.

Lemma parse_metadata_rejected (m : string) :
  m <> "" -> JSON_parse rt m = None ->
  parse_metadata rt (Some m) = inl (invalid_metadata rt).
Proof.
  intros Hm Hp. unfold parse_metadata.
  rewrite truthy_string_Some by exact Hm. by rewrite Hp.
Qed.

(** The metadata block either returns the metadata error or hands a
    value to the switch, as [metadata_rejected] says. *)
Lemma parse_metadata_cases (metadata : option string) :
  (exists m, metadata = Some m /\ m <> "" /\ JSON_parse rt m = None
             /\ parse_metadata rt metadata = inl (invalid_metadata rt))
  \/ (exists parsedMetadata,
        parse_metadata rt metadata = inr parsedMetadata
        /\ match metadata with
           | Some m => (negb (m =? "")%string && absent (JSON_parse rt m)) = false
           | None => True
           end).
Proof.
  destruct metadata as [m |]; [| right; by exists None].
  unfold parse_metadata, truthy_string.
  destruct (String.eqb_spec m "") as [-> | Hm]; simpl.
  - right. by exists None.
  - destruct (JSON_parse rt m) as [v |] eqn:Hp.
    + right. by exists (Some v).
    + left. exists m. by rewrite Hp.
Qed.

(** C3, as amended.  A tool call that leaves out an argument its action
    requires is answered with [{success: false, error}] and makes no
    Stripe call (the service and the event log are as before): the
    error names the missing argument, unless the call also carries
    metadata that is not empty and does not parse, and then it is the
    metadata error. *)
Theorem missing_required_error (c : ToolCall) (msg : string) (w : World S) :
  missing_required c = Some msg ->
  call_tool rt stripe c w
  = (inr (text_content rt
            (failure (if metadata_rejected rt c
                      then "Invalid metadata JSON format" else msg))), w).
Proof.
  destruct c as [a | a | a | a | a | a]; simpl; intros H; try discriminate.
  - destruct a as [action product_id name description images metadata active].
    unfold metadata_rejected, Products.stripe_products; simpl in *.
    destruct (parse_metadata_cases metadata)
      as [(m & -> & Hm & Hp & ->) | (pm & -> & Hok)].
    + destruct (String.eqb_spec m ""); [contradiction |]. rewrite Hp. reflexivity.
    + assert (Hrej : match metadata with
                     | Some m => negb (m =? "")%string && absent (JSON_parse rt m)
                     | None => false
                     end = false) by (destruct metadata; [exact Hok | reflexivity]).
      rewrite Hrej. unfold Products.switch_action; simpl.
      by_literal action; simpl in H; try discriminate;
        match type of H with
        | (if absent ?v then _ else _) = _ =>
            destruct v; simpl in H; [discriminate | injection H as <-]
        end; reflexivity.
  - destruct a as [action price_id product_id unit_amount currency ri ric
                     metadata active].
    unfold metadata_rejected, Prices.stripe_prices; simpl in *.
    destruct (parse_metadata_cases metadata)
      as [(m & -> & Hm & Hp & ->) | (pm & -> & Hok)].
    + destruct (String.eqb_spec m ""); [contradiction |]. rewrite Hp. reflexivity.
    + assert (Hrej : match metadata with
                     | Some m => negb (m =? "")%string && absent (JSON_parse rt m)
                     | None => false
                     end = false) by (destruct metadata; [exact Hok | reflexivity]).
      rewrite Hrej. unfold Prices.switch_action; simpl.
      by_literal action; simpl in H; try discriminate.
      * destruct product_id as [p |]; simpl in H.
        -- destruct unit_amount; simpl in H; [discriminate | injection H as <-].
           destruct (truthy_string (Some p)); reflexivity.
        -- injection H as <-. reflexivity.
      * destruct price_id; simpl in H; [discriminate | injection H as <-].
        reflexivity.
      * destruct price_id; simpl in H; [discriminate | injection H as <-].
        reflexivity.
      * destruct price_id; simpl in H; [discriminate | injection H as <-].
        reflexivity.
  - destruct a as [action webhook_id url enabled_events description enabled].
    unfold metadata_rejected, Webhooks.stripe_webhooks; simpl in *.
    by_literal action; simpl in H; try discriminate.
    + destruct url as [u |]; simpl in H.
      * destruct enabled_events; simpl in H; [discriminate | injection H as <-].
        destruct (truthy_string (Some u)); reflexivity.
      * injection H as <-. reflexivity.
    + destruct webhook_id; simpl in H; [discriminate | injection H as <-].
      reflexivity.
    + destruct webhook_id; simpl in H; [discriminate | injection H as <-].
      reflexivity.
    + destruct webhook_id; simpl in H; [discriminate | injection H as <-].
      reflexivity.
  - destruct a as [action configuration_id h p t d au f1 f2 f3 f4 f5].
    unfold metadata_rejected, PortalConfig.stripe_portal_config; simpl in *.
    by_literal action; simpl in H; try discriminate;
      (destruct configuration_id; simpl in H;
       [discriminate | injection H as <-]); reflexivity.
Qed.

(** C4, as amended.  A call to [stripe_products] or [stripe_prices]
    whose metadata is a string that is not empty and that [JSON.parse]
    rejects is answered with the metadata error, whatever the action,
    and makes no Stripe call. *)
Theorem malformed_metadata (c : ToolCall) (m : string) (w : World S) :
  tool_metadata c = Some m -> m <> "" -> JSON_parse rt m = None ->
  call_tool rt stripe c w = (inr (invalid_metadata rt), w).
Proof.
  destruct c as [a | a | a | a | a | a]; simpl; try discriminate;
    intros Hmeta Hm Hp.
  - unfold Products.stripe_products. rewrite Hmeta.
    rewrite parse_metadata_rejected by assumption. reflexivity.
  - unfold Prices.stripe_prices. rewrite Hmeta.
    rewrite parse_metadata_rejected by assumption. reflexivity.
Qed.

(** C5, as amended.  Creating a webhook endpoint with a URL and a list
    of events, the URL not starting with [https://], makes no Stripe
    call and is answered with an error: the one about [https://] when
    the URL is not the empty string, the one about required arguments
    when it is. *)
Theorem insecure_webhook_url (a : Webhooks.Args) (u : string)
    (evs : list string) (w : World S) :
  Webhooks.action a = "create" ->
  Webhooks.url a = Some u ->
  Webhooks.enabled_events a = Some evs ->
  Webhooks.startsWith u "https://" = false ->
  Webhooks.stripe_webhooks rt stripe a w
  = (inr (text_content rt
            (failure
               (if (u =? "")%string
                then "URL and enabled_events are required for create action"
                else "Webhook URL must start with https://"))), w).
Proof.
  intros Hact Hurl Hev Hpre. unfold Webhooks.stripe_webhooks.
  rewrite Hact, Hurl, Hev. simpl. unfold truthy_string.
  destruct (u =? "")%string; [reflexivity |].
  rewrite Hpre. reflexivity.
Qed.

(** C6.  When [products.retrieve] resolves to a product for
    [prod_123], [stripe_products] called with that identifier and the
    action [retrieve] answers [{success: true, product, message}] with
    that product and its name in the message, after that one call. *)
Theorem retrieve_product (p : Product) (w : World S) (s' : S) :
  stripe (products_retrieve "prod_123") (service w) = (inr p, s') ->
  Products.stripe_products rt stripe
    {| Products.action := "retrieve"; Products.product_id := Some "prod_123";
       Products.name := None; Products.description := None;
       Products.images := None; Products.metadata := None;
       Products.active := None |} w
  = (inr (text_content rt
            (JObj [("success", JBool true); ("product", to_json p);
                   ("message", JStr ("Retrieved product: " ++ product_name p))])),
     {| service := s';
        events := events w ++ [StripeRequest (products_retrieve "prod_123")] |}).
Proof.
  intros Hret. unfold Products.stripe_products, Products.switch_action.
  handler_steps. rewrite Hret. reflexivity.
Qed.

Lemma truthy_number_nonzero (v : option number) (n : number) :
  truthy_number v = Some n -> Qeq_bool n 0 = false.
Proof.
  destruct v as [m |]; simpl; [| discriminate].
  destruct (Qeq_bool m 0) eqn:E; [discriminate |]. by intros [= <-].
Qed.

Lemma validLimit_clamped (limit : option number) :
  Query.validLimit limit = clamped_limit limit.
Proof.
  destruct limit as [l |]; [| reflexivity].
  unfold Query.validLimit, clamped_limit; simpl.
  destruct (Qeq_bool l 0); reflexivity.
Qed.

Lemma query_params_limit (a : Query.Args) :
  get_prop "limit" (Query.query_params a)
  = Some (JNum (Query.validLimit (Query.limit a))).
Proof.
  unfold Query.query_params.
  rewrite !get_prop_set_some_ne by discriminate. reflexivity.
Qed.

Lemma query_requests (a : Query.Args) (s : S) :
  stripe_requests (events (snd (Query.stripe_query rt stripe a (fresh s))))
  = match list_call (Query.resource a) (JObj (Query.query_params a)) with
    | Some c => [c]
    | None => []
    end.
Proof.
  destruct a as [resource filters limit expand].
  unfold Query.stripe_query, Query.switch_resource, list_call; simpl.
  by_literal resource; handler_steps; try reflexivity;
    match goal with
    | |- context [stripe ?c ?x] =>
        destruct (stripe c x) as [[e | r] s'']; simpl; reflexivity
    end.
Qed.

(** C7.  Against a client whose answers do not depend on the state of
    the service, a second [stripe_query] with the same arguments gives
    the same response as the first, for every resource and every
    argument bag. *)
Theorem query_idempotent (a : Query.Args) (w : World S) :
  deterministic stripe ->
  fst (Query.stripe_query rt stripe a (snd (Query.stripe_query rt stripe a w)))
  = fst (Query.stripe_query rt stripe a w).
Proof.
  intros Hdet. generalize (snd (Query.stripe_query rt stripe a w)) as w'.
  intros w'. destruct a as [resource filters limit expand].
  unfold Query.stripe_query, Query.switch_resource; simpl.
  by_literal resource; handler_steps; try reflexivity;
    match goal with
    | |- context [stripe ?c (service w')] =>
        pose proof (Hdet c (service w') (service w)) as Hc;
        destruct (stripe c (service w')) as [r1 s1];
        destruct (stripe c (service w)) as [r2 s2];
        simpl in Hc; subst r2; destruct r1; reflexivity
    end.
Qed.

(** C9, as amended.  Creating a price with a product and the amount 0
    makes no Stripe call: the answer is the error about required
    arguments, or the metadata error when the call also carries
    metadata that is not empty and does not parse.  No call of
    [stripe_prices] creates a price of amount zero. *)
Theorem zero_unit_amount :
  (forall (a : Prices.Args) (p : string) (u : number) (w : World S),
      Prices.action a = "create" ->
      Prices.product_id a = Some p ->
      Prices.unit_amount a = Some u ->
      (u == 0)%Q ->
      Prices.stripe_prices rt stripe a w
      = (inr (text_content rt
                (failure
                   (if metadata_rejected rt (call_stripe_prices a)
                    then "Invalid metadata JSON format"
                    else "Product ID and unit_amount are required for create action"))),
         w))
  /\ (forall (a : Prices.Args) (s : S),
         existsb creates_free_price
           (stripe_requests
              (events (snd (Prices.stripe_prices rt stripe a (fresh s)))))
         = false).
Proof.
  split.
  - intros [action price_id product_id unit_amount currency ri ric
              metadata active] p u w; simpl.
    intros -> -> -> Hu.
    unfold metadata_rejected, Prices.stripe_prices; simpl.
    destruct (parse_metadata_cases metadata)
      as [(m & -> & Hm & Hp & ->) | (pm & -> & Hok)].
    + destruct (String.eqb_spec m ""); [contradiction |]. rewrite Hp.
      reflexivity.
    + assert (Hrej : match metadata with
                     | Some m => negb (m =? "")%string && absent (JSON_parse rt m)
                     | None => false
                     end = false) by (destruct metadata; [exact Hok | reflexivity]).
      rewrite Hrej. unfold Prices.switch_action; simpl.
      rewrite (proj2 (Qeq_bool_iff u 0) Hu).
      destruct (p =? "")%string; reflexivity.
  - intros [action price_id product_id unit_amount currency ri ric
              metadata active] s.
    unfold Prices.stripe_prices; simpl.
    destruct (parse_metadata rt metadata) as [invalid | pm]; [reflexivity |].
    unfold Prices.switch_action; simpl.
    by_literal action; simpl; handler_steps;
      repeat match goal with
             | |- context [truthy_string ?v] =>
                 destruct (truthy_string v); [| reflexivity]
             end;
      try reflexivity.
    + destruct (truthy_number unit_amount) as [u |] eqn:Hu; [| reflexivity].
      apply truthy_number_nonzero in Hu. simpl.
      match goal with
      | |- context [stripe ?c ?x] =>
          destruct (stripe c x) as [[e | price] s'']; simpl;
          rewrite !get_prop_set_some_ne by discriminate; simpl; by rewrite Hu
      end.
    + match goal with
      | |- context [stripe ?c ?x] =>
          destruct (stripe c x) as [[e | r] s'']; simpl; reflexivity
      end.
    + match goal with
      | |- context [stripe ?c ?x] =>
          destruct (stripe c x) as [[e | r] s'']; simpl; reflexivity
      end.
    + match goal with
      | |- context [stripe ?c ?x] =>
          destruct (stripe c x) as [[e | r] s'']; simpl; reflexivity
      end.
    + match goal with
      | |- context [stripe ?c ?x] =>
          destruct (stripe c x) as [[e | r] s'']; simpl; reflexivity
      end.
Qed.

End Handlers.

Lemma clamped_limit_range (limit : option number) :
  (1 <= clamped_limit limit)%Q /\ (clamped_limit limit <= 100)%Q.
Proof.
  destruct limit as [l |]; simpl; [| split; discriminate].
  destruct (Qeq_bool l 0); [split; discriminate |]. split.
  - apply Q.min_glb; [apply Q.le_max_r | discriminate].
  - apply Q.le_min_r.
Qed.

Lemma clamped_limit_above (l : number) :
  (100 < l)%Q -> clamped_limit (Some l) = 100%Q.
Proof.
  intros Hl. simpl.
  assert (H0 : Qeq_bool l 0 = false).
  { apply not_true_is_false. intros E. apply Qeq_bool_iff in E.
    rewrite E in Hl. discriminate. }
  assert (H1 : (l ?= 1)%Q = Gt).
  { apply Qgt_alt. eapply Qlt_trans; [| exact Hl]. reflexivity. }
  assert (H100 : (l ?= 100)%Q = Gt) by (by apply Qgt_alt).
  rewrite H0. unfold Qmax, Qmin, GenericMinMax.gmax, GenericMinMax.gmin.
  rewrite H1, H100. reflexivity.
Qed.

Lemma clamped_limit_negative (l : number) :
  (l < 0)%Q -> clamped_limit (Some l) = 1%Q.
Proof.
  intros Hl. simpl.
  assert (H0 : Qeq_bool l 0 = false).
  { apply not_true_is_false. intros E. apply Qeq_bool_iff in E.
    rewrite E in Hl. discriminate. }
  assert (H1 : (l ?= 1)%Q = Lt).
  { apply Qlt_alt. eapply Qlt_trans; [exact Hl | reflexivity]. }
  rewrite H0. unfold Qmax, Qmin, GenericMinMax.gmax, GenericMinMax.gmin.
  rewrite H1. reflexivity.
Qed.

Lemma clamped_limit_nonzero (l : number) :
  ~ (l == 0)%Q -> clamped_limit (Some l) = Qmin (Qmax l 1) 100.
Proof.
  intros Hl. simpl. destruct (Qeq_bool l 0) eqn:E; [| reflexivity].
  by apply Qeq_bool_iff in E.
Qed.

Lemma clamped_limit_zero (l : number) :
  (l == 0)%Q -> clamped_limit (Some l) = 10%Q.
Proof. intros Hl. simpl. by rewrite (proj2 (Qeq_bool_iff l 0) Hl). Qed.

(** C10.  [stripe_query] sends one listing request for a supported
    resource and none otherwise, and the limit in its parameters is
    [validLimit]: 10 when the argument is absent or zero, and otherwise
    the argument clamped to [1, 100], so that a limit above 100 becomes
    100 and a negative one becomes 1. *)
Theorem forwarded_limit {S : Type} (rt : Runtime) (stripe : Client S)
    (a : Query.Args) (s : S) :
  stripe_requests (events (snd (Query.stripe_query rt stripe a (fresh s))))
  = match list_call (Query.resource a) (JObj (Query.query_params a)) with
    | Some c => [c]
    | None => []
    end
  /\ get_prop "limit" (Query.query_params a)
     = Some (JNum (Query.validLimit (Query.limit a)))
  /\ Query.validLimit None = 10%Q
  /\ (forall l : number, (l == 0)%Q -> Query.validLimit (Some l) = 10%Q)
  /\ (forall l : number,
         ~ (l == 0)%Q -> Query.validLimit (Some l) = Qmin (Qmax l 1) 100)
  /\ (forall l : number, (100 < l)%Q -> Query.validLimit (Some l) = 100%Q)
  /\ (forall l : number, (l < 0)%Q -> Query.validLimit (Some l) = 1%Q)
  /\ (1 <= Query.validLimit (Query.limit a))%Q
  /\ (Query.validLimit (Query.limit a) <= 100)%Q.
Proof.
  repeat split.
  - apply query_requests.
  - apply query_params_limit.
  - intros l Hl. rewrite validLimit_clamped. by apply clamped_limit_zero.
  - intros l Hl. rewrite validLimit_clamped. by apply clamped_limit_nonzero.
  - intros l Hl. rewrite validLimit_clamped. by apply clamped_limit_above.
  - intros l Hl. rewrite validLimit_clamped. by apply clamped_limit_negative.
  - rewrite validLimit_clamped. apply clamped_limit_range.
  - rewrite validLimit_clamped. apply clamped_limit_range.
Qed.

(** *** The handlers on sample calls *)

Example connect_guidance :
  stripe_connect {| purpose := "checkout"; features := ["payments"; "webhooks"] |}
    (fresh tt)
  = (inr {| content :=
              [{| type := "text";
                  text := "Stripe connection requested for: checkout" ++ newline
                          ++ "Features needed: payments, webhooks"
                          ++ newline ++ newline
                          ++ "Please ensure the following environment variables are set:"
                          ++ newline ++ "- STRIPE_SECRET_KEY"
                          ++ newline ++ "- STRIPE_PUBLISHABLE_KEY (optional)"
                          ++ newline ++ "- STRIPE_WEBHOOK_SECRET (optional)" |}] |},
     fresh tt).
Proof. reflexivity. Qed.

Lemma missing_required_error_witness :
  missing_required
    (call_stripe_products
       {| Products.action := "retrieve"; Products.product_id := None;
          Products.name := None; Products.description := None;
          Products.images := None; Products.metadata := None;
          Products.active := None |})
  = Some "Product ID is required for retrieve action"
  /\ call_tool Sample.runtime Sample.client
       (call_stripe_products
          {| Products.action := "retrieve"; Products.product_id := None;
             Products.name := None; Products.description := None;
             Products.images := None; Products.metadata := None;
             Products.active := None |})
       (fresh 0%nat)
     = (inr (text_content Sample.runtime
               (failure "Product ID is required for retrieve action")),
        fresh 0%nat).
Proof.
  split; [reflexivity |].
  exact (missing_required_error Sample.runtime Sample.client
           (call_stripe_products
              {| Products.action := "retrieve"; Products.product_id := None;
                 Products.name := None; Products.description := None;
                 Products.images := None; Products.metadata := None;
                 Products.active := None |})
           "Product ID is required for retrieve action" (fresh 0%nat) eq_refl).
Defined.

(** C3 as it was stated fails when the call also carries malformed
    metadata: the metadata error comes first. *)
Lemma missing_argument_after_metadata :
  missing_required
    (call_stripe_products
       {| Products.action := "retrieve"; Products.product_id := None;
          Products.name := None; Products.description := None;
          Products.images := None; Products.metadata := Some "{bad";
          Products.active := None |})
  = Some "Product ID is required for retrieve action"
  /\ call_tool Sample.runtime Sample.client
       (call_stripe_products
          {| Products.action := "retrieve"; Products.product_id := None;
             Products.name := None; Products.description := None;
             Products.images := None; Products.metadata := Some "{bad";
             Products.active := None |})
       (fresh 0%nat)
     = (inr (text_content Sample.runtime
               (failure "Invalid metadata JSON format")),
        fresh 0%nat)
  /\ text_content Sample.runtime (failure "Invalid metadata JSON format")
     <> text_content Sample.runtime
          (failure "Product ID is required for retrieve action").
Proof.
  split; [reflexivity |].
  split; [vm_compute; reflexivity | intros H; vm_compute in H; discriminate H].
Qed.

Lemma malformed_metadata_witness :
  call_tool Sample.runtime Sample.client
    (call_stripe_prices
       {| Prices.action := "list"; Prices.price_id := None;
          Prices.product_id := None; Prices.unit_amount := None;
          Prices.currency := None; Prices.recurring_interval := None;
          Prices.recurring_interval_count := None;
          Prices.metadata := Some "{bad"; Prices.active := None |})
    (fresh 0%nat)
  = (inr (invalid_metadata Sample.runtime), fresh 0%nat).
Proof.
  apply (malformed_metadata Sample.runtime Sample.client _ "{bad");
    [reflexivity | discriminate | reflexivity].
Defined.

(** C4 as it was stated fails for the empty string, which is not valid
    JSON and which the handler takes for no metadata at all: the
    products are listed. *)
Lemma empty_metadata_is_skipped :
  JSON_parse Sample.runtime "" = None
  /\ call_tool Sample.runtime Sample.client
       (call_stripe_products
          {| Products.action := "list"; Products.product_id := None;
             Products.name := None; Products.description := None;
             Products.images := None; Products.metadata := Some "";
             Products.active := None |})
       (fresh 0%nat)
     = (inr (text_content Sample.runtime
               (JObj [("success", JBool true);
                      ("products", JArr [to_json Sample.widget]);
                      ("message", JStr "Found 1 product(s)")])),
        {| service := 1%nat;
           events := [StripeRequest (products_list (JObj [("limit", JNum 100)]))] |})
  /\ text_content Sample.runtime
       (JObj [("success", JBool true);
              ("products", JArr [to_json Sample.widget]);
              ("message", JStr "Found 1 product(s)")])
     <> invalid_metadata Sample.runtime.
Proof.
  split; [reflexivity |].
  split; [vm_compute; reflexivity | intros H; vm_compute in H; discriminate H].
Qed.

Lemma insecure_webhook_url_witness :
  Webhooks.stripe_webhooks Sample.runtime Sample.client
    {| Webhooks.action := "create"; Webhooks.webhook_id := None;
       Webhooks.url := Some "http://example.com/hook";
       Webhooks.enabled_events := Some ["charge.succeeded"];
       Webhooks.description := None; Webhooks.enabled := None |}
    (fresh 0%nat)
  = (inr (text_content Sample.runtime
            (failure "Webhook URL must start with https://")),
     fresh 0%nat).
Proof.
  apply (insecure_webhook_url Sample.runtime Sample.client _
           "http://example.com/hook" ["charge.succeeded"]);
    reflexivity.
Defined.

(** C5 as it was stated fails for the empty URL, which does not start
    with [https://] either: the answer is the error about required
    arguments. *)
Lemma empty_webhook_url :
  Webhooks.startsWith "" "https://" = false
  /\ Webhooks.stripe_webhooks Sample.runtime Sample.client
       {| Webhooks.action := "create"; Webhooks.webhook_id := None;
          Webhooks.url := Some "";
          Webhooks.enabled_events := Some ["charge.succeeded"];
          Webhooks.description := None; Webhooks.enabled := None |}
       (fresh 0%nat)
     = (inr (text_content Sample.runtime
               (failure "URL and enabled_events are required for create action")),
        fresh 0%nat)
  /\ text_content Sample.runtime
       (failure "URL and enabled_events are required for create action")
     <> text_content Sample.runtime
          (failure "Webhook URL must start with https://").
Proof.
  split; [reflexivity |].
  split; [vm_compute; reflexivity | intros H; vm_compute in H; discriminate H].
Qed.

Lemma retrieve_product_witness :
  Products.stripe_products Sample.runtime Sample.client
    {| Products.action := "retrieve"; Products.product_id := Some "prod_123";
       Products.name := None; Products.description := None;
       Products.images := None; Products.metadata := None;
       Products.active := None |}
    (fresh 0%nat)
  = (inr (text_content Sample.runtime
            (JObj [("success", JBool true);
                   ("product", to_json Sample.widget);
                   ("message", JStr "Retrieved product: Widget")])),
     {| service := 1%nat;
        events := [StripeRequest (products_retrieve "prod_123")] |}).
Proof.
  exact (retrieve_product Sample.runtime Sample.client Sample.widget
           (fresh 0%nat) 1%nat eq_refl).
Defined.

Lemma sample_client_deterministic : deterministic Sample.client.
Proof. intros c s1 s2. destruct c; reflexivity. Defined.

Lemma query_idempotent_witness :
  fst (Query.stripe_query Sample.runtime Sample.client Sample.no_query_args
         (snd (Query.stripe_query Sample.runtime Sample.client
                 Sample.no_query_args (fresh 0%nat))))
  = fst (Query.stripe_query Sample.runtime Sample.client Sample.no_query_args
           (fresh 0%nat)).
Proof.
  exact (query_idempotent Sample.runtime Sample.client Sample.no_query_args
           (fresh 0%nat) sample_client_deterministic).
Defined.

(** Without determinism the second answer can differ: the growing
    client lists no event, then one. *)
Example growing_client_differs :
  fst (Query.stripe_query Sample.runtime Sample.growing_client
         Sample.no_query_args
         (snd (Query.stripe_query Sample.runtime Sample.growing_client
                 Sample.no_query_args (fresh 0%nat))))
  <> fst (Query.stripe_query Sample.runtime Sample.growing_client
            Sample.no_query_args (fresh 0%nat)).
Proof. intros H. vm_compute in H. discriminate H. Qed.

Lemma zero_unit_amount_witness :
  Prices.stripe_prices Sample.runtime Sample.client
    {| Prices.action := "create"; Prices.price_id := None;
       Prices.product_id := Some "prod_1"; Prices.unit_amount := Some 0%Q;
       Prices.currency := None; Prices.recurring_interval := None;
       Prices.recurring_interval_count := None; Prices.metadata := None;
       Prices.active := None |}
    (fresh 0%nat)
  = (inr (text_content Sample.runtime
            (failure "Product ID and unit_amount are required for create action")),
     fresh 0%nat).
Proof.
  exact (proj1 (zero_unit_amount Sample.runtime Sample.client)
           {| Prices.action := "create"; Prices.price_id := None;
              Prices.product_id := Some "prod_1"; Prices.unit_amount := Some 0%Q;
              Prices.currency := None; Prices.recurring_interval := None;
              Prices.recurring_interval_count := None; Prices.metadata := None;
              Prices.active := None |}
           "prod_1" 0%Q (fresh 0%nat) eq_refl eq_refl eq_refl (Qeq_refl 0)).
Defined.

(** C9 as it was stated fails when the call also carries malformed
    metadata: the metadata error comes first. *)
Lemma zero_amount_after_metadata :
  JSON_parse Sample.runtime "{bad" = None
  /\ Prices.stripe_prices Sample.runtime Sample.client
       {| Prices.action := "create"; Prices.price_id := None;
          Prices.product_id := Some "prod_1"; Prices.unit_amount := Some 0%Q;
          Prices.currency := None; Prices.recurring_interval := None;
          Prices.recurring_interval_count := None;
          Prices.metadata := Some "{bad"; Prices.active := None |}
       (fresh 0%nat)
     = (inr (text_content Sample.runtime
               (failure "Invalid metadata JSON format")),
        fresh 0%nat)
  /\ text_content Sample.runtime (failure "Invalid metadata JSON format")
     <> text_content Sample.runtime
          (failure "Product ID and unit_amount are required for create action").
Proof.
  split; [reflexivity |].
  split; [vm_compute; reflexivity | intros H; vm_compute in H; discriminate H].
Qed.

Lemma forwarded_limit_witness :
  Query.validLimit (Some 250%Q) = 100%Q
  /\ stripe_requests
       (events (snd (Query.stripe_query Sample.runtime Sample.client
                       {| Query.resource := "charges"; Query.filters := None;
                          Query.limit := Some 250%Q; Query.expand := None |}
                       (fresh 0%nat))))
     = [charges_list (JObj [("limit", JNum 100)])].
Proof.
  pose proof (forwarded_limit Sample.runtime Sample.client
                {| Query.resource := "charges"; Query.filters := None;
                   Query.limit := Some 250%Q; Query.expand := None |} 0%nat)
    as (Hreq & _ & _ & _ & _ & Habove & _).
  split; [apply Habove; reflexivity | exact Hreq].
Defined.

End ToolFacts.

(** * Properties of the request listener *)

Module HttpFacts.

Import Http.

Section Listener.

Variable rt : Runtime.
Variable isInitializeRequest : JSON -> bool.

Local Abbreviation listener := (listener rt isInitializeRequest).
Local Abbreviation served := (served rt isInitializeRequest).
Local Abbreviation route := (route rt).
Local Abbreviation end_callback := (end_callback rt isInitializeRequest).
Local Abbreviation step := (step rt isInitializeRequest).
Local Abbreviation run := (run rt isInitializeRequest).
Local Abbreviation sdk_contract_all := (sdk_contract_all rt isInitializeRequest).
Local Abbreviation reachable_node := (reachable_node rt isInitializeRequest).
Local Abbreviation reachable := (reachable rt isInitializeRequest).

Lemma listener_state (st : State) (req : Request) (sdk : Sdk) :
  fst (listener st req sdk) = fst (served st req sdk).
Proof. unfold Http.listener. by destruct (Http.served _ _ _ _ _). Qed.

Lemma listener_actions (st : State) (req : Request) (sdk : Sdk) :
  snd (listener st req sdk) = (cors ++ snd (served st req sdk))%list.
Proof. unfold Http.listener. by destruct (Http.served _ _ _ _ _). Qed.

Lemma listener_served (st : State) (req : Request) (sdk : Sdk) :
  listener st req sdk
  = (fst (served st req sdk), (cors ++ snd (served st req sdk))%list).
Proof. unfold Http.listener. by destruct (Http.served _ _ _ _ _). Qed.

(** On [/mcp], a POST served in one piece runs the ['end'] callback for
    the transport the registry holds, and a GET or DELETE is handled at
    once. *)
Lemma served_post (st : State) (req : Request) (sdk : Sdk) :
  method req = "POST" -> pathname req = "/mcp" ->
  served st req sdk
  = match session_transport rt st (mcp_session_id req) with
    | Some slot => post_existing rt slot req sdk st
    | None => post_deferred rt isInitializeRequest st req sdk
    end.
Proof.
  intros Hm Hp. unfold Http.served, Http.route, Http.mcp. rewrite Hm, Hp. simpl.
  by destruct (session_transport rt st (mcp_session_id req)).
Qed.

Lemma served_get_or_delete (st : State) (req : Request) (sdk : Sdk) :
  method req = "GET" \/ method req = "DELETE" -> pathname req = "/mcp" ->
  served st req sdk = get_or_delete rt st req sdk.
Proof.
  intros Hm Hp. unfold Http.served, Http.route, Http.mcp. rewrite Hp.
  destruct Hm as [-> | ->]; simpl; by destruct (get_or_delete rt st req sdk).
Qed.

(** A lookup for an identifier that is neither registered nor a property
    name of [Object.prototype] finds nothing. *)
Lemma session_transport_unknown (st : State) (sid : string) :
  streamableTransports st !! sid = None ->
  Object_prototype_has rt sid = false ->
  session_transport rt st (Some sid) = None.
Proof.
  intros Hreg Hproto. unfold session_transport, property, truthy_string.
  destruct (sid =? "")%string; [reflexivity |]. by rewrite Hreg, Hproto.
Qed.

Lemma session_transport_registered (st : State) (sid : string) (t : nat) :
  sid <> "" -> streamableTransports st !! sid = Some t ->
  session_transport rt st (Some sid) = Some (own t).
Proof.
  intros Hne Hreg. unfold session_transport, property.
  rewrite ToolFacts.truthy_string_Some by exact Hne. by rewrite Hreg.
Qed.

(** A lookup that finds a transport of the registry found it under the
    identifier of the header. *)
Lemma session_transport_own (st : State) (header : option string) (t : nat) :
  session_transport rt st header = Some (own t) ->
  exists sid : string, truthy_string header = Some sid /\ registered st sid t.
Proof.
  unfold session_transport, property, registered.
  destruct (truthy_string header) as [sid |]; [| discriminate].
  destruct (streamableTransports st !! sid) as [t' |] eqn:Hreg.
  - intros [= <-]. by exists sid.
  - by destruct (Object_prototype_has rt sid).
Qed.

(** *** What a request can do to the state *)

Lemma registered_issued (st : State) (sid : string) (t : nat) :
  registry_ok rt st -> registered st sid t -> issued st sid t.
Proof.
  intros Hok Hreg. exists false. by apply (registry_live rt st Hok).
Qed.

Lemma try_handleRequest_effect (st : State) (slot : Slot) (j : JSON)
    (sdk : Sdk) :
  match slot with
  | own t => exists sid, issued st sid t
  | inherited => True
  end ->
  effect sdk st (fst (try_handleRequest rt slot j sdk st)).
Proof.
  destruct slot as [t |]; simpl.
  - intros [sid Hiss]. by apply (effect_handled sdk st t sid).
  - intros _. apply effect_none.
Qed.

Lemma lookup_effect (st : State) (header : option string) (j : JSON)
    (sdk : Sdk) (slot : Slot) :
  registry_ok rt st ->
  session_transport rt st header = Some slot ->
  effect sdk st (fst (try_handleRequest rt slot j sdk st)).
Proof.
  intros Hok Hslot. apply try_handleRequest_effect.
  destruct slot as [t |]; [| exact I].
  destruct (session_transport_own st header t Hslot) as (sid & _ & Hreg).
  exists sid. by apply registered_issued.
Qed.

Lemma end_callback_effect (st : State) (req : Request) (c : Closure)
    (sdk : Sdk) :
  registry_ok rt st -> captured st (req, c) ->
  effect sdk st (fst (end_callback c req sdk st)).
Proof.
  intros Hok Hc. destruct c as [slot | | slot]; simpl.
  - unfold post_existing.
    destruct (JSON_parse rt (body req)) as [j |]; [| apply effect_none].
    apply try_handleRequest_effect.
    destruct slot as [t |]; [| exact I].
    destruct Hc as (sid & _ & Hiss). by exists sid.
  - unfold post_deferred.
    destruct (JSON_parse rt (body req)) as [j |]; [| apply effect_none].
    destruct (negb (passes (truthy_string (mcp_session_id req)))
              && isInitializeRequest j).
    + simpl. destruct (connect_rejects sdk);
        [apply effect_constructed | apply effect_initialized].
    + destruct (session_transport rt st (mcp_session_id req)) as [slot |] eqn:E;
        [by apply (lookup_effect st (mcp_session_id req)) | apply effect_none].
  - apply effect_none.
Qed.

Lemma route_effect (st st' : State) (req : Request) (sdk : Sdk)
    (actions : list Action) :
  registry_ok rt st -> route st req sdk = finished st' actions ->
  effect sdk st st'.
Proof.
  intros Hok. unfold Http.route, Http.mcp, Http.messages, get_or_delete.
  repeat match goal with
         | |- context [if ?b then _ else _] => destruct b; simpl
         end;
    try (destruct (session_transport rt st (mcp_session_id req))
           as [[t |] |] eqn:E; simpl);
    try (destruct (property rt (sseTransports st) _); simpl);
    intros [= <- _]; try apply effect_none; try apply effect_subscribed;
    destruct (session_transport_own st _ t E) as (sid & _ & Hreg);
    apply (effect_handled sdk st t sid); by apply registered_issued.
Qed.

Lemma route_captured (st : State) (req : Request) (sdk : Sdk) (c : Closure) :
  registry_ok rt st -> route st req sdk = awaits_end c -> captured st (req, c).
Proof.
  intros Hok. unfold Http.route, Http.mcp, Http.messages.
  repeat match goal with
         | |- context [if ?b then _ else _] => destruct b; simpl
         end;
    try (destruct (session_transport rt st (mcp_session_id req))
           as [[t |] |] eqn:E; simpl);
    try (destruct (property rt (sseTransports st) _); simpl);
    intros [= <-]; try exact I.
  destruct (session_transport_own st _ t E) as (sid & Hsid & Hreg).
  exists sid. split; [exact Hsid | by apply registered_issued].
Qed.

Lemma served_effect (st : State) (req : Request) (sdk : Sdk) :
  registry_ok rt st -> effect sdk st (fst (served st req sdk)).
Proof.
  intros Hok. unfold Http.served.
  destruct (Http.route rt st req sdk) as [st' a | c] eqn:E.
  - by apply (route_effect st st' req sdk a).
  - apply end_callback_effect; [exact Hok |].
    by apply (route_captured st req sdk).
Qed.


(** *** The registry invariant *)

Lemma never_issued_spec (st : State) (sid : string) (t : nat) :
  never_issued sid st = true -> ~ issued st sid t.
Proof.
  intros Hnever [c Ht]. unfold never_issued in Hnever.
  rewrite forallb_forall in Hnever.
  apply list_elem_of_lookup_2, list_elem_of_In in Ht.
  specialize (Hnever _ Ht). simpl in Hnever.
  by rewrite String.eqb_refl in Hnever.
Qed.

Lemma registry_ok_initial : registry_ok rt initial.
Proof.
  split.
  - intros sid t. unfold registered, live_session. simpl.
    rewrite lookup_empty. split; discriminate.
  - intros sid t1 t2 [c H]. simpl in H. discriminate.
  - intros sid t [c H]. simpl in H. discriminate.
Qed.

(** The invariant only looks at the streamable registry and at the
    streamable transports that have a session. *)
Lemma registry_ok_ext (st st' : State) :
  streamableTransports st' = streamableTransports st ->
  (forall sid t c,
      transports st' !! t
      = Some {| kind := Streamable; sessionId := Some sid; closed := c |}
      <-> transports st !! t
          = Some {| kind := Streamable; sessionId := Some sid; closed := c |}) ->
  registry_ok rt st -> registry_ok rt st'.
Proof.
  intros Hreg Htr [Hlive Honce Huuid].
  assert (Hissued : forall sid t, issued st' sid t <-> issued st sid t).
  { intros sid t. unfold issued. split; intros [c Hc]; exists c; by apply Htr. }
  split.
  - intros sid t. unfold registered, live_session. rewrite Hreg, Htr.
    apply Hlive.
  - intros sid t1 t2 H1 H2. apply (Honce sid); by apply Hissued.
  - intros sid t H. apply (Huuid sid t). by apply Hissued.
Qed.

(** A transport constructed without a session, or an SSE transport,
    does not disturb the invariant. *)
Lemma registry_ok_snoc (st st' : State) (tr : Transport) :
  streamableTransports st' = streamableTransports st ->
  transports st' = (transports st ++ [tr])%list ->
  kind tr = SSE \/ sessionId tr = None ->
  registry_ok rt st -> registry_ok rt st'.
Proof.
  intros Hreg Hsnoc Htr Hok.
  apply (registry_ok_ext st); [exact Hreg | | exact Hok].
  intros sid t c. rewrite Hsnoc, lookup_snoc_Some. split.
  - intros [[_ H] | [_ H]]; [exact H |].
    subst tr. simpl in Htr. destruct Htr; discriminate.
  - intros H. left. split; [by eapply lookup_lt_Some | exact H].
Qed.

Lemma registry_ok_initialized (st : State) (t : nat) (sid : string) :
  registry_ok rt st ->
  uninitialized t st = true -> generated rt sid st = true ->
  registry_ok rt (onsessioninitialized t sid st).
Proof.
  intros [Hlive Honce Huuid] Hu Hc. unfold uninitialized in Hu.
  destruct (transports st !! t) as [[[] [] []] |] eqn:Ht; try discriminate.
  clear Hu. unfold generated in Hc.
  apply andb_prop in Hc as [Hc Hnever]. apply andb_prop in Hc as [Hne Hproto].
  apply negb_true_iff in Hne, Hproto.
  assert (Hfresh : forall t', ~ issued st sid t')
    by (intros t'; by apply never_issued_spec).
  assert (Hnew : forall s t' c,
             transports (onsessioninitialized t sid st) !! t'
             = Some {| kind := Streamable; sessionId := Some s; closed := c |}
             <-> (t' = t /\ s = sid /\ c = false)
                 \/ (t' <> t
                     /\ transports st !! t'
                        = Some {| kind := Streamable; sessionId := Some s;
                                  closed := c |})).
  { intros s t' c. simpl. rewrite list_lookup_alter.
    destruct (decide (t = t')) as [<- | Hneq].
    - rewrite Ht. simpl. split.
      + intros [= <- <-]. by left.
      + intros [(_ & -> & ->) | [? _]]; [reflexivity | congruence].
    - split.
      + intros H. right. split; [congruence | exact H].
      + intros [(-> & _) | [_ H]]; [congruence | exact H]. }
  assert (Hiss : forall s t', issued (onsessioninitialized t sid st) s t'
                              <-> (t' = t /\ s = sid) \/ (t' <> t /\ issued st s t')).
  { intros s t'. unfold issued. split.
    - intros [c Hc']. apply Hnew in Hc' as [(-> & -> & _) | [? H]];
        [by left | right; split; [assumption | by exists c]].
    - intros [[-> ->] | [? [c H]]].
      + exists false. apply Hnew. by left.
      + exists c. apply Hnew. by right. }
  split.
  - intros s t'. unfold registered, live_session.
    rewrite Hnew. simpl. rewrite lookup_insert_Some. split.
    + intros [[<- <-] | [Hs Hreg]]; [by left |].
      apply Hlive in Hreg. right. split; [| exact Hreg].
      intros ->. unfold live_session in Hreg. congruence.
    + intros [(-> & -> & _) | [Ht' H]]; [by left |].
      right. split; [| by apply Hlive].
      intros <-. apply (Hfresh t'). by exists false.
  - intros s t1 t2 H1 H2. apply Hiss in H1, H2.
    destruct H1 as [[-> ->] | [? H1]], H2 as [[-> Hs] | [? H2]]; subst;
      try reflexivity; try (exfalso; by eapply Hfresh).
    by apply (Honce s).
  - intros s t' H. apply Hiss in H as [[-> ->] | [_ H]].
    + split; [| exact Hproto]. intros ->. discriminate.
    + by apply (Huuid s t').
Qed.

Lemma registry_ok_closed (st : State) (t : nat) (so : option string) :
  registry_ok rt st ->
  transports st !! t
  = Some {| kind := Streamable; sessionId := so; closed := false |} ->
  registry_ok rt (onclose t st).
Proof.
  intros [Hlive Honce Huuid] Ht.
  assert (Hnew : forall s t' c,
             transports (onclose t st) !! t'
             = Some {| kind := Streamable; sessionId := Some s; closed := c |}
             <-> (t' = t /\ so = Some s /\ c = true)
                 \/ (t' <> t
                     /\ transports st !! t'
                        = Some {| kind := Streamable; sessionId := Some s;
                                  closed := c |})).
  { intros s t' c. simpl. rewrite list_lookup_alter.
    destruct (decide (t = t')) as [<- | Hneq].
    - rewrite Ht. simpl. split.
      + intros [= -> <-]. by left.
      + intros [(_ & -> & ->) | [? _]]; [reflexivity | congruence].
    - split.
      + intros H. right. split; [congruence | exact H].
      + intros [(-> & _) | [_ H]]; [congruence | exact H]. }
  assert (Hiss : forall s t', issued (onclose t st) s t' <-> issued st s t').
  { intros s t'. unfold issued. split.
    - intros [c Hc']. apply Hnew in Hc' as [(-> & -> & _) | [? H]];
        [by exists false | by exists c].
    - intros [c H]. destruct (decide (t' = t)) as [-> | Hneq].
      + exists true. apply Hnew. left. rewrite Ht in H. by injection H as -> _.
      + exists c. apply Hnew. by right. }
  split.
  - intros s t'. unfold registered, live_session. rewrite Hnew. simpl.
    rewrite Ht. simpl. destruct so as [sid0 |]; simpl.
    + assert (Hne : sid0 <> "") by (apply (Huuid sid0 t); by exists false).
      destruct (String.eqb_spec sid0 ""); [contradiction |].
      rewrite lookup_delete_Some. split.
      * intros [Hs Hreg]. apply Hlive in Hreg. right. split; [| exact Hreg].
        intros ->. unfold live_session in Hreg. congruence.
      * intros [(_ & _ & ?) | [Ht' H]]; [discriminate |].
        split; [| by apply Hlive].
        intros <-. apply Ht'. apply (Honce sid0); [by exists false |].
        by exists false.
    + split.
      * intros Hreg. apply Hlive in Hreg. right. split; [| exact Hreg].
        intros ->. unfold live_session in Hreg. congruence.
      * intros [(_ & ? & _) | [_ H]]; [discriminate | by apply Hlive].
  - intros s t1 t2 H1 H2. apply Hiss in H1, H2. by apply (Honce s).
  - intros s t' H. apply Hiss in H. by apply (Huuid s t').
Qed.

(** The identifier of a transport that has closed is in no registry
    entry any more. *)
Lemma torn_down_unknown (st : State) (sid : string) (t : nat) :
  registry_ok rt st ->
  transports st !! t
  = Some {| kind := Streamable; sessionId := Some sid; closed := true |} ->
  streamableTransports st !! sid = None
  /\ sid <> "" /\ Object_prototype_has rt sid = false.
Proof.
  intros Hok Ht.
  assert (Hiss : issued st sid t) by (by exists true).
  split; [| by apply (issued_uuid rt st Hok sid t)].
  destruct (streamableTransports st !! sid) as [t' |] eqn:Hreg; [| reflexivity].
  apply (registry_live rt st Hok) in Hreg.
  assert (t' = t) as -> by (apply (issued_once rt st Hok sid); [by exists false | done]).
  unfold live_session in Hreg. congruence.
Qed.

(** A transport that closes again, or a transport that does not exist,
    changes nothing. *)
Lemma onclose_again (st : State) (t : nat) :
  registry_ok rt st ->
  (forall tr, transports st !! t = Some tr ->
              kind tr = Streamable /\ closed tr = true) ->
  streamableTransports (onclose t st) = streamableTransports st
  /\ transports (onclose t st) = transports st.
Proof.
  intros Hok Ht. simpl. split.
  - destruct (transports st !! t) as [[k so c] |] eqn:E; [| reflexivity].
    destruct (Ht _ eq_refl) as [Hk Hc]. simpl in Hk, Hc. subst k c. simpl.
    destruct so as [sid |]; [| reflexivity]. simpl.
    destruct (sid =? "")%string; [reflexivity |].
    apply delete_id. by apply (torn_down_unknown st sid t).
  - apply list_eq. intros i. rewrite list_lookup_alter.
    destruct (decide (t = i)) as [<- | Hneq]; [| reflexivity].
    destruct (transports st !! t) as [[k so c] |] eqn:E; [| reflexivity].
    destruct (Ht _ eq_refl) as [_ Hc]. simpl in Hc. by subst c.
Qed.

Lemma registry_ok_onclose (st : State) (t : nat) :
  registry_ok rt st ->
  (forall tr, transports st !! t = Some tr -> kind tr = Streamable) ->
  registry_ok rt (onclose t st).
Proof.
  intros Hok Ht.
  destruct (transports st !! t) as [[k so [|]] |] eqn:E.
  - destruct (onclose_again st t Hok) as [Hreg Htr].
    { intros tr Htr. rewrite E in Htr. injection Htr as <-.
      split; [by apply (Ht _ eq_refl) | reflexivity]. }
    apply (registry_ok_ext st); [exact Hreg | | exact Hok].
    intros sid t' c. by rewrite Htr.
  - pose proof (Ht _ eq_refl) as Hk. simpl in Hk. subst k.
    by apply (registry_ok_closed st t so).
  - destruct (onclose_again st t Hok) as [Hreg Htr].
    { intros tr Htr. rewrite E in Htr. discriminate. }
    apply (registry_ok_ext st); [exact Hreg | | exact Hok].
    intros sid t' c. by rewrite Htr.
Qed.

Lemma uninitialized_streamable (st : State) (t : nat) :
  uninitialized t st = true ->
  transports st !! t
  = Some {| kind := Streamable; sessionId := None; closed := false |}.
Proof.
  unfold uninitialized.
  by destruct (transports st !! t) as [[[] [] []] |].
Qed.

Lemma handleRequest_ok (st : State) (t : nat) (sdk : Sdk) :
  registry_ok rt st -> generates rt sdk st = true ->
  (forall tr, transports st !! t = Some tr -> kind tr = Streamable) ->
  registry_ok rt (handleRequest t sdk st).
Proof.
  intros Hok Hg Ht. unfold handleRequest, generates in *.
  match goal with
  | |- registry_ok rt (if _ then onclose t ?s else _) => set (st1 := s)
  end.
  assert (H1 : registry_ok rt st1
               /\ forall tr, transports st1 !! t = Some tr ->
                             kind tr = Streamable).
  { subst st1. destruct (handle_initializes sdk) as [sid |]; [| by split].
    destruct (uninitialized t st) eqn:Hu; [| by split].
    split; [by apply registry_ok_initialized |].
    intros tr. simpl. rewrite list_lookup_alter.
    destruct (decide (t = t)); [| done].
    rewrite (uninitialized_streamable st t Hu). simpl. by intros [= <-]. }
  destruct H1 as [Hok1 Ht1].
  destruct (handle_closes sdk); [by apply registry_ok_onclose | exact Hok1].
Qed.

Lemma issued_streamable (st : State) (sid : string) (t : nat) (tr : Transport) :
  issued st sid t -> transports st !! t = Some tr -> kind tr = Streamable.
Proof. intros [c Hc] Htr. rewrite Hc in Htr. by injection Htr as <-. Qed.

Lemma never_issued_constructed (st : State) (sid : string) (tr : Transport) :
  kind tr = SSE \/ sessionId tr = None ->
  never_issued sid (constructed tr st) = never_issued sid st.
Proof.
  intros Htr. unfold never_issued, constructed. simpl.
  rewrite forallb_app. simpl.
  destruct tr as [[] [s |] c]; simpl in *;
    try (by rewrite !andb_true_r).
  destruct Htr; discriminate.
Qed.

Lemma generates_constructed (st : State) (sdk : Sdk) (tr : Transport) :
  kind tr = SSE \/ sessionId tr = None ->
  generates rt sdk (constructed tr st) = generates rt sdk st.
Proof.
  intros Htr. unfold generates, generated.
  destruct (handle_initializes sdk) as [sid |]; [| reflexivity].
  by rewrite never_issued_constructed.
Qed.

Lemma effect_ok (st st' : State) (sdk : Sdk) :
  registry_ok rt st -> generates rt sdk st = true ->
  effect sdk st st' -> registry_ok rt st'.
Proof.
  intros Hok Hg [| t sid Hiss | | |].
  - exact Hok.
  - apply handleRequest_ok; [exact Hok | exact Hg |].
    intros tr. by apply (issued_streamable st sid).
  - apply (registry_ok_snoc st _ new_streamable); auto.
  - apply handleRequest_ok.
    + apply (registry_ok_snoc st _ new_streamable); auto.
    + rewrite generates_constructed; auto.
    + intros tr. simpl. rewrite lookup_app_r by lia.
      rewrite Nat.sub_diag. simpl. by intros [= <-].
  - apply (registry_ok_snoc st _
             {| kind := SSE; sessionId := Some (sse_sessionId sdk);
                closed := false |}); auto.
Qed.

(** *** Sessions are kept *)

Lemma grows_refl (st : State) : grows st st.
Proof. by intros sid t. Qed.

Lemma grows_trans (st1 st2 st3 : State) :
  grows st1 st2 -> grows st2 st3 -> grows st1 st3.
Proof. intros H12 H23 sid t H. by apply H23, H12. Qed.

Lemma grows_snoc (st st' : State) (tr : Transport) :
  transports st' = (transports st ++ [tr])%list -> grows st st'.
Proof.
  intros Hsnoc sid t [c Hc]. exists c. rewrite Hsnoc.
  apply lookup_app_l_Some. exact Hc.
Qed.

Lemma grows_onsessioninitialized (st : State) (t : nat) (sid : string) :
  uninitialized t st = true -> grows st (onsessioninitialized t sid st).
Proof.
  intros Hu s t' [c Hc]. exists c. simpl. rewrite list_lookup_alter.
  destruct (decide (t = t')) as [<- | Hneq]; [| exact Hc].
  rewrite (uninitialized_streamable st t Hu) in Hc. discriminate.
Qed.

Lemma grows_closed (st st' : State) (t : nat) :
  transports st'
  = alter (fun tr => {| kind := kind tr; sessionId := sessionId tr;
                        closed := true |}) t (transports st) ->
  grows st st'.
Proof.
  intros Htr s t' [c Hc]. unfold issued. rewrite Htr, list_lookup_alter.
  destruct (decide (t = t')) as [<- | Hneq]; [| by exists c].
  exists true. by rewrite Hc.
Qed.

Lemma grows_onclose (st : State) (t : nat) : grows st (onclose t st).
Proof. by apply (grows_closed st _ t). Qed.

Lemma grows_response_closed (st : State) (t : nat) :
  grows st (response_closed t st).
Proof.
  unfold response_closed.
  destruct (transports st !! t ≫= sessionId); by apply (grows_closed st _ t).
Qed.

Lemma grows_handleRequest (st : State) (t : nat) (sdk : Sdk) :
  grows st (handleRequest t sdk st).
Proof.
  unfold handleRequest.
  match goal with
  | |- grows st (if _ then onclose t ?s else _) => set (st1 := s)
  end.
  assert (H1 : grows st st1).
  { subst st1. destruct (handle_initializes sdk) as [sid |]; [| apply grows_refl].
    destruct (uninitialized t st) eqn:Hu; [| apply grows_refl].
    by apply grows_onsessioninitialized. }
  destruct (handle_closes sdk); [| exact H1].
  apply (grows_trans st st1); [exact H1 | apply grows_onclose].
Qed.

Lemma grows_effect (st st' : State) (sdk : Sdk) :
  effect sdk st st' -> grows st st'.
Proof.
  intros [| t sid Hiss | | |].
  - apply grows_refl.
  - apply grows_handleRequest.
  - by apply (grows_snoc st _ new_streamable).
  - apply (grows_trans st (constructed new_streamable st));
      [by apply (grows_snoc st _ new_streamable) | apply grows_handleRequest].
  - by eapply grows_snoc.
Qed.

Lemma captured_grows (st st' : State) (p : Request * Closure) :
  grows st st' -> captured st p -> captured st' p.
Proof.
  intros Hg. unfold captured. destruct (snd p) as [[t |] | |]; try done.
  intros (sid & Hsid & Hiss). exists sid. split; [exact Hsid | by apply Hg].
Qed.

(** *** The invariant of the server process *)

Lemma node_ok_boot : node_ok rt boot.
Proof. split; [apply registry_ok_initial | apply Forall_nil_2]. Qed.

Lemma node_ok_program (n : Node) (st' : State) (sdk : Sdk) :
  node_ok rt n -> generates rt sdk (program n) = true ->
  effect sdk (program n) st' ->
  node_ok rt {| program := st'; awaiting := awaiting n |}.
Proof.
  intros [Hok Hcap] Hg He. split; simpl.
  - by apply (effect_ok (program n) st' sdk).
  - eapply Forall_impl; [exact Hcap |].
    intros p. apply captured_grows. by apply (grows_effect _ _ sdk).
Qed.

Lemma node_ok_step (n : Node) (e : Event) :
  node_ok rt n -> sdk_contract rt (program n) e = true ->
  node_ok rt (fst (step n e)).
Proof.
  intros Hn Hc. pose proof Hn as [Hok Hcap].
  destruct e as [req sdk | req sdk | r sdk | t sid | t | t]; simpl in *.
  - apply (node_ok_program n _ sdk); [exact Hn | exact Hc |].
    rewrite listener_state. by apply served_effect.
  - destruct (Http.route rt (program n) req sdk) as [st' a | c] eqn:E; simpl.
    + apply (node_ok_program n _ sdk); [exact Hn | exact Hc |].
      by apply (route_effect (program n) st' req sdk a).
    + split; [exact Hok |]. simpl. apply Forall_app. split; [exact Hcap |].
      apply Forall_singleton. by apply (route_captured (program n) req sdk).
  - destruct (awaiting n !! r) as [[req c] |] eqn:E; simpl; [| exact Hn].
    assert (Hrc : captured (program n) (req, c))
      by (by apply (Forall_lookup_1 _ _ _ _ Hcap E)).
    pose proof (end_callback_effect (program n) req c sdk Hok Hrc) as He.
    split; simpl.
    + by apply (effect_ok (program n) _ sdk).
    + apply Forall_delete. eapply Forall_impl; [exact Hcap |].
      intros p. apply captured_grows. by apply (grows_effect _ _ sdk).
  - apply andb_prop in Hc as [Hu Hg]. split; simpl.
    + by apply registry_ok_initialized.
    + eapply Forall_impl; [exact Hcap |].
      intros p. apply captured_grows. by apply grows_onsessioninitialized.
  - destruct (transports (program n) !! t) as [[[] so []] |] eqn:Ht;
      try discriminate.
    split; simpl.
    + by apply (registry_ok_closed (program n) t so).
    + eapply Forall_impl; [exact Hcap |].
      intros p. apply captured_grows. apply grows_onclose.
  - destruct (transports (program n) !! t) as [[[] so []] |] eqn:Ht;
      try discriminate.
    split; simpl.
    + apply (registry_ok_ext (program n)); [| | exact Hok];
        unfold response_closed; rewrite Ht; simpl;
        destruct so as [sid |]; try reflexivity;
      intros s t' c; simpl; rewrite list_lookup_alter;
      (destruct (decide (t = t')) as [<- | Hneq]; [| reflexivity]);
      rewrite Ht; simpl; split; discriminate.
    + eapply Forall_impl; [exact Hcap |].
      intros p. apply captured_grows. apply grows_response_closed.
Qed.

Lemma run_cons_state (n : Node) (e : Event) (es : list Event) :
  fst (run n (e :: es)) = fst (run (fst (step n e)) es).
Proof.
  simpl. destruct (Http.step rt isInitializeRequest n e) as [n' acts]; simpl.
  by destruct (Http.run rt isInitializeRequest n' es).
Qed.

Lemma node_ok_run (es : list Event) (n : Node) :
  node_ok rt n -> sdk_contract_all n es = true ->
  node_ok rt (fst (run n es)).
Proof.
  revert n. induction es as [| e es IH]; intros n Hok Hc; [exact Hok |].
  simpl in Hc. apply andb_prop in Hc as [He Hes].
  rewrite run_cons_state. apply IH; [by apply node_ok_step | exact Hes].
Qed.

Lemma reachable_node_ok (n : Node) : reachable_node n -> node_ok rt n.
Proof.
  intros (es & Hc & <-). apply node_ok_run; [apply node_ok_boot | exact Hc].
Qed.

Lemma reachable_ok (st : State) : reachable st -> registry_ok rt st.
Proof. intros (n & Hn & <-). by apply reachable_node_ok. Qed.

Lemma run_snoc_state (es : list Event) (e : Event) (n : Node) :
  fst (run n (es ++ [e])) = fst (step (fst (run n es)) e).
Proof.
  revert n. induction es as [| e' es IH]; intros n.
  - simpl. by destruct (Http.step rt isInitializeRequest n e).
  - change ((e' :: es) ++ [e])%list with (e' :: (es ++ [e]))%list.
    rewrite !run_cons_state. apply IH.
Qed.

Lemma contract_snoc (es : list Event) (e : Event) (n : Node) :
  sdk_contract_all n (es ++ [e])
  = sdk_contract_all n es && sdk_contract rt (program (fst (run n es))) e.
Proof.
  revert n. induction es as [| e' es IH]; intros n.
  - simpl. by rewrite andb_true_r.
  - change ((e' :: es) ++ [e])%list with (e' :: (es ++ [e]))%list.
    rewrite run_cons_state. simpl. rewrite IH. by rewrite andb_assoc.
Qed.

Lemma reachable_node_step (n : Node) (e : Event) :
  reachable_node n -> sdk_contract rt (program n) e = true ->
  reachable_node (fst (step n e)).
Proof.
  intros (es & Hc & <-) He. exists (es ++ [e])%list. split.
  - rewrite contract_snoc, Hc. exact He.
  - apply run_snoc_state.
Qed.

(** A property that holds when the server starts and that every event
    keeps, in a server that satisfies the invariant, holds throughout. *)
Lemma reachable_node_invariant (P : Node -> Prop) :
  P boot ->
  (forall n e, node_ok rt n -> P n -> sdk_contract rt (program n) e = true ->
               P (fst (step n e))) ->
  forall n, reachable_node n -> P n.
Proof.
  intros Hboot Hstep n (es & Hc & <-).
  assert (H : forall es n0, node_ok rt n0 -> P n0 ->
                            sdk_contract_all n0 es = true ->
                            P (fst (run n0 es))).
  { clear es Hc. induction es as [| e es IH]; intros n0 Hok HP Hc; [exact HP |].
    simpl in Hc. apply andb_prop in Hc as [He Hes].
    rewrite run_cons_state.
    apply IH; [by apply node_ok_step | by apply Hstep | exact Hes]. }
  apply H; [apply node_ok_boot | exact Hboot | exact Hc].
Qed.

Lemma reachable_request (st : State) (req : Request) (sdk : Sdk) :
  reachable st -> generates rt sdk st = true ->
  reachable (fst (listener st req sdk)).
Proof.
  intros (n & Hn & <-) Hg.
  exists (fst (step n (request req sdk))). split; [| reflexivity].
  by apply reachable_node_step.
Qed.

Lemma reachable_closed (st : State) (t : nat) (so : option string) :
  reachable st ->
  transports st !! t
  = Some {| kind := Streamable; sessionId := so; closed := false |} ->
  reachable (onclose t st).
Proof.
  intros (n & Hn & <-) Ht.
  exists (fst (step n (transport_closed t))). split; [| reflexivity].
  apply reachable_node_step; [exact Hn |]. simpl. by rewrite Ht.
Qed.

(** *** What the transport's callbacks do *)

Lemma handleRequest_quiet (st : State) (t : nat) (sdk : Sdk) :
  handle_initializes sdk = None -> handle_closes sdk = false ->
  handleRequest t sdk st = st.
Proof. intros Hi Hc. unfold handleRequest. by rewrite Hi, Hc. Qed.

Lemma handleRequest_initializes (st : State) (t : nat) (sdk : Sdk)
    (sid : string) :
  uninitialized t st = true ->
  handle_initializes sdk = Some sid -> handle_closes sdk = false ->
  handleRequest t sdk st = onsessioninitialized t sid st.
Proof. intros Hu Hi Hc. unfold handleRequest. by rewrite Hi, Hu, Hc. Qed.

Lemma handleRequest_closes (st : State) (t : nat) (sdk : Sdk) :
  uninitialized t st = false -> handle_closes sdk = true ->
  handleRequest t sdk st = onclose t st.
Proof.
  intros Hu Hc. unfold handleRequest. rewrite Hu, Hc.
  by destruct (handle_initializes sdk).
Qed.

Lemma registered_initialized (st : State) (sid : string) (t : nat) :
  registry_ok rt st -> registered st sid t -> uninitialized t st = false.
Proof.
  intros Hok Hreg. apply (registry_live rt st Hok) in Hreg.
  unfold live_session in Hreg. unfold uninitialized. by rewrite Hreg.
Qed.

Lemma uninitialized_constructed (st : State) :
  uninitialized (length (transports st)) (constructed new_streamable st) = true.
Proof.
  unfold uninitialized, constructed. simpl.
  rewrite lookup_app_r by lia. by rewrite Nat.sub_diag.
Qed.

(** *** Routing on [/mcp] *)

Lemma post_initialize (st : State) (req : Request) (sdk : Sdk) (j : JSON) :
  method req = "POST" -> pathname req = "/mcp" ->
  mcp_session_id req = None ->
  JSON_parse rt (body req) = Some j -> isInitializeRequest j = true ->
  listener st req sdk
  = (if connect_rejects sdk then constructed new_streamable st
     else handleRequest (length (transports st)) sdk
            (constructed new_streamable st),
     (cors
      ++ new_StreamableHTTPServerTransport (length (transports st))
         :: server_connect (length (transports st))
         :: (if connect_rejects sdk then parse_error rt
             else transport_handleRequest (length (transports st)) (Some j)
                  :: (if handle_rejects sdk then parse_error rt else [])))%list).
Proof.
  intros Hm Hp Hs Hj Hi. rewrite listener_served, served_post by assumption.
  rewrite Hs. simpl. unfold post_deferred. rewrite Hs, Hj, Hi. reflexivity.
Qed.

Lemma post_captures (st : State) (req : Request) (sdk : Sdk) (sid : string)
    (t : nat) :
  registered st sid t -> sid <> "" ->
  method req = "POST" -> pathname req = "/mcp" ->
  mcp_session_id req = Some sid ->
  route st req sdk = awaits_end (on_existing (own t)).
Proof.
  intros Hreg Hne Hm Hp Hs. unfold Http.route, Http.mcp. rewrite Hm, Hp, Hs.
  simpl. by rewrite (session_transport_registered st sid t Hne Hreg).
Qed.

Lemma end_existing (st : State) (req : Request) (sdk : Sdk) (t : nat)
    (j : JSON) :
  JSON_parse rt (body req) = Some j ->
  end_callback (on_existing (own t)) req sdk st
  = (handleRequest t sdk st,
     transport_handleRequest t (Some j)
     :: (if handle_rejects sdk then parse_error rt else [])).
Proof. intros Hj. simpl. unfold post_existing. by rewrite Hj. Qed.

Lemma post_forwarded (st : State) (req : Request) (sdk : Sdk) (sid : string)
    (t : nat) (j : JSON) :
  registered st sid t -> sid <> "" ->
  method req = "POST" -> pathname req = "/mcp" ->
  mcp_session_id req = Some sid ->
  JSON_parse rt (body req) = Some j ->
  listener st req sdk
  = (handleRequest t sdk st,
     (cors ++ transport_handleRequest t (Some j)
              :: (if handle_rejects sdk then parse_error rt else []))%list).
Proof.
  intros Hreg Hne Hm Hp Hs Hj. rewrite listener_served, served_post by assumption.
  rewrite Hs, (session_transport_registered st sid t Hne Hreg).
  unfold post_existing. rewrite Hj. reflexivity.
Qed.

Lemma post_unparseable (st : State) (req : Request) (sdk : Sdk) (sid : string)
    (t : nat) :
  registered st sid t -> sid <> "" ->
  method req = "POST" -> pathname req = "/mcp" ->
  mcp_session_id req = Some sid ->
  JSON_parse rt (body req) = None ->
  listener st req sdk = (st, (cors ++ parse_error rt)%list).
Proof.
  intros Hreg Hne Hm Hp Hs Hj. rewrite listener_served, served_post by assumption.
  rewrite Hs, (session_transport_registered st sid t Hne Hreg).
  unfold post_existing. rewrite Hj. reflexivity.
Qed.

Lemma get_or_delete_forwarded (st : State) (req : Request) (sdk : Sdk)
    (sid : string) (t : nat) :
  registered st sid t -> sid <> "" ->
  method req = "GET" \/ method req = "DELETE" -> pathname req = "/mcp" ->
  mcp_session_id req = Some sid ->
  listener st req sdk
  = (handleRequest t sdk st,
     (cors ++ transport_handleRequest t None
              :: (if handle_rejects sdk then [unhandled_rejection] else []))%list).
Proof.
  intros Hreg Hne Hm Hp Hs.
  rewrite listener_served, served_get_or_delete by assumption.
  unfold get_or_delete. rewrite Hs.
  by rewrite (session_transport_registered st sid t Hne Hreg).
Qed.

Lemma post_unknown (st : State) (req : Request) (sdk : Sdk) (sid : string) :
  method req = "POST" -> pathname req = "/mcp" ->
  mcp_session_id req = Some sid -> sid <> "" ->
  streamableTransports st !! sid = None ->
  Object_prototype_has rt sid = false ->
  listener st req sdk
  = (st, (cors ++ (if passes (JSON_parse rt (body req))
                   then no_valid_session rt else parse_error rt))%list).
Proof.
  intros Hm Hp Hs Hne Hreg Hproto.
  rewrite listener_served, served_post by assumption.
  rewrite Hs, (session_transport_unknown st sid Hreg Hproto).
  unfold post_deferred. rewrite Hs. simpl.
  rewrite (session_transport_unknown st sid Hreg Hproto).
  destruct (String.eqb_spec sid ""); [contradiction |].
  by destruct (JSON_parse rt (body req)).
Qed.

Lemma post_finds_none (st : State) (req : Request) (sdk : Sdk) (sid : string) :
  method req = "POST" -> pathname req = "/mcp" ->
  mcp_session_id req = Some sid ->
  streamableTransports st !! sid = None ->
  Object_prototype_has rt sid = false ->
  route st req sdk = awaits_end on_deferred.
Proof.
  intros Hm Hp Hs Hreg Hproto. unfold Http.route, Http.mcp.
  rewrite Hm, Hp, Hs. simpl.
  by rewrite (session_transport_unknown st sid Hreg Hproto).
Qed.

Lemma end_deferred_unknown (st : State) (req : Request) (sdk : Sdk)
    (sid : string) :
  mcp_session_id req = Some sid -> sid <> "" ->
  streamableTransports st !! sid = None ->
  Object_prototype_has rt sid = false ->
  end_callback on_deferred req sdk st
  = (st, if passes (JSON_parse rt (body req))
         then no_valid_session rt else parse_error rt).
Proof.
  intros Hs Hne Hreg Hproto. simpl. unfold post_deferred. rewrite Hs. simpl.
  rewrite (session_transport_unknown st sid Hreg Hproto).
  destruct (String.eqb_spec sid ""); [contradiction |].
  by destruct (JSON_parse rt (body req)).
Qed.

Lemma get_unknown (st : State) (req : Request) (sdk : Sdk) (sid : string) :
  method req = "GET" \/ method req = "DELETE" -> pathname req = "/mcp" ->
  mcp_session_id req = Some sid ->
  streamableTransports st !! sid = None ->
  Object_prototype_has rt sid = false ->
  listener st req sdk = (st, (cors ++ invalid_or_missing)%list).
Proof.
  intros Hm Hp Hs Hreg Hproto.
  rewrite listener_served, served_get_or_delete by assumption.
  unfold get_or_delete. rewrite Hs.
  by rewrite (session_transport_unknown st sid Hreg Hproto).
Qed.

(** A method the [/mcp] branch has no case for is not answered. *)
Lemma other_method (st : State) (req : Request) (sdk : Sdk) :
  pathname req = "/mcp" ->
  method req <> "POST" -> method req <> "GET" -> method req <> "DELETE" ->
  method req <> "OPTIONS" ->
  listener st req sdk = (st, cors).
Proof.
  intros Hp H1 H2 H3 H4. rewrite listener_served.
  unfold Http.served, Http.route, Http.mcp. rewrite Hp.
  destruct (String.eqb_spec (method req) "OPTIONS"); [contradiction |].
  destruct (String.eqb_spec (method req) "POST"); [contradiction |].
  destruct (String.eqb_spec (method req) "GET"); [contradiction |].
  destruct (String.eqb_spec (method req) "DELETE"); [contradiction |].
  reflexivity.
Qed.

(** *** Registration and teardown *)

Lemma registered_uuid (st : State) (sid : string) (t : nat) :
  registry_ok rt st -> registered st sid t ->
  sid <> "" /\ Object_prototype_has rt sid = false.
Proof.
  intros Hok Hreg. apply (issued_uuid rt st Hok sid t).
  by apply registered_issued.
Qed.

Lemma initialize_registers (st : State) (sid : string) :
  streamableTransports
    (onsessioninitialized (length (transports st)) sid
       (constructed new_streamable st))
  = <[sid := length (transports st)]> (streamableTransports st)
  /\ live_session
       (onsessioninitialized (length (transports st)) sid
          (constructed new_streamable st))
       sid (length (transports st)).
Proof.
  split; [reflexivity |]. unfold live_session. simpl.
  rewrite list_lookup_alter. destruct (decide _); [| done].
  rewrite lookup_app_r by lia. by rewrite Nat.sub_diag.
Qed.

Lemma closed_unregisters (st : State) (sid : string) (t : nat) :
  registry_ok rt st -> registered st sid t ->
  streamableTransports (onclose t st) !! sid = None
  /\ transports (onclose t st) !! t
     = Some {| kind := Streamable; sessionId := Some sid; closed := true |}.
Proof.
  intros Hok Hreg. destruct (registered_uuid st sid t Hok Hreg) as [Hne _].
  apply (registry_live rt st Hok) in Hreg. unfold live_session in Hreg.
  simpl. rewrite Hreg. simpl. split.
  - destruct (String.eqb_spec sid ""); [contradiction |]. apply lookup_delete_eq.
  - rewrite list_lookup_alter. destruct (decide (t = t)); [| done].
    by rewrite Hreg.
Qed.

(** C1, as amended.  In every state the server can reach, given that
    the identifiers the SDK generates are fresh: the registry holds
    exactly the open transports that have a session, each under its own
    identifier, which no other transport was given.  A POST without
    session header whose body is an initialize request constructs a new
    transport and connects it.  When [server.connect] rejects, the POST
    is answered with the parse error and no session is registered;
    otherwise the transport is handed the request, and when it
    initialises its session while it handles it, the state after the
    request has it registered, open, under that identifier, and every
    other entry as before.  A POST with a registered identifier captures
    the transport registered under it when it arrives and hands it the
    request when the body has ended and is valid JSON, whatever has
    happened to the session in between; a DELETE with that identifier
    goes to the same transport.  When that transport closes, during the
    DELETE or later, its entry is deleted; and once a transport has
    closed, a GET or a POST arriving with its identifier finds no
    transport, is answered with status 400 and reaches none. *)
Theorem session_lifecycle (st : State) :
  reachable st ->
  registry_ok rt st
  /\ (forall (req : Request) (sdk : Sdk) (j : JSON),
         method req = "POST" -> pathname req = "/mcp" ->
         mcp_session_id req = None ->
         JSON_parse rt (body req) = Some j -> isInitializeRequest j = true ->
         snd (listener st req sdk)
         = (cors
            ++ new_StreamableHTTPServerTransport (length (transports st))
               :: server_connect (length (transports st))
               :: (if connect_rejects sdk then parse_error rt
                   else transport_handleRequest (length (transports st))
                                                (Some j)
                        :: (if handle_rejects sdk then parse_error rt
                            else [])))%list
         /\ (generates rt sdk st = true ->
             reachable (fst (listener st req sdk)))
         /\ (connect_rejects sdk = true ->
             fst (listener st req sdk) = constructed new_streamable st)
         /\ (connect_rejects sdk = false ->
             forall sid : string,
               handle_initializes sdk = Some sid ->
               handle_closes sdk = false ->
               streamableTransports (fst (listener st req sdk))
               = <[sid := length (transports st)]> (streamableTransports st)
               /\ live_session (fst (listener st req sdk)) sid
                    (length (transports st))))
  /\ (forall (sid : string) (t : nat),
         registered st sid t ->
         (forall (req : Request) (sdk : Sdk),
             method req = "POST" -> pathname req = "/mcp" ->
             mcp_session_id req = Some sid ->
             route st req sdk = awaits_end (on_existing (own t))
             /\ (forall (later : State) (sdk' : Sdk) (j : JSON),
                    JSON_parse rt (body req) = Some j ->
                    end_callback (on_existing (own t)) req sdk' later
                    = (handleRequest t sdk' later,
                       transport_handleRequest t (Some j)
                       :: (if handle_rejects sdk' then parse_error rt
                           else [])))
             /\ (forall j : JSON,
                    JSON_parse rt (body req) = Some j ->
                    listener st req sdk
                    = (handleRequest t sdk st,
                       (cors ++ transport_handleRequest t (Some j)
                                :: (if handle_rejects sdk then parse_error rt
                                    else []))%list))
             /\ (JSON_parse rt (body req) = None ->
                 (forall (later : State) (sdk' : Sdk),
                     end_callback (on_existing (own t)) req sdk' later
                     = (later, parse_error rt))
                 /\ listener st req sdk = (st, (cors ++ parse_error rt)%list)))
         /\ (forall (req : Request) (sdk : Sdk),
                method req = "DELETE" -> pathname req = "/mcp" ->
                mcp_session_id req = Some sid ->
                listener st req sdk
                = (handleRequest t sdk st,
                   (cors ++ transport_handleRequest t None
                            :: (if handle_rejects sdk
                                then [unhandled_rejection] else []))%list)
                /\ (handle_closes sdk = true ->
                    fst (listener st req sdk) = onclose t st))
         /\ reachable (onclose t st)
         /\ streamableTransports (onclose t st) !! sid = None
         /\ transports (onclose t st) !! t
            = Some {| kind := Streamable; sessionId := Some sid;
                      closed := true |})
  /\ (forall (sid : string) (t : nat),
         transports st !! t
         = Some {| kind := Streamable; sessionId := Some sid; closed := true |} ->
         forall (req : Request) (sdk : Sdk),
           pathname req = "/mcp" -> mcp_session_id req = Some sid ->
           (method req = "GET" ->
            listener st req sdk = (st, (cors ++ invalid_or_missing)%list))
           /\ (method req = "POST" ->
               route st req sdk = awaits_end on_deferred
               /\ (forall (later : State) (sdk' : Sdk),
                      reachable later ->
                      transports later !! t
                      = Some {| kind := Streamable; sessionId := Some sid;
                                closed := true |} ->
                      end_callback on_deferred req sdk' later
                      = (later,
                         if passes (JSON_parse rt (body req))
                         then no_valid_session rt else parse_error rt))
               /\ listener st req sdk
                  = (st, (cors ++ (if passes (JSON_parse rt (body req))
                                   then no_valid_session rt
                                   else parse_error rt))%list))).
Proof.
  intros Hreach. pose proof (reachable_ok st Hreach) as Hok.
  split; [exact Hok |]. split; [| split].
  - intros req sdk j Hm Hp Hs Hj Hi.
    rewrite (post_initialize st req sdk j) by assumption. simpl.
    split; [reflexivity |]. split; [| split].
    + intros Hg.
      pose proof (reachable_request st req sdk Hreach Hg) as H.
      by rewrite (post_initialize st req sdk j) in H.
    + by intros ->.
    + intros -> sid Hinit Hcl.
      rewrite (handleRequest_initializes _ _ sdk sid)
        by (assumption || apply uninitialized_constructed).
      apply initialize_registers.
  - intros sid t Hreg.
    destruct (registered_uuid st sid t Hok Hreg) as [Hne Hproto].
    split; [| split; [| split]].
    + intros req sdk Hm Hp Hs. split; [| split; [| split]].
      * by apply (post_captures st req sdk sid).
      * intros later sdk' j Hj. by apply end_existing.
      * intros j Hj. by apply (post_forwarded st req sdk sid).
      * intros Hj. split; [| by apply (post_unparseable st req sdk sid t)].
        intros later sdk'. simpl. unfold post_existing. by rewrite Hj.
    + intros req sdk Hm Hp Hs.
      rewrite (get_or_delete_forwarded st req sdk sid t) by auto.
      split; [reflexivity |]. intros Hcl. simpl.
      apply handleRequest_closes; [| exact Hcl].
      by apply (registered_initialized st sid).
    + apply (registry_live rt st Hok) in Hreg.
      by apply (reachable_closed st t (Some sid)).
    + by apply closed_unregisters.
  - intros sid t Ht req sdk Hp Hs.
    destruct (torn_down_unknown st sid t Hok Ht) as (Hreg & Hne & Hproto).
    split; intros Hm.
    + apply (get_unknown st req sdk sid); auto.
    + split; [by apply (post_finds_none st req sdk sid) |]. split.
      * intros later sdk' Hlater Hclosed.
        destruct (torn_down_unknown later sid t (reachable_ok later Hlater)
                    Hclosed) as (Hreg' & _ & _).
        by apply (end_deferred_unknown later req sdk' sid).
      * by apply (post_unknown st req sdk sid).
Qed.

(** C2, as amended.  A POST to [/mcp] whose session header carries an
    identifier that is not empty, not registered and not a property name
    of [Object.prototype] creates no session and changes no registry;
    it is answered with status 400 and the JSON-RPC error -32000
    [Bad Request: No valid session ID provided] when its body is valid
    JSON, whatever the JSON, and with the parse error -32700 when it is
    not. *)
Theorem unknown_session_post (st : State) (req : Request) (sdk : Sdk)
    (sid : string) :
  method req = "POST" -> pathname req = "/mcp" ->
  mcp_session_id req = Some sid -> sid <> "" ->
  streamableTransports st !! sid = None ->
  Object_prototype_has rt sid = false ->
  listener st req sdk
  = (st,
     (cors
      ++ [writeHead 400 [("Content-Type", "application/json")];
          end_ (Some (JSON_stringify rt 0
                        (if passes (JSON_parse rt (body req))
                         then jsonrpc_error (-32000)
                                "Bad Request: No valid session ID provided"
                         else jsonrpc_error (-32700) "Parse error")))])%list).
Proof.
  intros Hm Hp Hs Hne Hreg Hproto.
  rewrite (post_unknown st req sdk sid) by assumption.
  by destruct (JSON_parse rt (body req)).
Qed.

(** C8.  A request to [/mcp] whose method is none of POST, GET, DELETE
    and OPTIONS gets the CORS headers set and nothing else: no status
    line, no body, no transport, and the state is unchanged. *)
Theorem unsupported_method_unanswered (st : State) (req : Request)
    (sdk : Sdk) :
  pathname req = "/mcp" ->
  method req <> "POST" -> method req <> "GET" -> method req <> "DELETE" ->
  method req <> "OPTIONS" ->
  listener st req sdk = (st, cors)
  /\ existsb writes_response (snd (listener st req sdk)) = false
  /\ existsb forwards (snd (listener st req sdk)) = false.
Proof.
  intros Hp H1 H2 H3 H4.
  rewrite (other_method st req sdk) by assumption. by repeat split.
Qed.

End Listener.

(** *** The listener on sample requests *)

Lemma connected_reachable :
  Http.reachable_node Sample.runtime Sample.isInitializeRequest
    Sample.connected.
Proof. exists Sample.handshake. split; reflexivity. Defined.

Lemma handshake_reachable :
  Http.reachable Sample.runtime Sample.isInitializeRequest Sample.one_session.
Proof. exists Sample.connected. split; [exact connected_reachable | reflexivity]. Defined.

Lemma session_lifecycle_witness :
  registry_ok Sample.runtime Sample.one_session
  /\ Http.listener Sample.runtime Sample.isInitializeRequest Sample.one_session
       (Sample.mcp_request "POST" (Some "session-1") Sample.ping_text)
       Sample.quiet
     = (Sample.one_session,
        (cors ++ [transport_handleRequest 0 (Some (JObj [("method", JStr "ping")]))])%list).
Proof.
  pose proof (session_lifecycle Sample.runtime Sample.isInitializeRequest
                Sample.one_session handshake_reachable)
    as (Hok & _ & Hsession & _).
  split; [exact Hok |].
  destruct (Hsession "session-1" 0%nat) as (Hpost & _); [by vm_compute |].
  destruct (Hpost (Sample.mcp_request "POST" (Some "session-1") Sample.ping_text)
              Sample.quiet eq_refl eq_refl eq_refl) as (_ & _ & Hserved & _).
  exact (Hserved (JObj [("method", JStr "ping")]) eq_refl).
Defined.

(** C1 as it was stated fails for a body that is not valid JSON: with
    the session registered, the POST is answered with the parse error
    and reaches no transport. *)
Lemma malformed_body_not_forwarded :
  registered Sample.one_session "session-1" 0
  /\ JSON_parse Sample.runtime "not json" = None
  /\ Http.listener Sample.runtime Sample.isInitializeRequest Sample.one_session
       (Sample.mcp_request "POST" (Some "session-1") "not json") Sample.quiet
     = (Sample.one_session, (cors ++ parse_error Sample.runtime)%list)
  /\ existsb forwards
       (snd (Http.listener Sample.runtime Sample.isInitializeRequest
               Sample.one_session
               (Sample.mcp_request "POST" (Some "session-1") "not json")
               Sample.quiet))
     = false.
Proof. repeat split; by vm_compute. Qed.

(** Nor is every initialize request given a session: when the server
    refuses to connect the new transport, the POST is answered with the
    parse error and the registry is as before. *)
Example refused_initialize_unregistered :
  Http.listener Sample.runtime Sample.isInitializeRequest Sample.one_session
    (Sample.mcp_request "POST" None Sample.initialize_text) Sample.refusing
  = (constructed new_streamable Sample.one_session,
     (cors ++ new_StreamableHTTPServerTransport 1 :: server_connect 1
              :: parse_error Sample.runtime)%list)
  /\ streamableTransports
       (fst (Http.listener Sample.runtime Sample.isInitializeRequest
               Sample.one_session
               (Sample.mcp_request "POST" None Sample.initialize_text)
               Sample.refusing))
     = streamableTransports Sample.one_session.
Proof. split; by vm_compute. Qed.

Lemma unknown_session_post_witness :
  Http.listener Sample.runtime Sample.isInitializeRequest Sample.one_session
    (Sample.mcp_request "POST" (Some "session-2") Sample.initialize_text)
    Sample.quiet
  = (Sample.one_session, (cors ++ no_valid_session Sample.runtime)%list).
Proof.
  exact (unknown_session_post Sample.runtime Sample.isInitializeRequest
           Sample.one_session
           (Sample.mcp_request "POST" (Some "session-2") Sample.initialize_text)
           Sample.quiet "session-2" eq_refl eq_refl eq_refl
           ltac:(discriminate) ltac:(by vm_compute) eq_refl).
Defined.

(** C2 as it was stated fails for a body that is not valid JSON: the
    answer is the parse error, not the session error. *)
Lemma unknown_session_parse_error :
  streamableTransports initial !! "never-issued" = None
  /\ Http.listener Sample.runtime Sample.isInitializeRequest initial
       (Sample.mcp_request "POST" (Some "never-issued") "not json")
       Sample.quiet
     = (initial, (cors ++ parse_error Sample.runtime)%list)
  /\ parse_error Sample.runtime <> no_valid_session Sample.runtime.
Proof.
  split; [by vm_compute |]. split; [by vm_compute |].
  intros H. vm_compute in H. discriminate H.
Qed.

Lemma unsupported_method_unanswered_witness :
  Http.listener Sample.runtime Sample.isInitializeRequest Sample.one_session
    (Sample.mcp_request "PUT" (Some "session-1") Sample.ping_text) Sample.quiet
  = (Sample.one_session, cors).
Proof.
  apply (unsupported_method_unanswered Sample.runtime
           Sample.isInitializeRequest Sample.one_session
           (Sample.mcp_request "PUT" (Some "session-1") Sample.ping_text)
           Sample.quiet eq_refl);
    discriminate.
Defined.

(** After the DELETE, during which the transport closes, the identifier
    is gone from the registry and a GET with it is refused. *)
Example torn_down_session_refused :
  streamableTransports Sample.torn_down !! "session-1" = None
  /\ Http.listener Sample.runtime Sample.isInitializeRequest Sample.torn_down
       (Sample.mcp_request "GET" (Some "session-1") "") Sample.quiet
     = (Sample.torn_down, (cors ++ invalid_or_missing)%list).
Proof. split; by vm_compute. Qed.

(** The same method on a path the listener does not know is answered
    with the not-found error. *)
Example unknown_path_not_found :
  Http.listener Sample.runtime Sample.isInitializeRequest initial
    {| method := "PUT"; pathname := "/nowhere"; query_sessionId := None;
       mcp_session_id := None; body := "" |} Sample.quiet
  = (initial, (cors ++ not_found Sample.runtime)%list).
Proof. reflexivity. Qed.

(** A header naming a property of [Object.prototype] is taken for a
    registered session. *)
Example inherited_property_taken_for_session :
  Http.listener Sample.runtime Sample.isInitializeRequest initial
    (Sample.mcp_request "POST" (Some "constructor") Sample.ping_text)
    Sample.quiet
  = (initial, (cors ++ parse_error Sample.runtime)%list)
  /\ Http.listener Sample.runtime Sample.isInitializeRequest initial
       (Sample.mcp_request "GET" (Some "constructor") "") Sample.quiet
     = (initial, (cors ++ [unhandled_rejection])%list).
Proof. split; reflexivity. Qed.

End HttpFacts.

(** * Further properties of the tool handlers *)

Module HandlerFacts.

Lemma get_prop_set_prop_eq (k : string) (v : JSON) (o : list (string * JSON)) :
  get_prop k (set_prop k v o) = Some v.
Proof.
  induction o as [| [k0 v0] o IH]; simpl.
  - by rewrite String.eqb_refl.
  - destruct (String.eqb_spec k0 k) as [-> | Hne]; simpl.
    + by rewrite String.eqb_refl.
    + destruct (String.eqb_spec k0 k); [contradiction | exact IH].
Qed.

Lemma get_prop_set_some_eq {A} (k : string) (x : option A) (enc : A -> JSON)
    (o : list (string * JSON)) :
  get_prop k (set_some x k enc o)
  = match x with
    | Some v => Some (enc v)
    | None => get_prop k o
    end.
Proof. destruct x; simpl; [apply get_prop_set_prop_eq | reflexivity]. Qed.

(** Lookups in a parameter object built by a chain of assignments. *)
Ltac props :=
  repeat first [ rewrite get_prop_set_some_eq
               | rewrite ToolFacts.get_prop_set_some_ne by discriminate
               | rewrite get_prop_set_prop_eq
               | rewrite ToolFacts.get_prop_set_prop_ne by discriminate ];
  simpl;
  repeat match goal with
         | |- context [match ?x with _ => _ end] => destruct x
         end;
  reflexivity.

(** The one request of a handler that has reached its Stripe call. *)
Ltac sent :=
  handler_steps;
  match goal with
  | |- context [?stripe ?q (service ?w)] =>
      destruct (stripe q (service w)) as [[? | ?] ?]; reflexivity
  | |- context [?stripe ?q ?x] =>
      destruct (stripe q x) as [[? | ?] ?]; reflexivity
  end.

Section Handlers.

Context {S : Type}.
Variable rt : Runtime.
Variable stripe : Client S.

Ltac leaf :=
  lazymatch goal with
  | |- context [stripe ?q ?x] =>
      let E := fresh "E" in
      destruct (stripe q x) as [[e | v] s''] eqn:E; simpl;
      [ right; right; exists q, e, s''; split; [exact E | reflexivity]
      | right; left; exists q, v, s''; eexists; split;
        [exact E | reflexivity] ]
  | |- _ => left; eexists; reflexivity
  end.

(** X1.  Every tool call resolves, whatever the client does.  It makes
    no Stripe request and leaves the service alone; or it makes one
    request, which resolved; or it makes one request, which rejected,
    and then the thrown value is logged once and the answer is
    [{success: false, error}] with its message. *)
Theorem tool_call_outcomes (c : ToolCall) (s : S) :
  (exists resp, call_tool rt stripe c (fresh s) = (inr resp, fresh s))
  \/ (exists (q : StripeCall) (v : returns q) (s' : S) (resp : ToolResponse),
         stripe q s = (inr v, s')
         /\ call_tool rt stripe c (fresh s)
            = (inr resp, {| service := s'; events := [StripeRequest q] |}))
  \/ (exists (q : StripeCall) (e : Thrown) (s' : S),
         stripe q s = (inl e, s')
         /\ call_tool rt stripe c (fresh s)
            = (inr (text_content rt (failure (thrown_message e))),
               {| service := s';
                  events := [StripeRequest q; ConsoleError e] |})).
Proof.
  destruct c as [a | a | a | a | a | a]; simpl.
  - left. eexists. reflexivity.
  - destruct a as [action product_id name description images metadata active].
    unfold Products.stripe_products, Products.switch_action; simpl.
    destruct (parse_metadata rt metadata) as [invalid | pm];
      [left; eexists; reflexivity |].
    by_literal action; simpl;
      repeat match goal with
             | |- context [match truthy_string ?v with _ => _ end] =>
                 destruct (truthy_string v)
             end; handler_steps; leaf.
  - destruct a as [action price_id product_id unit_amount currency ri ric
                     metadata active].
    unfold Prices.stripe_prices, Prices.switch_action; simpl.
    destruct (parse_metadata rt metadata) as [invalid | pm];
      [left; eexists; reflexivity |].
    by_literal action; simpl;
      repeat match goal with
             | |- context [match truthy_string ?v with _ => _ end] =>
                 destruct (truthy_string v)
             | |- context [match truthy_number ?v with _ => _ end] =>
                 destruct (truthy_number v)
             end; handler_steps; leaf.
  - destruct a as [action webhook_id url enabled_events description enabled].
    unfold Webhooks.stripe_webhooks; simpl.
    by_literal action; simpl;
      repeat match goal with
             | |- context [match truthy_string ?v with _ => _ end] =>
                 destruct (truthy_string v)
             | |- context [match enabled_events with _ => _ end] =>
                 destruct enabled_events
             | |- context [Webhooks.startsWith ?u ?p] =>
                 destruct (Webhooks.startsWith u p)
             end; handler_steps; leaf.
  - destruct a as [action configuration_id h p t d au f1 f2 f3 f4 f5].
    unfold PortalConfig.stripe_portal_config; simpl.
    by_literal action; simpl;
      repeat match goal with
             | |- context [match truthy_string configuration_id with _ => _ end] =>
                 destruct (truthy_string configuration_id)
             end; handler_steps; leaf.
  - destruct a as [resource filters limit expand].
    unfold Query.stripe_query, Query.switch_resource; simpl.
    by_literal resource; handler_steps; leaf.
Qed.

(** X2.  Creating a product sends the name, the description unless it
    is empty, the images, and the parsed metadata unless it is a falsy
    value ([null], [false], [0], the empty string); it never sends
    [active]. *)
Theorem product_create_fields (a : Products.Args) (n : string)
    (pm : option JSON) (s : S) :
  Products.action a = "create" ->
  truthy_string (Products.name a) = Some n ->
  parse_metadata rt (Products.metadata a) = inr pm ->
  exists params : list (string * JSON),
    stripe_requests
      (events (snd (Products.stripe_products rt stripe a (fresh s))))
    = [products_create (JObj params)]
    /\ get_prop "name" params = Some (JStr n)
    /\ get_prop "description" params
       = JStr <$> truthy_string (Products.description a)
    /\ get_prop "images" params = strings <$> Products.images a
    /\ get_prop "metadata" params = truthy_value pm
    /\ get_prop "active" params = None.
Proof.
  destruct a as [action product_id name description images metadata active];
    simpl. intros -> Hn Hpm.
  unfold Products.stripe_products, Products.switch_action; simpl.
  rewrite Hpm, Hn. eexists. split; [sent |].
  repeat split; props.
Qed.

(** X3.  Updating a product sends a description and an [active] flag
    whenever they are given, the empty description and [false]
    included, but a name only when it is not empty. *)
Theorem product_update_fields (a : Products.Args) (pid : string)
    (pm : option JSON) (s : S) :
  Products.action a = "update" ->
  truthy_string (Products.product_id a) = Some pid ->
  parse_metadata rt (Products.metadata a) = inr pm ->
  exists params : list (string * JSON),
    stripe_requests
      (events (snd (Products.stripe_products rt stripe a (fresh s))))
    = [products_update pid (JObj params)]
    /\ get_prop "name" params = JStr <$> truthy_string (Products.name a)
    /\ get_prop "description" params = JStr <$> Products.description a
    /\ get_prop "images" params = strings <$> Products.images a
    /\ get_prop "metadata" params = truthy_value pm
    /\ get_prop "active" params = JBool <$> Products.active a.
Proof.
  destruct a as [action product_id name description images metadata active];
    simpl. intros -> Hpid Hpm.
  unfold Products.stripe_products, Products.switch_action; simpl.
  rewrite Hpm, Hpid. eexists. split; [sent |].
  repeat split; props.
Qed.


(** X4.  Archiving a product or a price sends [{active: false}] for
    the given identifier and nothing else, whatever the other
    arguments are, once the metadata argument has passed the parsing
    that comes before the switch on the action. *)
Theorem archive_sends_only_active (s : S) :
  (forall (a : Products.Args) (pid : string) (pm : option JSON),
      Products.action a = "archive" ->
      truthy_string (Products.product_id a) = Some pid ->
      parse_metadata rt (Products.metadata a) = inr pm ->
      stripe_requests
        (events (snd (Products.stripe_products rt stripe a (fresh s))))
      = [products_update pid (JObj [("active", JBool false)])])
  /\ (forall (a : Prices.Args) (pid : string) (pm : option JSON),
         Prices.action a = "archive" ->
         truthy_string (Prices.price_id a) = Some pid ->
         parse_metadata rt (Prices.metadata a) = inr pm ->
         stripe_requests
           (events (snd (Prices.stripe_prices rt stripe a (fresh s))))
         = [prices_update pid (JObj [("active", JBool false)])]).
Proof.
  split.
  - intros [action product_id name description images metadata active] pid pm;
      simpl. intros -> Hpid Hpm.
    unfold Products.stripe_products, Products.switch_action; simpl.
    rewrite Hpm, Hpid. sent.
  - intros [action price_id product_id unit_amount currency ri ric metadata
              active] pid pm; simpl. intros -> Hpid Hpm.
    unfold Prices.stripe_prices, Prices.switch_action; simpl.
    rewrite Hpm, Hpid. sent.
Qed.

(** X5.  Creating a price sends the product, the amount and the
    currency, which is [usd] only when the argument is absent (an empty
    currency is sent as it is); [recurring] is sent only with a
    non-empty interval, and its count is 1 unless given. *)
Theorem price_create_fields (a : Prices.Args) (pid : string) (u : number)
    (pm : option JSON) (s : S) :
  Prices.action a = "create" ->
  truthy_string (Prices.product_id a) = Some pid ->
  truthy_number (Prices.unit_amount a) = Some u ->
  parse_metadata rt (Prices.metadata a) = inr pm ->
  exists params : list (string * JSON),
    stripe_requests (events (snd (Prices.stripe_prices rt stripe a (fresh s))))
    = [prices_create (JObj params)]
    /\ get_prop "product" params = Some (JStr pid)
    /\ get_prop "unit_amount" params = Some (JNum u)
    /\ get_prop "currency" params
       = Some (JStr (default "usd" (Prices.currency a)))
    /\ get_prop "recurring" params
       = (fun i =>
            JObj [("interval", JStr i);
                  ("interval_count",
                   JNum (default 1%Q (Prices.recurring_interval_count a)))])
         <$> truthy_string (Prices.recurring_interval a)
    /\ get_prop "metadata" params = truthy_value pm.
Proof.
  destruct a as [action price_id product_id unit_amount currency ri ric
                   metadata active]; simpl. intros -> Hpid Hu Hpm.
  unfold Prices.stripe_prices, Prices.switch_action; simpl.
  rewrite Hpm, Hpid, Hu. eexists. split; [sent |].
  repeat split; props.
Qed.

(** X6.  Updating a webhook endpoint turns [enabled] into the opposite
    [disabled] flag and never sends [enabled]; the description is sent
    whenever given, the URL only when not empty. *)
Theorem webhook_update_fields (a : Webhooks.Args) (wid : string) (s : S) :
  Webhooks.action a = "update" ->
  truthy_string (Webhooks.webhook_id a) = Some wid ->
  exists params : list (string * JSON),
    stripe_requests
      (events (snd (Webhooks.stripe_webhooks rt stripe a (fresh s))))
    = [webhookEndpoints_update wid (JObj params)]
    /\ get_prop "url" params = JStr <$> truthy_string (Webhooks.url a)
    /\ get_prop "enabled_events" params
       = strings <$> Webhooks.enabled_events a
    /\ get_prop "description" params = JStr <$> Webhooks.description a
    /\ get_prop "disabled" params
       = (fun enabled => JBool (negb enabled)) <$> Webhooks.enabled a
    /\ get_prop "enabled" params = None.
Proof.
  destruct a as [action webhook_id url enabled_events description enabled];
    simpl. intros -> Hwid.
  unfold Webhooks.stripe_webhooks; simpl. rewrite Hwid.
  eexists. split; [sent |].
  repeat split; props.
Qed.

(** X7.  Creating a webhook endpoint with a non-empty URL and a list of
    events reaches Stripe exactly when the URL starts with [https://],
    and then with that URL, those events and the description if it is
    not empty. *)
Theorem webhook_create_needs_https (a : Webhooks.Args) (u : string)
    (evs : list string) (s : S) :
  Webhooks.action a = "create" ->
  truthy_string (Webhooks.url a) = Some u ->
  Webhooks.enabled_events a = Some evs ->
  stripe_requests
    (events (snd (Webhooks.stripe_webhooks rt stripe a (fresh s))))
  = if Webhooks.startsWith u "https://"
    then [webhookEndpoints_create
            (JObj (set_some (truthy_string (Webhooks.description a))
                     "description" JStr
                     [("url", JStr u); ("enabled_events", strings evs)]))]
    else [].
Proof.
  destruct a as [action webhook_id url enabled_events description enabled];
    simpl. intros -> Hu ->.
  unfold Webhooks.stripe_webhooks; simpl. rewrite Hu.
  destruct (Webhooks.startsWith u "https://"); simpl; [sent | reflexivity].
Qed.


Lemma portal_features_lookup (a : PortalConfig.Args)
    (params : list (string * JSON)) :
  get_prop "features" params = Some (PortalConfig.features a) ->
  get_prop "features"
    match PortalConfig.features_customer_update_allowed_updates a with
    | Some allowed_updates =>
        PortalConfig.set_customer_update allowed_updates params
    | None => params
    end
  = Some (JObj (feature_flags a ++ customer_update a)).
Proof.
  intros Hf. unfold customer_update.
  destruct (PortalConfig.features_customer_update_allowed_updates a) as [l |].
  - unfold PortalConfig.set_customer_update. rewrite Hf.
    unfold PortalConfig.features. rewrite get_prop_set_prop_eq. reflexivity.
  - rewrite Hf. reflexivity.
Qed.

Lemma business_profile_keeps_features (a : PortalConfig.Args)
    (params : list (string * JSON)) :
  get_prop "features" (PortalConfig.set_business_profile a params)
  = get_prop "features" params.
Proof.
  unfold PortalConfig.set_business_profile.
  destruct (passes _ || passes _ || passes _); [| reflexivity].
  by rewrite ToolFacts.get_prop_set_prop_ne.
Qed.

(** X8.  Creating a portal configuration, and updating one that is
    identified, always sends the five feature flags, each with its
    default when the argument is absent, followed by [customer_update]
    when allowed updates are given: an update that names no feature
    still sets all five. *)
Theorem portal_features_always_sent (a : PortalConfig.Args) (s : S) :
  (PortalConfig.action a = "create"
   \/ PortalConfig.action a = "update"
      /\ passes (truthy_string (PortalConfig.configuration_id a)) = true) ->
  exists (q : StripeCall) (params : list (string * JSON)),
    stripe_requests
      (events (snd (PortalConfig.stripe_portal_config rt stripe a (fresh s))))
    = [q]
    /\ (q = configurations_create (JObj params)
        \/ exists cid, q = configurations_update cid (JObj params))
    /\ get_prop "features" params
       = Some (JObj (feature_flags a ++ customer_update a)).
Proof.
  intros [Hact | [Hact Hcid]].
  - unfold PortalConfig.stripe_portal_config. rewrite Hact. simpl.
    eexists. eexists. split; [sent |]. split; [by left |].
    apply portal_features_lookup.
    rewrite ToolFacts.get_prop_set_some_ne by discriminate.
    rewrite business_profile_keeps_features. reflexivity.
  - unfold PortalConfig.stripe_portal_config. rewrite Hact. simpl.
    destruct (truthy_string (PortalConfig.configuration_id a)) as [cid |];
      [| discriminate].
    eexists. eexists. split; [sent |]. split; [right; by eexists |].
    apply portal_features_lookup. apply get_prop_set_prop_eq.
Qed.

(** X9.  The parameters of [stripe_query] carry each filter under its
    own key: the [created] and [amount] ranges and [expand] whenever
    given, the string filters only when not empty. *)
Theorem query_filters_forwarded (a : Query.Args) :
  let filters := default Query.no_filters (Query.filters a) in
  let params := Query.query_params a in
  get_prop "created" params = Query.Created_json <$> Query.created filters
  /\ get_prop "status" params = JStr <$> truthy_string (Query.status filters)
  /\ get_prop "type" params = JStr <$> truthy_string (Query.type filters)
  /\ get_prop "customer" params
     = JStr <$> truthy_string (Query.customer filters)
  /\ get_prop "subscription" params
     = JStr <$> truthy_string (Query.subscription filters)
  /\ get_prop "invoice" params = JStr <$> truthy_string (Query.invoice filters)
  /\ get_prop "payment_intent" params
     = JStr <$> truthy_string (Query.payment_intent filters)
  /\ get_prop "amount" params = Query.Amount_json <$> Query.amount filters
  /\ get_prop "expand" params = strings <$> Query.expand a.
Proof.
  intros filters params. subst params. unfold Query.query_params.
  fold filters. repeat split; props.
Qed.

End Handlers.

(** *** The handlers on sample calls *)

Lemma product_create_fields_witness :
  exists params : list (string * JSON),
    stripe_requests
      (events (snd (Products.stripe_products Sample.runtime Sample.client
                      Cases.create_widget (fresh 0%nat))))
    = [products_create (JObj params)]
    /\ get_prop "name" params = Some (JStr "Widget")
    /\ get_prop "description" params = None
    /\ get_prop "metadata" params = None.
Proof.
  destruct (product_create_fields Sample.runtime Sample.client
              Cases.create_widget "Widget" (Some JNull) 0%nat
              eq_refl eq_refl eq_refl)
    as (params & Hreq & Hname & Hdesc & _ & Hmeta & _).
  exists params. split; [exact Hreq |]. split; [exact Hname |].
  split; [exact Hdesc | exact Hmeta].
Defined.

Lemma product_update_fields_witness :
  exists params : list (string * JSON),
    stripe_requests
      (events (snd (Products.stripe_products Sample.runtime Sample.client
                      Cases.update_widget (fresh 0%nat))))
    = [products_update "prod_123" (JObj params)]
    /\ get_prop "name" params = None
    /\ get_prop "description" params = Some (JStr "")
    /\ get_prop "active" params = Some (JBool false).
Proof.
  destruct (product_update_fields Sample.runtime Sample.client
              Cases.update_widget "prod_123" None 0%nat
              eq_refl eq_refl eq_refl)
    as (params & Hreq & Hname & Hdesc & _ & _ & Hactive).
  exists params. split; [exact Hreq |]. split; [exact Hname |].
  split; [exact Hdesc | exact Hactive].
Defined.

Lemma archive_sends_only_active_witness :
  stripe_requests
    (events (snd (Products.stripe_products Sample.runtime Sample.client
                    Cases.archive_widget (fresh 0%nat))))
  = [products_update "prod_123" (JObj [("active", JBool false)])].
Proof.
  exact (proj1 (archive_sends_only_active Sample.runtime Sample.client 0%nat)
           Cases.archive_widget "prod_123" (Some (JObj []))
           eq_refl eq_refl eq_refl).
Defined.

Lemma price_create_fields_witness :
  exists params : list (string * JSON),
    stripe_requests
      (events (snd (Prices.stripe_prices Sample.runtime Sample.client
                      Cases.create_price (fresh 0%nat))))
    = [prices_create (JObj params)]
    /\ get_prop "currency" params = Some (JStr "")
    /\ get_prop "recurring" params
       = Some (JObj [("interval", JStr "month"); ("interval_count", JNum 1)]).
Proof.
  destruct (price_create_fields Sample.runtime Sample.client
              Cases.create_price "prod_1" 500%Q None 0%nat
              eq_refl eq_refl eq_refl eq_refl)
    as (params & Hreq & _ & _ & Hcur & Hrec & _).
  exists params. split; [exact Hreq |]. split; [exact Hcur | exact Hrec].
Defined.

Lemma webhook_update_fields_witness :
  exists params : list (string * JSON),
    stripe_requests
      (events (snd (Webhooks.stripe_webhooks Sample.runtime Sample.client
                      Cases.enable_hook (fresh 0%nat))))
    = [webhookEndpoints_update "we_1" (JObj params)]
    /\ get_prop "disabled" params = Some (JBool false)
    /\ get_prop "enabled" params = None.
Proof.
  destruct (webhook_update_fields Sample.runtime Sample.client
              Cases.enable_hook "we_1" 0%nat eq_refl eq_refl)
    as (params & Hreq & _ & _ & _ & Hdis & Hen).
  exists params. split; [exact Hreq |]. split; [exact Hdis | exact Hen].
Defined.

Lemma webhook_create_needs_https_witness :
  stripe_requests
    (events (snd (Webhooks.stripe_webhooks Sample.runtime Sample.client
                    Cases.create_hook (fresh 0%nat))))
  = [webhookEndpoints_create
       (JObj [("url", JStr "https://example.com/hook");
              ("enabled_events", strings ["charge.succeeded"])])].
Proof.
  exact (webhook_create_needs_https Sample.runtime Sample.client
           Cases.create_hook "https://example.com/hook" ["charge.succeeded"]
           0%nat eq_refl eq_refl eq_refl).
Defined.

Lemma portal_features_always_sent_witness :
  exists (q : StripeCall) (params : list (string * JSON)),
    stripe_requests
      (events (snd (PortalConfig.stripe_portal_config Sample.runtime
                      Sample.client Cases.retitle_portal (fresh 0%nat))))
    = [q]
    /\ get_prop "features" params
       = Some (JObj [("invoice_history", JObj [("enabled", JBool true)]);
                     ("payment_method_update", JObj [("enabled", JBool true)]);
                     ("subscription_cancel", JObj [("enabled", JBool true)]);
                     ("subscription_pause", JObj [("enabled", JBool false)]);
                     ("subscription_update", JObj [("enabled", JBool true)])]).
Proof.
  destruct (portal_features_always_sent Sample.runtime Sample.client
              Cases.retitle_portal 0%nat (or_intror (conj eq_refl eq_refl)))
    as (q & params & Hreq & _ & Hfeatures).
  exists q, params. split; [exact Hreq | exact Hfeatures].
Defined.

End HandlerFacts.

(** * Further properties of the request listener *)

Module RouterFacts.

Import Http.

(** Case analysis on every test the listener makes. *)
Ltac listener_cases :=
  repeat (match goal with
          | |- context [if ?b then _ else _] =>
              lazymatch b with
              | context [match _ with _ => _ end] => fail
              | true => fail
              | false => fail
              | _ => destruct b eqn:?
              end
          | |- context [match ?x with _ => _ end] =>
              lazymatch x with
              | context [match _ with _ => _ end] => fail
              | Some _ => fail
              | None => fail
              | own _ => fail
              | inherited => fail
              | finished _ _ => fail
              | awaits_end _ => fail
              | _ =>
                  lazymatch type of x with
                  | State => fail
                  | Sdk => fail
                  | _ => destruct x eqn:?
                  end
              end
          end; simpl).

Section Listener.

Variable rt : Runtime.
Variable isInitializeRequest : JSON -> bool.

Local Abbreviation listener := (Http.listener rt isInitializeRequest).
Local Abbreviation step := (Http.step rt isInitializeRequest).
Local Abbreviation run := (Http.run rt isInitializeRequest).


(** X11.  The listener itself writes at most one status line per
    request, ends the response exactly when it wrote one, and writes
    nothing when the request ends in an unhandled rejection. *)
Theorem at_most_one_response (st : State) (req : Request) (sdk : Sdk) :
  count_writeHead (snd (listener st req sdk)) <= 1
  /\ count_end (snd (listener st req sdk))
     = count_writeHead (snd (listener st req sdk))
  /\ (In unhandled_rejection (snd (listener st req sdk)) ->
      count_writeHead (snd (listener st req sdk)) = 0).
Proof.
  rewrite HttpFacts.listener_actions.
  unfold Http.served, Http.route, Http.mcp, Http.messages, end_callback,
    post_deferred, post_existing, get_or_delete, try_handleRequest,
    post_message, sse, session_transport, property.
  destruct req as [method pathname query session body]; simpl.
  by_literal method; by_literal pathname; simpl;
    listener_cases; unfold count_writeHead, count_end; simpl;
    (split; [lia | split; [reflexivity |]]);
    intros Hin; repeat (destruct Hin as [Hin | Hin]; try discriminate);
    try reflexivity; try contradiction.
Qed.

(** X12.  On [/mcp] without a session identifier (no header, or an
    empty one): a POST whose body is valid JSON but not an initialize
    request gets the error -32000, a POST whose body is not valid JSON
    the parse error, a GET or DELETE the plain 400; the state is
    unchanged. *)
Theorem no_session_header (st : State) (req : Request) (sdk : Sdk) :
  pathname req = "/mcp" ->
  truthy_string (mcp_session_id req) = None ->
  (method req = "POST" ->
   forall j : JSON,
     JSON_parse rt (body req) = Some j -> isInitializeRequest j = false ->
     listener st req sdk = (st, (cors ++ no_valid_session rt)%list))
  /\ (method req = "POST" -> JSON_parse rt (body req) = None ->
      listener st req sdk = (st, (cors ++ parse_error rt)%list))
  /\ (method req = "GET" \/ method req = "DELETE" ->
      listener st req sdk = (st, (cors ++ invalid_or_missing)%list)).
Proof.
  intros Hp Hs. repeat split.
  - intros Hm j Hj Hi.
    rewrite HttpFacts.listener_served, HttpFacts.served_post by assumption.
    unfold post_deferred, session_transport. rewrite Hs, Hj, Hi. reflexivity.
  - intros Hm Hj.
    rewrite HttpFacts.listener_served, HttpFacts.served_post by assumption.
    unfold post_deferred, session_transport. rewrite Hs, Hj. reflexivity.
  - intros Hm.
    rewrite HttpFacts.listener_served, HttpFacts.served_get_or_delete
      by assumption.
    unfold get_or_delete, session_transport. by rewrite Hs.
Qed.

(** X13.  An empty session header counts as none: the request is
    handled exactly as the same request without the header, so an
    initialize POST with an empty header opens a session. *)
Theorem empty_header_is_no_header (st : State) (req : Request) (sdk : Sdk) :
  mcp_session_id req = Some "" ->
  listener st req sdk = listener st (with_session req None) sdk.
Proof.
  destruct req as [method pathname query session body]; simpl.
  intros ->. reflexivity.
Qed.

(** X14.  A session header that names a property of [Object.prototype]
    and no registered session is taken for a session: a POST is
    answered with the parse error whatever its body, and a GET or
    DELETE ends in an unhandled rejection without any response. *)
Theorem inherited_property_session (st : State) (req : Request) (sdk : Sdk)
    (sid : string) :
  pathname req = "/mcp" ->
  mcp_session_id req = Some sid -> sid <> "" ->
  streamableTransports st !! sid = None ->
  Object_prototype_has rt sid = true ->
  (method req = "POST" ->
   listener st req sdk = (st, (cors ++ parse_error rt)%list))
  /\ (method req = "GET" \/ method req = "DELETE" ->
      listener st req sdk = (st, (cors ++ [unhandled_rejection])%list)).
Proof.
  intros Hp Hs Hne Hreg Hproto.
  assert (Hslot : session_transport rt st (Some sid) = Some inherited).
  { unfold session_transport, property.
    rewrite ToolFacts.truthy_string_Some by exact Hne.
    by rewrite Hreg, Hproto. }
  split.
  - intros Hm.
    rewrite HttpFacts.listener_served, HttpFacts.served_post by assumption.
    rewrite Hs, Hslot. unfold post_existing.
    by destruct (JSON_parse rt (body req)).
  - intros Hm.
    rewrite HttpFacts.listener_served, HttpFacts.served_get_or_delete
      by assumption.
    unfold get_or_delete. by rewrite Hs, Hslot.
Qed.

(** X15.  [/health] is answered with status 200 for every method,
    and the state is unchanged. *)
Theorem health_always_200 (st : State) (req : Request) (sdk : Sdk) :
  pathname req = "/health" ->
  exists (headers : list (string * string)) (chunk : option string),
    listener st req sdk
    = (st, (cors ++ [writeHead 200 headers; end_ chunk])%list).
Proof.
  intros Hp. unfold Http.listener, Http.served, Http.route. rewrite Hp. simpl.
  destruct (method req =? "OPTIONS")%string; eexists; eexists; reflexivity.
Qed.

(** X16.  The not-found answer is given for every path the listener
    does not know, and also for [/sse] with a method other than GET and
    [/messages] with a method other than POST. *)
Theorem not_found_routes (st : State) (req : Request) (sdk : Sdk) :
  method req <> "OPTIONS" ->
  pathname req <> "/mcp" -> pathname req <> "/health" -> pathname req <> "/" ->
  (pathname req = "/sse" -> method req <> "GET") ->
  (pathname req = "/messages" -> method req <> "POST") ->
  listener st req sdk = (st, (cors ++ not_found rt)%list).
Proof.
  intros Ho Hmcp Hhealth Hindex Hsse Hmsg.
  unfold Http.listener, Http.served, Http.route.
  destruct (String.eqb_spec (method req) "OPTIONS"); [contradiction |].
  destruct (String.eqb_spec (pathname req) "/mcp"); [contradiction |].
  destruct (String.eqb_spec (pathname req) "/health"); [contradiction |].
  destruct (String.eqb_spec (pathname req) "/"); [contradiction |].
  destruct (String.eqb_spec (pathname req) "/sse") as [E | _].
  - specialize (Hsse E).
    destruct (String.eqb_spec (method req) "GET"); [contradiction |].
    rewrite E. reflexivity.
  - simpl. destruct (String.eqb_spec (pathname req) "/messages") as [E | _];
      [| reflexivity].
    specialize (Hmsg E).
    destruct (String.eqb_spec (method req) "POST"); [contradiction |].
    reflexivity.
Qed.

Lemma listener_sse (st : State) (req : Request) (sdk : Sdk) :
  method req = "GET" -> pathname req = "/sse" ->
  listener st req sdk
  = (fst (sse st sdk), (cors ++ snd (sse st sdk))%list).
Proof.
  intros Hm Hp. unfold Http.listener, Http.served, Http.route.
  by rewrite Hm, Hp.
Qed.

Lemma listener_messages (st : State) (req : Request) (sdk : Sdk) :
  method req = "POST" -> pathname req = "/messages" ->
  listener st req sdk
  = (st,
     (cors
      ++ match property rt (sseTransports st)
                 (default "undefined" (query_sessionId req)) with
         | Some slot => post_message rt slot req sdk
         | None =>
             [writeHead 400 [("Content-Type", "application/json")];
              end_ (Some (error_body rt "No transport found for sessionId"))]
         end)%list).
Proof.
  intros Hm Hp. unfold Http.listener, Http.served, Http.route, Http.messages.
  rewrite Hm, Hp. simpl.
  by destruct (property rt (sseTransports st) _).
Qed.

(** X17.  After a GET to [/sse], the new transport is registered under
    the identifier the SDK gave it: a POST to [/messages] with that
    identifier is handed to that transport when its body is valid JSON
    and refused as invalid JSON otherwise; once the response has
    closed, the same POST finds no transport. *)
Theorem sse_session_round_trip (st : State) (req : Request) (sdk : Sdk) :
  method req = "GET" -> pathname req = "/sse" ->
  sseTransports (fst (listener st req sdk)) !! sse_sessionId sdk
  = Some (length (transports st))
  /\ transports (fst (listener st req sdk)) !! length (transports st)
     = Some {| kind := SSE; sessionId := Some (sse_sessionId sdk);
               closed := false |}
  /\ (forall (post : Request) (sdk' : Sdk),
         method post = "POST" -> pathname post = "/messages" ->
         query_sessionId post = Some (sse_sessionId sdk) ->
         listener (fst (listener st req sdk)) post sdk'
         = (fst (listener st req sdk),
            (cors
             ++ match JSON_parse rt (body post) with
                | Some message =>
                    transport_handlePostMessage (length (transports st)) message
                    :: (if handle_rejects sdk' then invalid_json rt else [])
                | None => invalid_json rt
                end)%list))
  /\ (Object_prototype_has rt (sse_sessionId sdk) = false ->
      forall (post : Request) (sdk' : Sdk),
        method post = "POST" -> pathname post = "/messages" ->
        query_sessionId post = Some (sse_sessionId sdk) ->
        listener (sse_onclose (sse_sessionId sdk) (fst (listener st req sdk)))
          post sdk'
        = (sse_onclose (sse_sessionId sdk) (fst (listener st req sdk)),
           (cors
            ++ [writeHead 400 [("Content-Type", "application/json")];
                end_ (Some (error_body rt "No transport found for sessionId"))])%list)).
Proof.
  intros Hm Hp. rewrite (listener_sse st req sdk Hm Hp). simpl.
  split; [apply lookup_insert_eq |]. split.
  { apply lookup_snoc_Some. right. by split. }
  split.
  - intros post sdk' Hpm Hpp Hq. rewrite listener_messages by assumption.
    unfold property, post_message. rewrite Hq. simpl.
    rewrite lookup_insert_eq. by destruct (JSON_parse rt (body post)).
  - intros Hproto post sdk' Hpm Hpp Hq.
    rewrite listener_messages by assumption.
    unfold property. rewrite Hq. simpl.
    by rewrite lookup_delete_eq, Hproto.
Qed.

(** *** The SSE registry in reachable states *)

Lemma sse_registry_ok_snoc (st st' : State) (tr : Transport) :
  sseTransports st' = sseTransports st ->
  transports st' = (transports st ++ [tr])%list ->
  sse_registry_ok st -> sse_registry_ok st'.
Proof.
  intros Hreg Hsnoc Hok s t. rewrite Hreg, Hsnoc. intros H.
  apply lookup_app_l_Some. by apply Hok.
Qed.

(** A change to one transport that is not an SSE transport. *)
Lemma sse_registry_ok_alter (st st' : State) (t : nat)
    (f : Transport -> Transport) :
  sseTransports st' = sseTransports st ->
  transports st' = alter f t (transports st) ->
  (forall tr, transports st !! t = Some tr -> kind tr = Streamable) ->
  sse_registry_ok st -> sse_registry_ok st'.
Proof.
  intros Hreg Htr Ht Hok s t'. rewrite Hreg, Htr. intros H.
  apply Hok in H. rewrite list_lookup_alter_ne; [exact H |].
  intros <-. specialize (Ht _ H). discriminate.
Qed.

Lemma sse_registry_ok_handleRequest (st : State) (t : nat) (sdk : Sdk) :
  (forall tr, transports st !! t = Some tr -> kind tr = Streamable) ->
  sse_registry_ok st -> sse_registry_ok (handleRequest t sdk st).
Proof.
  intros Ht Hok. unfold handleRequest.
  match goal with
  | |- sse_registry_ok (if _ then onclose t ?s else _) => set (st1 := s)
  end.
  assert (H1 : sse_registry_ok st1
               /\ forall tr, transports st1 !! t = Some tr ->
                             kind tr = Streamable).
  { subst st1. destruct (handle_initializes sdk) as [sid |]; [| by split].
    destruct (uninitialized t st) eqn:Hu; [| by split]. split.
    - by apply (sse_registry_ok_alter st _ t
                  (fun tr => {| kind := kind tr; sessionId := Some sid;
                                closed := closed tr |})).
    - intros tr. simpl. rewrite list_lookup_alter.
      destruct (decide (t = t)); [| done].
      rewrite (HttpFacts.uninitialized_streamable st t Hu). simpl.
      by intros [= <-]. }
  destruct H1 as [Hok1 Ht1]. destruct (handle_closes sdk); [| exact Hok1].
  by apply (sse_registry_ok_alter st1 _ t
              (fun tr => {| kind := kind tr; sessionId := sessionId tr;
                            closed := true |})).
Qed.

Lemma sse_registry_ok_effect (st st' : State) (sdk : Sdk) :
  sse_registry_ok st -> effect sdk st st' -> sse_registry_ok st'.
Proof.
  intros Hok [| t sid Hiss | | |].
  - exact Hok.
  - apply sse_registry_ok_handleRequest; [| exact Hok].
    intros tr. by apply (HttpFacts.issued_streamable st sid).
  - by apply (sse_registry_ok_snoc st _ new_streamable).
  - apply sse_registry_ok_handleRequest.
    + intros tr. simpl. rewrite lookup_app_r by lia.
      rewrite Nat.sub_diag. simpl. by intros [= <-].
    + by apply (sse_registry_ok_snoc st _ new_streamable).
  - intros s t. simpl. rewrite lookup_insert_Some. intros [[<- <-] | [_ H]].
    + apply lookup_snoc_Some. right. by split.
    + apply lookup_app_l_Some. by apply Hok.
Qed.

Lemma sse_registry_ok_step (n : Node) (e : Event) :
  node_ok rt n -> sse_registry_ok (program n) ->
  sdk_contract rt (program n) e = true ->
  sse_registry_ok (program (fst (step n e))).
Proof.
  intros [Hreg Hcap] Hok Hc.
  destruct e as [req sdk | req sdk | r sdk | t sid | t | t]; simpl in *.
  - apply (sse_registry_ok_effect (program n) _ sdk); [exact Hok |].
    rewrite HttpFacts.listener_state. by apply HttpFacts.served_effect.
  - destruct (Http.route rt (program n) req sdk) as [st' a | c] eqn:E; simpl;
      [| exact Hok].
    apply (sse_registry_ok_effect (program n) _ sdk); [exact Hok |].
    by apply (HttpFacts.route_effect rt (program n) st' req sdk a).
  - destruct (awaiting n !! r) as [[req c] |] eqn:E; simpl; [| exact Hok].
    apply (sse_registry_ok_effect (program n) _ sdk); [exact Hok |].
    apply HttpFacts.end_callback_effect; [exact Hreg |].
    by apply (Forall_lookup_1 _ _ _ _ Hcap E).
  - apply andb_prop in Hc as [Hu _].
    apply (sse_registry_ok_alter (program n) _ t
             (fun tr => {| kind := kind tr; sessionId := Some sid;
                           closed := closed tr |}));
      [reflexivity | reflexivity | | exact Hok].
    intros tr. rewrite (HttpFacts.uninitialized_streamable _ t Hu).
    by intros [= <-].
  - destruct (transports (program n) !! t) as [[[] so []] |] eqn:Ht;
      try discriminate.
    apply (sse_registry_ok_alter (program n) _ t
             (fun tr => {| kind := kind tr; sessionId := sessionId tr;
                           closed := true |}));
      [reflexivity | reflexivity | | exact Hok].
    intros tr. rewrite Ht. by intros [= <-].
  - destruct (transports (program n) !! t) as [[[] so []] |] eqn:Ht;
      try discriminate.
    unfold response_closed. rewrite Ht. simpl.
    destruct so as [sid |]; simpl; intros s t' H; simpl in H |- *.
    + apply lookup_delete_Some in H as [Hne H]. apply Hok in H.
      rewrite list_lookup_alter_ne; [exact H |].
      intros <-. rewrite Ht in H. congruence.
    + apply Hok in H. rewrite list_lookup_alter_ne; [exact H |].
      intros <-. rewrite Ht in H. discriminate.
Qed.

(** X18.  In every state the server can reach, each entry of the SSE
    registry names an open SSE transport that was constructed with
    that identifier: when the response of an SSE transport closes, the
    transport is gone from the registry. *)
Theorem sse_registry_invariant (st : State) :
  Http.reachable rt isInitializeRequest st -> sse_registry_ok st.
Proof.
  intros (n & Hn & <-). revert n Hn.
  apply (HttpFacts.reachable_node_invariant rt isInitializeRequest
           (fun n => sse_registry_ok (program n))).
  - intros s t H. simpl in H. by rewrite lookup_empty in H.
  - intros n e Hnode Hok Hc. by apply sse_registry_ok_step.
Qed.

(** X19.  In every state the server can reach, no transport is
    registered under two session identifiers. *)
Theorem one_session_per_transport (st : State) (sid1 sid2 : string) (t : nat) :
  Http.reachable rt isInitializeRequest st ->
  registered st sid1 t -> registered st sid2 t -> sid1 = sid2.
Proof.
  intros Hreach H1 H2.
  pose proof (HttpFacts.reachable_ok rt isInitializeRequest st Hreach) as Hok.
  apply (registry_live rt st Hok) in H1, H2.
  unfold live_session in H1, H2. congruence.
Qed.

(** *** The transport a request is handed to *)

Lemma lookup_live (st : State) (header : option string) (t : nat) :
  registry_ok rt st ->
  session_transport rt st header = Some (own t) ->
  exists sid : string, live_session st sid t.
Proof.
  intros Hok H.
  destruct (HttpFacts.session_transport_own rt st header t H)
    as (sid & _ & Hreg).
  exists sid. by apply (registry_live rt st Hok).
Qed.

Lemma route_hands (st st' : State) (req : Request) (sdk : Sdk)
    (actions : list Action) (t : nat) (parsedBody : option JSON) :
  registry_ok rt st -> Http.route rt st req sdk = finished st' actions ->
  In (transport_handleRequest t parsedBody) actions ->
  exists sid : string, live_session st sid t.
Proof.
  intros Hok. unfold Http.route, Http.mcp, Http.messages, get_or_delete, sse.
  destruct req as [method pathname query session body]; simpl.
  by_literal method; by_literal pathname; simpl;
    listener_cases; intros [= <- <-] Hin;
    repeat (destruct Hin as [Hin | Hin]; try discriminate);
    try contradiction;
    injection Hin as <- <-; by eapply lookup_live.
Qed.

Lemma end_callback_hands (st : State) (req : Request) (sdk : Sdk)
    (c : Closure) (t : nat) (parsedBody : option JSON) :
  registry_ok rt st ->
  In (transport_handleRequest t parsedBody)
     (snd (Http.end_callback rt isInitializeRequest c req sdk st)) ->
  t = length (transports st)
  \/ (exists sid : string, live_session st sid t)
  \/ c = on_existing (own t).
Proof.
  intros Hok. unfold Http.end_callback, post_deferred, post_existing,
    try_handleRequest, post_message.
  destruct c as [[t' |] | | [t' |]]; simpl;
    listener_cases; intros Hin;
    repeat (destruct Hin as [Hin | Hin]; try discriminate);
    try contradiction;
    injection Hin as <- <-;
    first [ by left
          | right; right; reflexivity
          | right; left; by eapply lookup_live ].
Qed.

(** X20.  In every state the server process can reach, a transport that
    is handed a request has just been constructed for it, or it is a
    streamable transport with a session; and it is open, unless the
    request is a POST that found the transport registered when it
    arrived and whose body ends only now. *)
Theorem closed_only_if_captured (n : Node) (e : Event) (t : nat)
    (parsedBody : option JSON) :
  Http.reachable_node rt isInitializeRequest n ->
  In (transport_handleRequest t parsedBody) (snd (step n e)) ->
  t = length (transports (program n))
  \/ exists (sid : string) (c : bool),
       transports (program n) !! t
       = Some {| kind := Streamable; sessionId := Some sid; closed := c |}
       /\ (c = true ->
           exists (r : nat) (sdk : Sdk) (req : Request),
             e = body_ended r sdk
             /\ awaiting n !! r = Some (req, on_existing (own t))).
Proof.
  intros Hreach.
  destruct (HttpFacts.reachable_node_ok rt isInitializeRequest n Hreach)
    as [Hok Hcap].
  assert (Hlive : (exists sid : string, live_session (program n) sid t) ->
                  exists (sid : string) (c : bool),
                    transports (program n) !! t
                    = Some {| kind := Streamable; sessionId := Some sid;
                              closed := c |}
                    /\ (c = true ->
                        exists (r : nat) (sdk : Sdk) (req : Request),
                          e = body_ended r sdk
                          /\ awaiting n !! r
                             = Some (req, on_existing (own t)))).
  { intros [sid H]. exists sid, false. split; [exact H | discriminate]. }
  destruct e as [req sdk | req sdk | r sdk | t' sid | t' | t']; simpl;
    try contradiction.
  - rewrite HttpFacts.listener_actions. intros Hin.
    apply in_app_or in Hin as [Hin | Hin].
    { repeat (destruct Hin as [Hin | Hin]; try discriminate). contradiction. }
    unfold Http.served in Hin.
    destruct (Http.route rt (program n) req sdk) as [st' a | c] eqn:E.
    + right. apply Hlive. by apply (route_hands (program n) st' req sdk a t parsedBody).
    + destruct (end_callback_hands (program n) req sdk c t parsedBody Hok Hin)
        as [H | [H | ->]]; [by left | right; by apply Hlive |].
      right. apply Hlive.
      pose proof (HttpFacts.route_captured rt (program n) req sdk _ Hok E)
        as Hc.
      revert E. unfold Http.route, Http.mcp, Http.messages.
      destruct req as [method pathname query session body]; simpl.
      by_literal method; by_literal pathname; simpl;
        listener_cases; intros [= E]; try discriminate; subst;
        by eapply lookup_live.
  - destruct (Http.route rt (program n) req sdk) as [st' a | c] eqn:E; simpl.
    + intros [Hin | [Hin | [Hin | [Hin | Hin]]]]; try discriminate.
      right. apply Hlive.
      by apply (route_hands (program n) st' req sdk a t parsedBody).
    + intros Hin.
      repeat (destruct Hin as [Hin | Hin]; try discriminate). contradiction.
  - destruct (awaiting n !! r) as [[req c] |] eqn:E; simpl; [| contradiction].
    intros Hin.
    destruct (end_callback_hands (program n) req sdk c t parsedBody Hok Hin)
      as [H | [H | ->]]; [by left | right; by apply Hlive |].
    right.
    pose proof (Forall_lookup_1 _ _ _ _ Hcap E) as (sid & _ & [cl Hiss]).
    exists sid, cl. split; [exact Hiss |]. intros _. by exists r, sdk, req.
Qed.

(** *** Closed sessions *)






End Listener.

(** *** The listener on sample requests *)

Lemma at_most_one_response_witness :
  count_writeHead
    (snd (Http.listener Sample.runtime Sample.isInitializeRequest initial
            (Sample.mcp_request "GET" (Some "constructor") "") Sample.quiet))
  = 0.
Proof.
  apply (at_most_one_response Sample.runtime Sample.isInitializeRequest initial
           (Sample.mcp_request "GET" (Some "constructor") "") Sample.quiet).
  vm_compute. auto 10.
Defined.

Lemma no_session_header_witness :
  Http.listener Sample.runtime Sample.isInitializeRequest initial
    (Sample.mcp_request "POST" None Sample.ping_text) Sample.quiet
  = (initial, (cors ++ no_valid_session Sample.runtime)%list).
Proof.
  exact (proj1 (no_session_header Sample.runtime Sample.isInitializeRequest
                  initial (Sample.mcp_request "POST" None Sample.ping_text)
                  Sample.quiet eq_refl eq_refl)
           eq_refl (JObj [("method", JStr "ping")]) eq_refl eq_refl).
Defined.

Lemma empty_header_is_no_header_witness :
  Http.listener Sample.runtime Sample.isInitializeRequest initial
    (Sample.mcp_request "POST" (Some "") Sample.initialize_text) Sample.quiet
  = Http.listener Sample.runtime Sample.isInitializeRequest initial
      (Sample.mcp_request "POST" None Sample.initialize_text) Sample.quiet.
Proof.
  exact (empty_header_is_no_header Sample.runtime Sample.isInitializeRequest
           initial
           (Sample.mcp_request "POST" (Some "") Sample.initialize_text)
           Sample.quiet eq_refl).
Defined.

Lemma inherited_property_session_witness :
  Http.listener Sample.runtime Sample.isInitializeRequest initial
    (Sample.mcp_request "POST" (Some "toString") Sample.initialize_text)
    Sample.quiet
  = (initial, (cors ++ parse_error Sample.runtime)%list).
Proof.
  exact (proj1 (inherited_property_session Sample.runtime
                  Sample.isInitializeRequest initial
                  (Sample.mcp_request "POST" (Some "toString")
                     Sample.initialize_text)
                  Sample.quiet "toString" eq_refl eq_refl
                  ltac:(discriminate) ltac:(by vm_compute) eq_refl)
           eq_refl).
Defined.

Lemma health_always_200_witness :
  exists (headers : list (string * string)) (chunk : option string),
    Http.listener Sample.runtime Sample.isInitializeRequest initial
      (Cases.request "DELETE" "/health") Sample.quiet
    = (initial, (cors ++ [writeHead 200 headers; end_ chunk])%list).
Proof.
  exact (health_always_200 Sample.runtime Sample.isInitializeRequest initial
           (Cases.request "DELETE" "/health") Sample.quiet eq_refl).
Defined.

Lemma not_found_routes_witness :
  Http.listener Sample.runtime Sample.isInitializeRequest initial
    (Cases.request "POST" "/sse") Sample.quiet
  = (initial, (cors ++ not_found Sample.runtime)%list).
Proof.
  apply (not_found_routes Sample.runtime Sample.isInitializeRequest initial
           (Cases.request "POST" "/sse") Sample.quiet); discriminate.
Defined.

Lemma sse_session_round_trip_witness :
  sseTransports Cases.subscribed !! "sse-1" = Some 0
  /\ Http.listener Sample.runtime Sample.isInitializeRequest Cases.subscribed
       (messages_request (Some "sse-1") Sample.ping_text) Sample.quiet
     = (Cases.subscribed,
        (cors ++ [transport_handlePostMessage 0
                    (JObj [("method", JStr "ping")])])%list).
Proof.
  destruct (sse_session_round_trip Sample.runtime Sample.isInitializeRequest
              initial (Cases.request "GET" "/sse") Sample.quiet
              eq_refl eq_refl)
    as (Hreg & _ & Hpost & _).
  split; [exact Hreg |].
  exact (Hpost (messages_request (Some "sse-1") Sample.ping_text) Sample.quiet
           eq_refl eq_refl eq_refl).
Defined.

Lemma one_left_reachable :
  Http.reachable Sample.runtime Sample.isInitializeRequest Cases.remaining.
Proof.
  exists (fst (Http.run Sample.runtime Sample.isInitializeRequest boot
                 Cases.one_left)).
  split; [| reflexivity]. exists Cases.one_left. split; reflexivity.
Defined.

Lemma sse_registry_invariant_witness :
  sseTransports Cases.remaining !! "sse-1" = None
  /\ sseTransports Cases.remaining !! "sse-2" = Some 1
  /\ sse_registry_ok Cases.remaining.
Proof.
  split; [by vm_compute |]. split; [by vm_compute |].
  exact (sse_registry_invariant Sample.runtime Sample.isInitializeRequest
           Cases.remaining one_left_reachable).
Defined.

Lemma one_session_per_transport_witness :
  registered Sample.one_session "session-1" 0 /\ "session-1" = "session-1".
Proof.
  split; [by vm_compute |].
  exact (one_session_per_transport Sample.runtime Sample.isInitializeRequest
           Sample.one_session "session-1" "session-1" 0
           HttpFacts.handshake_reachable
           ltac:(by vm_compute) ltac:(by vm_compute)).
Defined.

Lemma overtaken_reachable :
  Http.reachable_node Sample.runtime Sample.isInitializeRequest
    Cases.overtaken.
Proof.
  exists (Sample.handshake ++ Cases.late_post)%list. split; reflexivity.
Defined.

Lemma closed_only_if_captured_witness :
  0 = length (transports (program Cases.overtaken))
  \/ exists (sid : string) (c : bool),
       transports (program Cases.overtaken) !! 0
       = Some {| kind := Streamable; sessionId := Some sid; closed := c |}
       /\ (c = true ->
           exists (r : nat) (sdk : Sdk) (req : Request),
             body_ended 0 Sample.quiet = body_ended r sdk
             /\ awaiting Cases.overtaken !! r
                = Some (req, on_existing (own 0))).
Proof.
  apply (closed_only_if_captured Sample.runtime Sample.isInitializeRequest
           Cases.overtaken (body_ended 0 Sample.quiet) 0
           (Some (JObj [("method", JStr "ping")])) overtaken_reachable).
  vm_compute. auto.
Defined.



(** A POST that arrived while its session was registered is handed to
    the transport of that session although the session has been
    deleted, and the transport has closed, before its body ended. *)
Example post_outlives_session :
  streamableTransports (program Cases.overtaken) !! "session-1" = None
  /\ transports (program Cases.overtaken) !! 0
     = Some {| kind := Streamable; sessionId := Some "session-1";
               closed := true |}
  /\ snd (Http.step Sample.runtime Sample.isInitializeRequest Cases.overtaken
            (body_ended 0 Sample.quiet))
     = [transport_handleRequest 0 (Some (JObj [("method", JStr "ping")]))].
Proof. repeat split; by vm_compute. Qed.

(** The same POST arriving after the DELETE finds no transport. *)
Example post_after_delete_refused :
  Http.listener Sample.runtime Sample.isInitializeRequest Sample.torn_down
    (Sample.mcp_request "POST" (Some "session-1") Sample.ping_text)
    Sample.quiet
  = (Sample.torn_down, (cors ++ no_valid_session Sample.runtime)%list).
Proof. by vm_compute. Qed.

End RouterFacts.

(** * Properties of the start-up code *)

Module StartupFacts.

Import Startup.

Lemma split_no_separator (sep : ascii) (s : string) :
  occurs sep s = false -> split sep s = [s].
Proof.
  induction s as [| a s IH]; simpl; [reflexivity |].
  destruct (Ascii.eqb a sep); simpl; [discriminate |].
  intros H. by rewrite (IH H).
Qed.

Lemma split_first (sep : ascii) (a b : string) :
  occurs sep a = false ->
  split sep (a ++ String sep b) = a :: split sep b.
Proof.
  induction a as [| c a IH]; simpl.
  - intros _. by rewrite Ascii.eqb_refl.
  - destruct (Ascii.eqb c sep); simpl; [discriminate |].
    intros H. by rewrite (IH H).
Qed.

Lemma split_nonempty (sep : ascii) (s : string) : split sep s <> [].
Proof.
  destruct s as [| a s]; simpl; [discriminate |].
  destruct (Ascii.eqb a sep); [discriminate |].
  by destruct (split sep s).
Qed.

Lemma prefix_empty (s : string) : String.prefix "" s = true.
Proof. by destruct s. Qed.

Lemma prefix_append (p q : string) : String.prefix p (p ++ q) = true.
Proof.
  induction p as [| a p IH]; simpl; [by destruct q |].
  destruct (ascii_dec a a); [exact IH | contradiction].
Qed.

Lemma prefix_longer_false (p q arg : string) :
  String.prefix p arg = false -> String.prefix (p ++ q) arg = false.
Proof.
  revert arg. induction p as [| a p IH]; intros arg; simpl.
  - by destruct arg.
  - destruct arg as [| b arg]; [reflexivity |]. simpl.
    destruct (ascii_dec a b); [apply IH | reflexivity].
Qed.

Lemma eqb_longer_false (p q arg : string) :
  String.prefix p arg = false -> (arg =? p ++ q)%string = false.
Proof.
  intros H. destruct (String.eqb_spec arg (p ++ q)) as [-> | _]; [| reflexivity].
  by rewrite prefix_append in H.
Qed.

Section ParseArgs.

Variable parseInt : string -> Parsed.

Local Abbreviation parseArgs_from := (Startup.parseArgs_from parseInt).

(** X21.  For a value without an equals sign, [--option=value] and
    [--option value] are parsed alike, for each of the six options. *)
Theorem spellings_agree (v : string) (rest : list string) (config : Config) :
  occurs "="%char v = false ->
  parseArgs_from (("--api-key=" ++ v) :: rest) config
  = parseArgs_from ("--api-key" :: v :: rest) config
  /\ parseArgs_from (("--publishable-key=" ++ v) :: rest) config
     = parseArgs_from ("--publishable-key" :: v :: rest) config
  /\ parseArgs_from (("--webhook-secret=" ++ v) :: rest) config
     = parseArgs_from ("--webhook-secret" :: v :: rest) config
  /\ parseArgs_from (("--tools=" ++ v) :: rest) config
     = parseArgs_from ("--tools" :: v :: rest) config
  /\ parseArgs_from (("--transport=" ++ v) :: rest) config
     = parseArgs_from ("--transport" :: v :: rest) config
  /\ parseArgs_from (("--port=" ++ v) :: rest) config
     = parseArgs_from ("--port" :: v :: rest) config.
Proof.
  intros Hv.
  repeat split; simpl; unfold value_of, startsWith; simpl;
    change (String.append "" v) with v; rewrite prefix_empty;
    rewrite (split_no_separator _ v Hv); reflexivity.
Qed.


(** X22.  In the form [--option=value] the value ends at its first
    equals sign: what follows is dropped, while the form
    [--option value] keeps the value whole; for each of the six
    options. *)
Theorem value_cut_at_equals (a b : string) (rest : list string)
    (config : Config) :
  occurs "="%char a = false ->
  (parseArgs_from (("--api-key=" ++ a ++ "=" ++ b) :: rest) config
   = parseArgs_from ("--api-key" :: a :: rest) config
   /\ parseArgs_from (("--publishable-key=" ++ a ++ "=" ++ b) :: rest) config
      = parseArgs_from ("--publishable-key" :: a :: rest) config
   /\ parseArgs_from (("--webhook-secret=" ++ a ++ "=" ++ b) :: rest) config
      = parseArgs_from ("--webhook-secret" :: a :: rest) config
   /\ parseArgs_from (("--tools=" ++ a ++ "=" ++ b) :: rest) config
      = parseArgs_from ("--tools" :: a :: rest) config
   /\ parseArgs_from (("--transport=" ++ a ++ "=" ++ b) :: rest) config
      = parseArgs_from ("--transport" :: a :: rest) config
   /\ parseArgs_from (("--port=" ++ a ++ "=" ++ b) :: rest) config
      = parseArgs_from ("--port" :: a :: rest) config)
  /\ (parseArgs_from ("--api-key" :: (a ++ "=" ++ b) :: rest) config
      = parseArgs_from rest (set_apiKey (Some (a ++ "=" ++ b)) config)
      /\ parseArgs_from ("--publishable-key" :: (a ++ "=" ++ b) :: rest) config
         = parseArgs_from rest
             (set_publishableKey (Some (a ++ "=" ++ b)) config)
      /\ parseArgs_from ("--webhook-secret" :: (a ++ "=" ++ b) :: rest) config
         = parseArgs_from rest (set_webhookSecret (Some (a ++ "=" ++ b)) config)
      /\ parseArgs_from ("--tools" :: (a ++ "=" ++ b) :: rest) config
         = parseArgs_from rest (set_tools (Some (a ++ "=" ++ b)) config)
      /\ parseArgs_from ("--transport" :: (a ++ "=" ++ b) :: rest) config
         = parseArgs_from rest (set_transport (Some (a ++ "=" ++ b)) config)
      /\ parseArgs_from ("--port" :: (a ++ "=" ++ b) :: rest) config
         = parseArgs_from rest
             (set_port (Some (parseInt (a ++ "=" ++ b))) config)).
Proof.
  intros Ha.
  repeat split; simpl; unfold value_of, startsWith; simpl;
    change (String.append "" (a ++ "=" ++ b)) with (a ++ String "="%char b);
    rewrite ?prefix_empty, ?(split_first _ a b Ha); reflexivity.
Qed.

(** X23.  An argument that does not start with two dashes is skipped,
    and an option in the form [--option value] that comes last, without
    a value, changes nothing. *)
Theorem other_arguments_ignored (arg : string) (rest : list string)
    (config : Config) :
  (String.prefix "--" arg = false ->
   parseArgs_from (arg :: rest) config = parseArgs_from rest config)
  /\ (In arg ["--api-key"; "--publishable-key"; "--webhook-secret";
              "--tools"; "--transport"; "--port"] ->
      parseArgs_from [arg] config = config).
Proof.
  split.
  - intros H. simpl. unfold startsWith.
    rewrite (prefix_longer_false "--" "api-key=" arg H
             : String.prefix "--api-key=" arg = false),
      (prefix_longer_false "--" "publishable-key=" arg H
       : String.prefix "--publishable-key=" arg = false),
      (prefix_longer_false "--" "webhook-secret=" arg H
       : String.prefix "--webhook-secret=" arg = false),
      (prefix_longer_false "--" "tools=" arg H
       : String.prefix "--tools=" arg = false),
      (prefix_longer_false "--" "transport=" arg H
       : String.prefix "--transport=" arg = false),
      (prefix_longer_false "--" "port=" arg H
       : String.prefix "--port=" arg = false).
    rewrite (eqb_longer_false "--" "api-key" arg H
             : (arg =? "--api-key")%string = false),
      (eqb_longer_false "--" "publishable-key" arg H
       : (arg =? "--publishable-key")%string = false),
      (eqb_longer_false "--" "webhook-secret" arg H
       : (arg =? "--webhook-secret")%string = false),
      (eqb_longer_false "--" "tools" arg H
       : (arg =? "--tools")%string = false),
      (eqb_longer_false "--" "transport" arg H
       : (arg =? "--transport")%string = false),
      (eqb_longer_false "--" "port" arg H
       : (arg =? "--port")%string = false).
    reflexivity.
  - intros Hin. simpl in Hin.
    repeat (destruct Hin as [<- | Hin]; [reflexivity |]). contradiction.
Qed.

Lemma truthy_string_idem (v : option string) (k : string) :
  truthy_string v = Some k -> truthy_string (Some k) = Some k.
Proof.
  destruct v as [x |]; simpl; [| discriminate].
  destruct (x =? "")%string eqn:E; [discriminate |].
  intros [= <-]. by rewrite E.
Qed.

(** X24.  The process exits with code 1 exactly when neither the
    command line nor [STRIPE_SECRET_KEY] gives a key that is not
    empty. *)
Theorem exits_without_key (args : list string) (env : gmap string string) :
  start parseInt args env = process_exit 1
  <-> truthy_string (apiKey (parseArgs parseInt args)) = None
      /\ truthy_string (env !! "STRIPE_SECRET_KEY") = None.
Proof.
  unfold start, settings, or_else; simpl.
  destruct (truthy_string (apiKey (parseArgs parseInt args))) as [k |] eqn:Hk.
  - rewrite (truthy_string_idem _ k Hk). split; [| by intros [? _]].
    by destruct (_ =? "http")%string.
  - destruct (truthy_string (env !! "STRIPE_SECRET_KEY")) as [k |].
    + split; [| by intros [_ ?]]. by destruct (_ =? "http")%string.
    + by split.
Qed.

End ParseArgs.

(** *** The parser on sample command lines *)

Lemma spellings_agree_witness :
  parseArgs_from sample_parseInt ["--port=8080"] no_config
  = parseArgs_from sample_parseInt ["--port"; "8080"] no_config.
Proof.
  apply (spellings_agree sample_parseInt "8080" [] no_config eq_refl).
Defined.

Lemma value_cut_at_equals_witness :
  parseArgs_from sample_parseInt ["--webhook-secret=whsec_abc="] no_config
  = parseArgs_from sample_parseInt ["--webhook-secret"; "whsec_abc"] no_config
  /\ parseArgs_from sample_parseInt ["--port=80=81"] no_config
     = parseArgs_from sample_parseInt ["--port"; "80"] no_config.
Proof.
  destruct (value_cut_at_equals sample_parseInt "whsec_abc" "" [] no_config
              eq_refl) as [(_ & _ & Hsecret & _) _].
  destruct (value_cut_at_equals sample_parseInt "80" "81" [] no_config
              eq_refl) as [(_ & _ & _ & _ & _ & Hport) _].
  split; [exact Hsecret | exact Hport].
Defined.

Lemma other_arguments_ignored_witness :
  parseArgs_from sample_parseInt ["server.js"; "--api-key"] no_config
  = no_config.
Proof.
  rewrite (proj1 (other_arguments_ignored sample_parseInt "server.js"
                    ["--api-key"] no_config) eq_refl).
  apply (proj2 (other_arguments_ignored sample_parseInt "--api-key" []
                  no_config)).
  simpl. auto.
Defined.

Lemma exits_without_key_witness :
  start sample_parseInt ["--api-key="; "--transport=http"] ∅ = process_exit 1.
Proof.
  apply (proj2 (exits_without_key sample_parseInt
                  ["--api-key="; "--transport=http"] ∅)).
  split; reflexivity.
Defined.

(** With a key the same command line starts the HTTP server on the
    default port. *)
Example starts_http_with_key :
  start sample_parseInt ["--api-key=sk_test_1"; "--transport=http"] ∅
  = http_listen (Int 3000%Q).
Proof. reflexivity. Qed.

End StartupFacts.
